(** * Installer and uninstaller of the compiler package: a shallow embedding

    The two scripts of the repository (the install script, which downloads
    and unpacks the compiler archive, and [uninstall.js]) are translated into
    functions over an explicit world: a file system, a chronological trace of
    the observable calls, and oracles that say how the network, the open
    calls and the child process answer.  Promises are computations in a
    state monad whose completions are: fulfilled, rejected, the process
    exited, or never settled. *)

From stdpp Require Import base strings pretty list gmap.

Local Open Scope string_scope.
Local Open Scope list_scope.
Local Open Scope Z_scope.

(** ** Strings *)

Definition LF : string := String (Ascii.ascii_of_nat 10) EmptyString.

(** [s.startsWith(p)] *)
Definition startsWith (p s : string) : bool := String.prefix p s.

(** Drop the first [n] characters. *)
Fixpoint drop_str (n : nat) (s : string) : string :=
  match n, s with
  | O, _ => s
  | S _, EmptyString => EmptyString
  | S n', String _ s' => drop_str n' s'
  end.

(** [s.replace(pat, rep)] with a string pattern: only the first occurrence
    of [pat] is replaced.  (No [$] pattern occurs in the replacements the
    scripts use: they are all empty.) *)
Fixpoint replace (pat rep s : string) : string :=
  if String.prefix pat s then rep +:+ drop_str (String.length pat) s
  else match s with
       | EmptyString => EmptyString
       | String c s' => String c (replace pat rep s')
       end.

(** [hay.includes(needle)], used to state what a message contains. *)
Fixpoint includes (needle hay : string) : bool :=
  if String.prefix needle hay then true
  else match hay with
       | EmptyString => false
       | String _ hay' => includes needle hay'
       end.

(** [arr.join(sep)] *)
Fixpoint join (sep : string) (l : list string) : string :=
  match l with
  | [] => ""
  | [x] => x
  | x :: rest => x +:+ sep +:+ join sep rest
  end.

(** JavaScript truthiness of a string: only the empty string is falsy. *)
Definition truthy (s : string) : bool := negb (String.eqb s "").

(** [process.env.X || ""] *)
Definition env_or_empty (v : option string) : string := default "" v.

(** [!process.env.X]: unset, or set to the empty string. *)
Definition env_falsy (v : option string) : bool :=
  match v with
  | None => true
  | Some s => negb (truthy s)
  end.

(** ** Errors, file system, events *)

Record JsError := mkJsError {
  err_name : string;
  err_code : option string;
  err_message : string
}.

(** [new Error(msg)] *)
Definition new_Error (msg : string) : JsError := mkJsError "Error" None msg.

(** What reading [.message] of [undefined] throws. *)
Definition TypeError_undefined_message : JsError :=
  mkJsError "TypeError" None
    "Cannot read properties of undefined (reading 'message')".

(** The error Node raises for a missing path. *)
Definition ENOENT_error (syscall path : string) : JsError :=
  mkJsError "Error" (Some "ENOENT")
    ("ENOENT: no such file or directory, " +:+ syscall +:+ " '" +:+ path +:+ "'").

Definition EISDIR_error (syscall path : string) : JsError :=
  mkJsError "Error" (Some "EISDIR")
    ("EISDIR: illegal operation on a directory, " +:+ syscall +:+ " '" +:+ path +:+ "'").

Definition code_is (e : JsError) (c : string) : bool :=
  match err_code e with
  | Some c' => String.eqb c' c
  | None => false
  end.

Record FsNode := mkFsNode { node_is_dir : bool; node_size : Z }.

Definition RegularFile (size : Z) : FsNode := mkFsNode false size.
Definition Directory : FsNode := mkFsNode true 4096.

(** Synchronous file-system calls whose failure the scripts observe. *)
Inductive FsOp := OpStatSync | OpMkdirSync | OpUnlinkSync | OpRmSync | OpRmdirSync.

(** How one download attempt unfolds from the call of [httpClient.get] on.
    After a 200 response, [written] is the number of bytes the file holds
    when the body stops. *)
Inductive HttpBody :=
| BodyFinish (size : Z)            (* the write stream emits 'finish' *)
| BodyFileError (written : Z) (e : JsError)
                                   (* the write stream emits 'error' *)
| BodyRequestError (written : Z) (e : JsError)
                                   (* the request emits 'error' meanwhile *)
| BodyStalled                      (* nothing more ever happens *)
| BodyAborted (written : Z).       (* the connection is cut: the response
                                      emits 'aborted', for which no handler
                                      is registered, and the write stream is
                                      never ended *)

Inductive HttpExchange :=
| ReqError (e : JsError)           (* the request emits 'error' *)
| Response (statusCode totalSize : Z) (body : HttpBody)
| NoResponse
| GetThrows (e : JsError)          (* [httpClient.get] itself throws, as it
                                      does for a URL it does not accept *)
| StreamOpenError (e : JsError).   (* the write stream cannot open its file
                                      and emits 'error' before a response
                                      has arrived: no listener is registered
                                      yet *)

(** The callback of one [fs.open], and of the [fs.close] that follows a
    successful open. *)
Inductive OpenResult :=
| OpenErr (e : JsError)
| OpenOk (fd : Z) (closeErr : option JsError).

(** Events of a spawned child process. *)
Inductive ProcEvent :=
| StdoutData (chunk : string)
| StderrData (chunk : string)
| ProcError (e : JsError)
| ProcExit (code : option Z).      (* [None] is JavaScript's [null] *)

Inductive Event :=
| ConsoleLog (s : string)
| ConsoleWarn (s : string)
| ConsoleError (s : string)
| ConsoleErrorObj (label : string) (e : JsError)
| SetTimeout (ms : Z)
| HttpGet (secure : bool) (url : string)
| FsOpen (path : string)
| FsClose (fd : Z)
| FsCall (op : FsOp) (path : string)
| FsUnlink (path : string)
| CreateWriteStream (path : string)
| CloseWriteStream (path : string)
| Spawn (cmd : string) (args : list string)
| PromiseResolve
| PromiseReject (e : JsError)
| OpInvoked
| UncaughtError (e : JsError).     (* an 'error' event without a listener *)

Definition is_HttpGet (ev : Event) : bool :=
  match ev with HttpGet _ _ => true | _ => false end.
Definition is_Spawn (ev : Event) : bool :=
  match ev with Spawn _ _ => true | _ => false end.
Definition is_FsOpen (ev : Event) : bool :=
  match ev with FsOpen _ => true | _ => false end.
Definition is_OpInvoked (ev : Event) : bool :=
  match ev with OpInvoked => true | _ => false end.
Definition is_SetTimeout (ev : Event) : bool :=
  match ev with SetTimeout _ => true | _ => false end.
Definition is_settle (ev : Event) : bool :=
  match ev with PromiseResolve | PromiseReject _ => true | _ => false end.
Definition is_FsUnlink (ev : Event) : bool :=
  match ev with FsUnlink _ => true | _ => false end.

Definition count (p : Event → bool) (t : list Event) : nat :=
  length (filter (λ ev, p ev = true) t).

(** ** The world and the promise monad *)

Record World := mkWorld {
  fs : gmap string FsNode;
  trace : list Event
}.

Inductive Completion (A : Type) :=
| Normal (a : A)          (* returned / fulfilled *)
| Throw (e : JsError)     (* threw / rejected *)
| ProcessExit (code : Z)  (* the process ends: [process.exit(code)], or an
                             uncaught 'error' event (status 1) *)
| Hang.                   (* awaits a promise that never settles *)
Arguments Normal {A} a.
Arguments Throw {A} e.
Arguments ProcessExit {A} code.
Arguments Hang {A}.

Definition M (A : Type) : Type := World → Completion A * World.

Definition ret {A} (a : A) : M A := λ w, (Normal a, w).

Definition bind {A B} (c : M A) (k : A → M B) : M B :=
  λ w, match c w with
       | (Normal a, w') => k a w'
       | (Throw e, w') => (Throw e, w')
       | (ProcessExit n, w') => (ProcessExit n, w')
       | (Hang, w') => (Hang, w')
       end.

Definition throw {A} (e : JsError) : M A := λ w, (Throw e, w).

(** [try { c } catch (e) { h e }] *)
Definition try_catch {A} (c : M A) (h : JsError → M A) : M A :=
  λ w, match c w with
       | (Throw e, w') => h e w'
       | r => r
       end.

Definition process_exit {A} (code : Z) : M A := λ w, (ProcessExit code, w).

#[global] Instance M_ret : MRet M := @ret.
#[global] Instance M_bind : MBind M := λ A B k c, bind c k.

Definition emit (ev : Event) : M unit :=
  λ w, (Normal tt, mkWorld (fs w) (trace w ++ [ev])).

Definition set_fs (f : gmap string FsNode → gmap string FsNode) : M unit :=
  λ w, (Normal tt, mkWorld (f (fs w)) (trace w)).

Definition console_log (s : string) : M unit := emit (ConsoleLog s).
Definition console_warn (s : string) : M unit := emit (ConsoleWarn s).
Definition console_error (s : string) : M unit := emit (ConsoleError s).
Definition console_error_obj (label : string) (e : JsError) : M unit :=
  emit (ConsoleErrorObj label e).

(** [await new Promise(resolve => setTimeout(resolve, ms))] *)
Definition delay (ms : Z) : M unit := emit (SetTimeout ms).

(** [fs.existsSync(p)]: false for the empty path. *)
Definition exists_in (m : gmap string FsNode) (p : string) : bool :=
  truthy p && bool_decide (is_Some (m !! p)).

Definition existsSync (p : string) : M bool := λ w, (Normal (exists_in (fs w) p), w).

(** ** Configuration and host *)

(** What the scripts read once at start-up: their own directory, the
    environment, [os.platform()], [os.arch()] and [package.json]. *)
Record Config := mkConfig {
  dirname : string;                       (* __dirname *)
  AILY_COMPILERS_PATH : option string;
  AILY_7ZA_PATH : option string;
  AILY_ZIP_URL : option string;
  os_platform : string;
  os_arch : string;
  package_name : string;                  (* packageJson.name *)
  package_version : string                (* packageJson.version *)
}.

(** How the outside answers.  The n-th GET, the n-th [fs.open] and the n-th
    spawned child get the n-th answer of their oracle; [fs_fault op p] is
    the error, if any, with which the operating system refuses the
    synchronous call [op] on [p]; the next two fields say which of
    [fs.rmSync] and [fs.rmdirSync] this Node version has.  [unlink_oracle n]
    says what becomes of the n-th asynchronous [fs.unlink]: the file is
    removed before the script looks at the file system again ([true]), or
    it is not removed while the script runs ([false]: the operating system
    refuses the call, or gets to it too late).  An unlink that lands
    between two later looks of the script is not represented. *)
Record Host := mkHost {
  fs_fault : FsOp → string → option JsError;
  http_oracle : nat → HttpExchange;
  open_oracle : nat → OpenResult;
  spawn_oracle : nat → list ProcEvent;
  has_rmSync : bool;
  has_rmdirSync : bool;
  unlink_oracle : nat → bool
}.

(** ** Synchronous file-system calls *)

Definition fs_guard (host : Host) (op : FsOp) (p : string) (k : M unit) : M unit :=
  emit (FsCall op p);;
  match fs_fault host op p with
  | Some e => throw e
  | None => k
  end.

(** [fs.statSync(p).size] *)
Definition statSync (host : Host) (p : string) : M Z :=
  emit (FsCall OpStatSync p);;
  match fs_fault host OpStatSync p with
  | Some e => throw e
  | None => λ w, match fs w !! p with
                 | Some n => (Normal (node_size n), w)
                 | None => (Throw (ENOENT_error "stat" p), w)
                 end
  end.

(** [fs.mkdirSync(p, { recursive: true })]: an existing [p] is not an
    error.  The call also creates the missing directories above [p]; the
    map records [p] alone. *)
Definition mkdirSync (host : Host) (p : string) : M unit :=
  fs_guard host OpMkdirSync p
    (λ w, match fs w !! p with
          | Some _ => (Normal tt, w)
          | None => set_fs (insert p Directory) w
          end).

(** [fs.unlinkSync(p)] *)
Definition unlinkSync (host : Host) (p : string) : M unit :=
  fs_guard host OpUnlinkSync p
    (λ w, match fs w !! p with
          | None => (Throw (ENOENT_error "unlink" p), w)
          | Some n => if node_is_dir n then (Throw (EISDIR_error "unlink" p), w)
                      else set_fs (delete p) w
          end).

(** [fs.rmSync(p, { recursive: true, force: true })]: with [force], a
    missing path is not an error. *)
Definition rmSync_force (host : Host) (p : string) : M unit :=
  fs_guard host OpRmSync p (set_fs (delete p)).

(** [fs.rmdirSync(p, { recursive: true })] *)
Definition rmdirSync (host : Host) (p : string) : M unit :=
  fs_guard host OpRmdirSync p
    (λ w, match fs w !! p with
          | None => (Throw (ENOENT_error "rmdir" p), w)
          | Some _ => set_fs (delete p) w
          end).

(** What an [unlink] that is carried out does: it removes a regular file. *)
Definition fs_after_unlink (m : gmap string FsNode) (p : string) : gmap string FsNode :=
  match m !! p with
  | Some n => if node_is_dir n then m else delete p m
  | None => m
  end.

(** [fs.unlink(p, () => { })]: the call returns at once and the empty
    callback discards whatever it reports.  Whether the file is gone when
    the script looks again is the host's answer. *)
Definition unlink_ignore (host : Host) (p : string) : M unit :=
  λ w, let n := count is_FsUnlink (trace w) in
       (Normal tt,
        mkWorld (if unlink_oracle host n then fs_after_unlink (fs w) p else fs w)
                (trace w ++ [FsUnlink p])).

(** [fs.createWriteStream(p)] returns the stream at once; the file is
    opened, and so created, only afterwards ([stream_opened]). *)
Definition createWriteStream (p : string) : M unit :=
  emit (CreateWriteStream p).

(** The write stream has opened its file: it exists, empty. *)
Definition stream_opened (p : string) : M unit :=
  set_fs (insert p (RegularFile 0)).

(** An 'error' event for which no listener is registered: Node throws it,
    nothing catches it, and the process ends with status 1. *)
Definition uncaught {A} (e : JsError) : M A :=
  emit (UncaughtError e);;
  process_exit 1.

(** ** The install script *)

Module Install.
Section Script.

(** [path.join] of Node, the rendering of [retryDelay / 1000] in a template
    literal and [(size / (1024 * 1024)).toFixed(2)] belong to the runtime
    (the last two are floating point): they are parameters. *)
Variable path_join : string → string → string.
Variable fmt_seconds : Z → string.
Variable fmt_MB : Z → string.
Variable cfg : Config.
Variable host : Host.

(** [getOSType().arch] *)
Definition getOSType_arch : string :=
  if startsWith "arm" (os_arch cfg) then "arm" else "intel".

Definition getZipBaseUrl : string :=
  let baseUrl := env_or_empty (AILY_ZIP_URL cfg) in
  baseUrl +:+ "/compilers/" +:+ os_platform cfg +:+ "/" +:+ getOSType_arch.

Definition srcDir : string := dirname cfg.
Definition destDir : string := env_or_empty (AILY_COMPILERS_PATH cfg).
Definition _7zaPath : string := env_or_empty (AILY_7ZA_PATH cfg).
Definition zipDownloadBaseUrl : string := getZipBaseUrl.

(** The number of iterations the loop [for (...; attempt <= maxRetries;
    attempt++)] still makes when it tests its guard at [attempt]. *)
Definition iterations_left (maxRetries attempt : Z) : nat :=
  Z.to_nat (maxRetries + 1 - attempt).

(** The [for] loop of [withRetry], from [attempt] on.  [remaining] is
    [iterations_left maxRetries attempt]: it is zero exactly when the guard
    [attempt <= maxRetries] fails ([iterations_left_guard]). *)
Fixpoint withRetry_loop {T} (fn : M T) (maxRetries retryDelay : Z)
    (remaining : nat) (attempt : Z) (lastError : option JsError) : M T :=
  match remaining with
  | O =>
      match lastError with
      | None => throw TypeError_undefined_message
      | Some e =>
          throw (new_Error ("经过 " +:+ pretty maxRetries
                            +:+ " 次尝试后操作仍然失败: " +:+ err_message e))
      end
  | S remaining' =>
      try_catch fn (λ error,
        console_log ("操作失败 (尝试 " +:+ pretty attempt +:+ "/"
                     +:+ pretty maxRetries +:+ "): " +:+ err_message error);;
        (if attempt <? maxRetries
         then console_log ("等待 " +:+ fmt_seconds retryDelay +:+ " 秒后重试...");;
              delay retryDelay
         else mret tt);;
        withRetry_loop fn maxRetries retryDelay remaining' (attempt + 1) (Some error))
  end.

Definition withRetry {T} (fn : M T) (maxRetries retryDelay : Z) : M T :=
  withRetry_loop fn maxRetries retryDelay (iterations_left maxRetries 1) 1 None.

(** [resolve()] and [reject(e)] of the promise [waitForFileReady] builds. *)
Definition resolve : M unit := emit PromiseResolve.
Definition reject (e : JsError) : M unit := emit (PromiseReject e);; throw e.

(** The callback of the next [fs.open]. *)
Definition fs_open (filePath : string) : M OpenResult :=
  λ w, let n := count is_FsOpen (trace w) in
       (Normal (open_oracle host n), mkWorld (fs w) (trace w ++ [FsOpen filePath])).

Definition transient (err : JsError) : bool :=
  code_is err "EBUSY" || code_is err "ENOENT" || code_is err "EPERM".

(** The number of further polls [checkFile] may schedule once [attempts]
    polls have been made. *)
Definition polls_left (maxAttempts attempts : Z) : nat :=
  Z.to_nat (maxAttempts - attempts).

(** [checkFile], entered with the current value of [attempts].
    [remaining] is [polls_left maxAttempts (attempts + 1)]: it is not zero
    exactly when the test [attempts < maxAttempts], made after the
    increment, succeeds ([polls_left_guard]). *)
Fixpoint checkFile (filePath : string) (maxAttempts interval : Z)
    (remaining : nat) (attempts : Z) : M unit :=
  let attempts := attempts + 1 in
  r ← fs_open filePath;
  match r with
  | OpenErr err =>
      if transient err then
        match remaining with
        | S remaining' =>
            console_log ("文件暂时不可用，等待中... (" +:+ pretty attempts +:+ "/"
                         +:+ pretty maxAttempts +:+ ")");;
            emit (SetTimeout interval);;
            checkFile filePath maxAttempts interval remaining' attempts
        | O =>
            reject (new_Error ("文件在 " +:+ pretty maxAttempts
                               +:+ " 次尝试后仍不可用: " +:+ filePath))
        end
      else reject err
  | OpenOk fd closeErr =>
      emit (FsClose fd);;
      match closeErr with
      | Some e => console_warn ("关闭文件描述符时出错: " +:+ err_message e)
      | None => mret tt
      end;;
      console_log "文件已就绪，可以进行解压操作";;
      resolve
  end.

Definition waitForFileReady (filePath : string) (maxAttempts interval : Z) : M unit :=
  checkFile filePath maxAttempts interval (polls_left maxAttempts (0 + 1)) 0.

Definition getZipFileName : string :=
  let prefix := "@aily-project/compiler-" in
  let packageName := replace prefix "" (package_name cfg) in
  let packageVersion := package_version cfg in
  packageName +:+ "@" +:+ packageVersion +:+ ".7z".

(** [httpClient.get(url, ...)]: how the attempt that starts with this call
    unfolds. *)
Definition http_get (url : string) : M HttpExchange :=
  λ w, let n := count is_HttpGet (trace w) in
       (Normal (http_oracle host n),
        mkWorld (fs w) (trace w ++ [HttpGet (startsWith "https://" url) url])).

Definition hang {A} : M A := λ w, (Hang, w).

(** [getZipFile].  The write stream is created before the request is made
    and opens its file only afterwards; its 'error' listener is registered
    in the callback of a 200 response, so an 'error' of the stream before
    that is taken by no one.  When [httpClient.get] throws, the executor of
    the promise rejects with what was thrown and nothing unlinks the file.
    The 'data' handler only writes a progress line to the standard output;
    it is left out of the trace. *)
Definition getZipFile : M string :=
  let zipFileName := getZipFileName in
  let downloadUrl := zipDownloadBaseUrl +:+ "/" +:+ zipFileName in
  console_log ("正在下载: " +:+ downloadUrl);;
  let filePath := path_join (dirname cfg) zipFileName in
  existsSync filePath ≫= λ present : bool,
  if present then
    console_log ("文件已存在: " +:+ zipFileName);;
    mret zipFileName
  else
    createWriteStream filePath;;
    x ← http_get downloadUrl;
    match x with
    | GetThrows err => stream_opened filePath;; throw err
    | StreamOpenError err => uncaught err
    | ReqError err => stream_opened filePath;; unlink_ignore host filePath;; throw err
    | NoResponse => stream_opened filePath;; hang
    | Response statusCode totalSize body =>
        stream_opened filePath;;
        if negb (statusCode =? 200) then
          emit (CloseWriteStream filePath);;
          unlink_ignore host filePath;;
          throw (new_Error ("下载失败: 状态码 " +:+ pretty statusCode))
        else
          match body with
          | BodyFinish size =>
              set_fs (insert filePath (RegularFile size));;
              (if 0 <? totalSize then console_log "" else mret tt);;
              emit (CloseWriteStream filePath);;
              console_log ("成功下载 " +:+ zipFileName);;
              delay 200;;
              mret zipFileName
          | BodyFileError written err =>
              set_fs (insert filePath (RegularFile written));;
              unlink_ignore host filePath;; throw err
          | BodyRequestError written err =>
              set_fs (insert filePath (RegularFile written));;
              unlink_ignore host filePath;; throw err
          | BodyStalled => hang
          | BodyAborted written =>
              set_fs (insert filePath (RegularFile written));; hang
          end
    end.

(** [`${code}`] for an exit code. *)
Definition show_code (code : option Z) : string :=
  match code with
  | Some c => pretty c
  | None => "null"
  end.

(** The first of [resolve]/[reject] settles the promise. *)
Definition settle (settled : option (Completion unit)) (c : Completion unit)
    : option (Completion unit) :=
  match settled with
  | Some _ => settled
  | None => Some c
  end.

(** The handlers [unpack] registers, run over the events of the child. *)
Fixpoint child_events (events : list ProcEvent) (output : string)
    (settled : option (Completion unit)) : M unit :=
  match events with
  | [] => λ w : World, (default Hang settled, w)
  | StdoutData chunk :: rest => child_events rest (output +:+ chunk) settled
  | StderrData chunk :: rest => child_events rest (output +:+ chunk) settled
  | ProcError err :: rest =>
      console_error_obj "7-zip 错误:" err;;
      child_events rest output (settle settled (Throw err))
  | ProcExit code :: rest =>
      child_events rest output
        (settle settled
           (if bool_decide (code = Some 0) then Normal tt
            else Throw (new_Error ("7-zip 退出码 " +:+ show_code code +:+ LF +:+ output))))
  end.

(** [spawn(cmd, args, { windowsHide: true })]: the events of the child. *)
Definition spawn (cmd : string) (args : list string) : M (list ProcEvent) :=
  λ w, let n := count is_Spawn (trace w) in
       (Normal (spawn_oracle host n), mkWorld (fs w) (trace w ++ [Spawn cmd args])).

Definition unpack (archivePath destination : string) : M unit :=
  if negb (truthy archivePath) then throw (new_Error "压缩文件路径不能为空")
  else if negb (truthy destination) then throw (new_Error "目标目录不能为空")
  else
    let args := ["x"; archivePath; "-y"; "-o" +:+ destination] in
    console_log ("执行命令: " +:+ _7zaPath +:+ " " +:+ join " " args);;
    events ← spawn _7zaPath args;
    child_events events "" None.

(** Lines 258-272: the size check on the downloaded file. *)
Definition checkDownloadedFile (zipFilePath : string) : M unit :=
  try_catch
    (size ← statSync host zipFilePath;
     if size <? 1048576 then
       throw (new_Error ("下载的文件异常小 (" +:+ pretty size
                         +:+ " 字节)，可能下载不完整或被截断"))
     else console_log ("文件大小: " +:+ fmt_MB size +:+ "MB"))
    (λ statErr,
       if code_is statErr "ENOENT"
       then throw (new_Error ("下载的文件不存在: " +:+ zipFilePath))
       else throw (new_Error ("检查文件失败: " +:+ err_message statErr))).

(** Lines 274-293: the readiness wait and the extraction. *)
Definition waitAndUnpack (fileName zipFilePath : string) : M unit :=
  try_catch (waitForFileReady zipFilePath 20 500)
    (λ waitErr, throw (new_Error ("等待文件就绪失败: " +:+ err_message waitErr)));;
  try_catch
    (withRetry (unpack zipFilePath destDir) 3 2000;;
     console_log ("已解压 " +:+ fileName +:+ " 到 " +:+ destDir))
    (λ unpackErr, throw (new_Error ("解压失败: " +:+ err_message unpackErr))).

(** Lines 250-293: what follows the precondition checks. *)
Definition downloadAndUnpack : M unit :=
  fileName ← try_catch (withRetry getZipFile 3 2000)
    (λ downloadErr, throw (new_Error ("无法下载zip文件: " +:+ err_message downloadErr)));
  let zipFilePath := path_join (dirname cfg) fileName in
  checkDownloadedFile zipFilePath;;
  waitAndUnpack fileName zipFilePath.

Definition targetDirName : string := replace ".7z" "" getZipFileName.
Definition targetPath : string := path_join destDir targetDirName.

(** The body of the [try] of [extractArchives]. *)
Definition extractArchives_try : M unit :=
  existsSync srcDir ≫= λ srcOk : bool,
  if negb srcOk then console_error ("源目录不存在: " +:+ srcDir)
  else if negb (truthy destDir) then console_error "未设置目标目录"
  else
    existsSync targetPath ≫= λ targetExists : bool,
    if targetExists then
      console_log ("目标文件夹已存在: " +:+ targetPath);;
      console_log "跳过下载和解压操作。"
    else
      existsSync _7zaPath ≫= λ toolOk : bool,
      if negb toolOk then console_error ("7za.exe 不存在: " +:+ _7zaPath)
      else
        (existsSync destDir ≫= λ destOk : bool,
         if negb destOk then
           console_log ("目标目录不存在，创建: " +:+ destDir);;
           mkdirSync host destDir
         else mret tt);;
        (if env_falsy (AILY_ZIP_URL cfg)
         then throw (new_Error "未设置下载基础 URL (AILY_ZIP_URL 环境变量未设置)")
         else mret tt);;
        (existsSync destDir ≫= λ destOk : bool,
         if negb destOk then
           console_log ("目标目录不存在，创建: " +:+ destDir);;
           try_catch (mkdirSync host destDir)
             (λ mkdirErr, throw (new_Error ("无法创建目标目录: " +:+ destDir
                                            +:+ ", 错误: " +:+ err_message mkdirErr)))
         else mret tt);;
        downloadAndUnpack.

Definition extractArchives : M unit :=
  try_catch extractArchives_try
    (λ err, console_error_obj "无法读取目录:" err;; process_exit 1).

(** [extractArchives().catch(...)], the last statement of the script. *)
Definition main : M unit :=
  try_catch extractArchives (λ err, console_error_obj "执行失败:" err).

End Script.
End Install.

(** The exit status of the process when the script ends with this
    completion: [process.exit(n)] gives [n], running to the end gives 0, an
    uncaught rejection gives 1, and a promise that never settles gives none. *)
Definition exit_status {A} (c : Completion A) : option Z :=
  match c with
  | Normal _ => Some 0
  | Throw _ => Some 1
  | ProcessExit n => Some n
  | Hang => None
  end.

(** ** The uninstall script, [uninstall.js] *)

Module Uninstall.
Section Script.

Variable path_join : string → string → string.
Variable cfg : Config.
Variable host : Host.

Definition srcDir : string := dirname cfg.
Definition destDir : string := env_or_empty (AILY_COMPILERS_PATH cfg).
Definition prefix : string := "@aily-project/compiler-".
Definition packageName : string := replace prefix "" (package_name cfg).
Definition packageVersion : string := package_version cfg.
Definition zipFileName : string := packageName +:+ "@" +:+ packageVersion +:+ ".7z".
Definition zipFilePath : string := path_join srcDir zipFileName.
Definition compilerDirName : string := packageName +:+ "@" +:+ packageVersion.
Definition compilerPath : string :=
  if truthy destDir then path_join destDir compilerDirName else "".

(** [try { ... } catch (err) { ... } finally { resolve(); }]: the promise is
    fulfilled whichever branch ran. *)
Definition removeFile (filePath : string) : M unit :=
  try_catch
    (unlinkSync host filePath;;
     console_log ("已成功删除文件: " +:+ filePath))
    (λ err,
       if code_is err "ENOENT"
       then console_log ("文件不存在，无需删除: " +:+ filePath)
       else console_warn ("删除文件失败: " +:+ filePath +:+ ", 错误: " +:+ err_message err)).

Definition removeDirectory (dirPath : string) : M unit :=
  try_catch
    ((if has_rmSync host then rmSync_force host dirPath
      else if has_rmdirSync host then rmdirSync host dirPath
      else throw (new_Error "当前Node.js版本不支持递归删除目录"));;
     console_log ("已成功删除目录: " +:+ dirPath))
    (λ err,
       if code_is err "ENOENT"
       then console_log ("目录不存在，无需删除: " +:+ dirPath)
       else console_warn ("删除目录失败: " +:+ dirPath +:+ ", 错误: " +:+ err_message err)).

Definition uninstall : M unit :=
  console_log (LF +:+ "=========================================" +:+ LF
               +:+ "开始卸载编译器: " +:+ packageName +:+ " v" +:+ packageVersion +:+ LF
               +:+ "=========================================");;
  console_log (LF +:+ "[步骤1] 清理下载的压缩文件");;
  removeFile zipFilePath;;
  (if negb (truthy destDir) then
     console_log (LF +:+ "[步骤2] 未设置目标目录环境变量 AILY_COMPILERS_PATH，跳过编译器目录清理")
   else
     console_log (LF +:+ "[步骤2] 清理编译器目录: " +:+ compilerPath);;
     removeDirectory compilerPath);;
  console_log (LF +:+ "=========================================" +:+ LF
               +:+ "卸载完成: " +:+ packageName +:+ LF
               +:+ "=========================================").

(** [if (require.main === module) uninstall().catch(...)] *)
Definition main : M unit :=
  try_catch uninstall
    (λ err, console_error ("卸载过程中发生错误: " +:+ err_message err);;
            process_exit 1).

End Script.
End Uninstall.

(** ** A sample configuration, host and world for concrete runs *)

Definition sample_join (a b : string) : string := a +:+ "/" +:+ b.
Definition sample_seconds (ms : Z) : string := pretty (ms / 1000).
Definition sample_MB (bytes : Z) : string := pretty (bytes / 1048576) +:+ ".00".

Definition sample_cfg : Config :=
  mkConfig "/pkg" (Some "/opt/compilers") (Some "/bin/7za") (Some "https://dl.example")
           "linux" "x64" "@aily-project/compiler-esp-x32" "1.0.0".

Definition quiet_host : Host :=
  mkHost (λ _ _, None)
         (λ _, Response 200 0 (BodyFinish 2097152))
         (λ _, OpenOk 3 None)
         (λ _, [ProcExit (Some 0)])
         true true (λ _, true).

Definition sample_fs : gmap string FsNode :=
  <["/pkg" := Directory]> (<["/bin/7za" := RegularFile 100]> ∅).

Definition sample_world : World := mkWorld sample_fs [].

(** A version whose prerelease tag contains the archive extension. *)
Definition dotted_cfg : Config :=
  mkConfig "/pkg" (Some "/opt/compilers") (Some "/bin/7za") (Some "https://dl.example")
           "linux" "x64" "@aily-project/compiler-esp-x32" "1.0.0-a.7z.b".

Definition fails_twice : nat → JsError + Z :=
  λ n, if (n <? 2)%nat then inl (new_Error "boom") else inr 7.

Definition EBUSY_error : JsError := mkJsError "Error" (Some "EBUSY") "EBUSY: resource busy or locked".

(** The file is locked for the first two polls. *)
Definition busy_host : Host :=
  mkHost (λ _ _, None) (λ _, Response 200 0 (BodyFinish 2097152))
         (λ n, if (n <? 2)%nat then OpenErr EBUSY_error else OpenOk 3 None)
         (λ _, [ProcExit (Some 0)]) true true (λ _, true).

(** The server answers 404. *)
Definition missing_host : Host :=
  mkHost (λ _ _, None) (λ _, Response 404 0 BodyStalled) (λ _, OpenOk 3 None)
         (λ _, [ProcExit (Some 0)]) true true (λ _, true).

(** The server answers 404, and what [fs.unlink] is asked to remove stays
    on disk. *)
Definition sticky_host : Host :=
  mkHost (λ _ _, None) (λ _, Response 404 0 BodyStalled) (λ _, OpenOk 3 None)
         (λ _, [ProcExit (Some 0)]) true true (λ _, false).

(** The server delivers 500 KiB. *)
Definition truncating_host : Host :=
  mkHost (λ _ _, None) (λ _, Response 200 512000 (BodyFinish 512000)) (λ _, OpenOk 3 None)
         (λ _, [ProcExit (Some 0)]) true true (λ _, true).

(** The archive tool prints a diagnostic and exits with code 2. *)
Definition failing_tool_host : Host :=
  mkHost (λ _ _, None) (λ _, Response 200 0 (BodyFinish 2097152)) (λ _, OpenOk 3 None)
         (λ _, [StdoutData "7-Zip "; StderrData "ERROR: bad archive"; ProcExit (Some 2)])
         true true (λ _, true).

Definition installed_world : World :=
  mkWorld (<["/opt/compilers/esp-x32@1.0.0" := Directory]> sample_fs) [].

(** [AILY_COMPILERS_PATH] is not set. *)
Definition no_dest_cfg : Config :=
  mkConfig "/pkg" None (Some "/bin/7za") (Some "https://dl.example")
           "linux" "x64" "@aily-project/compiler-esp-x32" "1.0.0".

(** ** Instrumentation used to state the properties *)

(** An operation that answers its n-th invocation with [outcomes n]
    (rejecting with an error or fulfilling with a value) and leaves the mark
    [OpInvoked] in the trace each time it is invoked. *)
Definition scripted {T} (outcomes : nat → JsError + T) : M T :=
  λ w, let n := count is_OpInvoked (trace w) in
       (match outcomes n with
        | inl e => Throw e
        | inr v => Normal v
        end,
        mkWorld (fs w) (trace w ++ [OpInvoked])).

(** [calls] invocations with one timer of [d] milliseconds between each two
    consecutive ones, and none after the last. *)
Fixpoint call_schedule (calls : nat) (d : Z) : list Event :=
  match calls with
  | O => []
  | S O => [OpInvoked]
  | S (S _ as m) => OpInvoked :: SetTimeout d :: call_schedule m d
  end.

Definition is_call_or_timer (ev : Event) : bool := is_OpInvoked ev || is_SetTimeout ev.

(** The run [r] from [w] added events to the trace among which the
    invocations and timers are exactly [call_schedule calls d]. *)
Definition retried {T} (w : World) (r : Completion T * World) (calls : nat) (d : Z) : Prop :=
  ∃ new, trace r.2 = trace w ++ new
         ∧ count is_OpInvoked new = calls
         ∧ filter (λ ev, is_call_or_timer ev = true) new = call_schedule calls d.

(** What one failed attempt of [withRetry] adds to the trace when the
    operation is [scripted]. *)
Definition failure_events (fmt_seconds : Z → string) (maxRetries retryDelay attempt : Z)
    (e : JsError) : list Event :=
  [OpInvoked;
   ConsoleLog ("操作失败 (尝试 " +:+ pretty attempt +:+ "/" +:+ pretty maxRetries
               +:+ "): " +:+ err_message e)]
  ++ (if attempt <? maxRetries
      then [ConsoleLog ("等待 " +:+ fmt_seconds retryDelay +:+ " 秒后重试...");
            SetTimeout retryDelay]
      else []).

Definition exhausted_message (maxRetries : Z) (e : JsError) : string :=
  "经过 " +:+ pretty maxRetries +:+ " 次尝试后操作仍然失败: " +:+ err_message e.

(** The error codes the readiness gate treats as transient. *)
Definition retriable_code (e : JsError) : Prop :=
  err_code e = Some "EBUSY" ∨ err_code e = Some "ENOENT" ∨ err_code e = Some "EPERM".

(** What one unsuccessful poll that is followed by another adds. *)
Definition poll_events (filePath : string) (maxAttempts interval attempts : Z) : list Event :=
  [FsOpen filePath;
   ConsoleLog ("文件暂时不可用，等待中... (" +:+ pretty attempts +:+ "/"
               +:+ pretty maxAttempts +:+ ")");
   SetTimeout interval].

Definition unavailable_message (filePath : string) (maxAttempts : Z) : string :=
  "文件在 " +:+ pretty maxAttempts +:+ " 次尝试后仍不可用: " +:+ filePath.

(** The run [r] from [w] opened the file [polls] times and called exactly
    one of [resolve] and [reject], once. *)
Definition polled {T} (w : World) (r : Completion T * World) (polls : nat) : Prop :=
  ∃ new, trace r.2 = trace w ++ new
         ∧ count is_FsOpen new = polls
         ∧ count is_settle new = 1%nat.

(** The run [r] from [w] started a write stream on [filePath], issued one
    GET and, as the last thing it did, asked once for the file to be
    unlinked; the file is absent afterwards exactly when that unlink has
    been carried out. *)
Definition partial_file_unlinked {T} (host : Host) (w : World) (r : Completion T * World)
    (filePath : string) : Prop :=
  (fs r.2 !! filePath = None ↔ unlink_oracle host (count is_FsUnlink (trace w)) = true)
  ∧ ∃ new, trace r.2 = trace w ++ new
           ∧ CreateWriteStream filePath ∈ new
           ∧ last new = Some (FsUnlink filePath)
           ∧ count is_HttpGet new = 1%nat
           ∧ count is_FsUnlink new = 1%nat.

Definition is_data (ev : ProcEvent) : bool :=
  match ev with StdoutData _ | StderrData _ => true | _ => false end.

Definition chunk_text (ev : ProcEvent) : string :=
  match ev with StdoutData c | StderrData c => c | _ => "" end.

(** The text captured from the data events [out], in order of arrival. *)
Definition captured (out : list ProcEvent) : string :=
  fold_left (λ output ev, output +:+ chunk_text ev) out "".

Definition only_data (out : list ProcEvent) : Prop := Forall (λ ev, is_data ev = true) out.

(** Every event the computation [c] adds to the trace satisfies [p]. *)
Definition adds (p : Event → bool) {T} (c : M T) : Prop :=
  ∀ w, ∃ new, trace (c w).2 = trace w ++ new ∧ forallb p new = true.

(** Events other than those of the readiness wait and of the extraction. *)
Definition before_extraction (ev : Event) : bool := negb (is_FsOpen ev || is_Spawn ev).

Definition any_event (ev : Event) : bool := true.

(** The first events the computation [c] adds to the trace are [evs]. *)
Definition begins_with (evs : list Event) {T} (c : M T) : Prop :=
  ∀ w, ∃ rest, trace (c w).2 = trace w ++ evs ++ rest.

(** The message of the failure the size check ends in. *)
Definition too_small_message (size : Z) : string :=
  "检查文件失败: " +:+ "下载的文件异常小 (" +:+ pretty size +:+ " 字节)，可能下载不完整或被截断".

(** The precondition checks of the install orchestrator. *)
Inductive Precondition := SourceDirectory | DestinationDirectory | ArchiveTool | DownloadBaseUrl.

Section Preconditions.
Variable path_join : string → string → string.
Variable cfg : Config.
Variable host : Host.

(** The check that fails, if one does, taking the checks in the order in
    which the orchestrator makes them: none is made once the target
    directory was found, or once creating the destination directory
    failed. *)
Definition failed_precondition (w : World) : option Precondition :=
  if negb (exists_in (fs w) (Install.srcDir cfg)) then Some SourceDirectory
  else if negb (truthy (Install.destDir cfg)) then Some DestinationDirectory
  else if exists_in (fs w) (Install.targetPath path_join cfg) then None
  else if negb (exists_in (fs w) (Install._7zaPath cfg)) then Some ArchiveTool
  else if negb (exists_in (fs w) (Install.destDir cfg))
          && bool_decide (is_Some (fs_fault host OpMkdirSync (Install.destDir cfg))) then None
  else if env_falsy (AILY_ZIP_URL cfg) then Some DownloadBaseUrl
  else None.

(** The error each failed check logs. *)
Definition precondition_error (c : Precondition) : Event :=
  match c with
  | SourceDirectory => ConsoleError ("源目录不存在: " +:+ Install.srcDir cfg)
  | DestinationDirectory => ConsoleError "未设置目标目录"
  | ArchiveTool => ConsoleError ("7za.exe 不存在: " +:+ Install._7zaPath cfg)
  | DownloadBaseUrl =>
      ConsoleErrorObj "无法读取目录:"
        (new_Error "未设置下载基础 URL (AILY_ZIP_URL 环境变量未设置)")
  end.

(** All checks pass and the target directory is not there yet. *)
Definition ready_to_download (w : World) : bool :=
  exists_in (fs w) (Install.srcDir cfg) && truthy (Install.destDir cfg)
  && negb (exists_in (fs w) (Install.targetPath path_join cfg))
  && exists_in (fs w) (Install._7zaPath cfg)
  && (exists_in (fs w) (Install.destDir cfg)
      || bool_decide (fs_fault host OpMkdirSync (Install.destDir cfg) = None))
  && negb (env_falsy (AILY_ZIP_URL cfg)).

(** The world in which the download starts: the destination directory has
    been created if it was missing. *)
Definition after_checks (w : World) : World :=
  if exists_in (fs w) (Install.destDir cfg) then w
  else mkWorld (<[Install.destDir cfg := Directory]> (fs w))
               (trace w ++ [ConsoleLog ("目标目录不存在，创建: " +:+ Install.destDir cfg);
                            FsCall OpMkdirSync (Install.destDir cfg)]).

End Preconditions.

(** The download in the sample world when the server truncates, and the
    size measured afterwards. *)
Definition truncated_download : Completion string * World :=
  Install.withRetry sample_seconds (Install.getZipFile sample_join sample_cfg truncating_host)
    3 2000 (after_checks sample_cfg sample_world).

Definition truncated_measured : Completion Z * World :=
  statSync truncating_host (sample_join "/pkg" "esp-x32@1.0.0.7z") truncated_download.2.

(** The [catch] of [extractArchives]. *)
Definition exit_on_error : JsError → M unit :=
  λ err, console_error_obj "无法读取目录:" err;; process_exit 1.

(** ** Further instrumentation *)

(** The operation [fn], leaving the mark [OpInvoked] each time it is
    invoked. *)
Definition counted {T} (fn : M T) : M T := emit OpInvoked;; fn.

(** Events that are neither an invocation mark nor a timer. *)
Definition not_call_or_timer (ev : Event) : bool := negb (is_call_or_timer ev).


(** [polls] opens of [path] with one timer of [interval] milliseconds
    between each two consecutive ones, and none after the last. *)
Fixpoint poll_schedule (path : string) (polls : nat) (interval : Z) : list Event :=
  match polls with
  | O => []
  | S O => [FsOpen path]
  | S (S _ as m) => FsOpen path :: SetTimeout interval :: poll_schedule path m interval
  end.

Definition is_open_or_timer (ev : Event) : bool := is_FsOpen ev || is_SetTimeout ev.


(** What [withRetry] itself adds to the trace after a failed attempt. *)
Definition retry_events (fmt_seconds : Z → string) (maxRetries retryDelay attempt : Z)
    (e : JsError) : list Event :=
  ConsoleLog ("操作失败 (尝试 " +:+ pretty attempt +:+ "/" +:+ pretty maxRetries
              +:+ "): " +:+ err_message e)
  :: (if attempt <? maxRetries
      then [ConsoleLog ("等待 " +:+ fmt_seconds retryDelay +:+ " 秒后重试...");
            SetTimeout retryDelay]
      else []).

(** An answer to a GET that a handler of [getZipFile] turns into a
    rejection, after asking for the file to be unlinked: an 'error' of the
    request, a status other than 200, or an 'error' while the body is
    written. *)
Definition failing_answer (x : HttpExchange) : Prop :=
  match x with
  | ReqError _ => True
  | Response statusCode _ body =>
      statusCode ≠ 200
      ∨ match body with
        | BodyFileError _ _ | BodyRequestError _ _ => True
        | _ => False
        end
  | _ => False
  end.

(** An answer to a GET after which no handler of [getZipFile] settles its
    promise: no response and no 'error', or a 200 response whose body
    neither finishes nor fails (it stalls, or the connection is cut). *)
Definition stalling_answer (x : HttpExchange) : Prop :=
  match x with
  | NoResponse => True
  | Response statusCode _ (BodyStalled | BodyAborted _) => statusCode = 200
  | _ => False
  end.


(** The size of the file a rejecting attempt of [getZipFile] leaves behind,
    if it leaves one; [done] says whether the unlink it asked for has been
    carried out.  When [httpClient.get] throws, no unlink is asked for. *)
Definition leftover_size (x : HttpExchange) (done : bool) : option Z :=
  match x with
  | GetThrows _ => Some 0
  | ReqError _ => if done then None else Some 0
  | Response statusCode _ body =>
      if negb (statusCode =? 200) then (if done then None else Some 0)
      else match body with
           | BodyFileError written _ | BodyRequestError written _ =>
               if done then None else Some written
           | _ => None
           end
  | _ => None
  end.

(** Console output only. *)
Definition is_console (ev : Event) : bool :=
  match ev with
  | ConsoleLog _ | ConsoleWarn _ | ConsoleError _ | ConsoleErrorObj _ _ => true
  | _ => false
  end.

(** Console output and the creation of a directory: what the install
    script may do before its checks have passed. *)
Definition is_preparation (ev : Event) : bool :=
  match ev with
  | FsCall OpMkdirSync _ => true
  | _ => is_console ev
  end.

(** An exit of the child with a code other than 0, after output only. *)
Definition failing_run (events out : list ProcEvent) (code : option Z) : Prop :=
  only_data out ∧ code ≠ Some 0 ∧ ∃ rest, events = out ++ ProcExit code :: rest.

(** The computation never ends the process. *)
Definition never_exits {T} (c : M T) : Prop := ∀ w n, (c w).1 ≠ ProcessExit n.

(** The computation ends the process only by an uncaught 'error' event:
    with status 1, the event being the last of the trace. *)
Definition exits_uncaught {T} (c : M T) : Prop :=
  ∀ w n, (c w).1 = ProcessExit n →
         n = 1 ∧ ∃ e, last (trace (c w).2) = Some (UncaughtError e).

(** Requests, opens, spawns and timers: what a run does besides logging
    and its own file-system calls. *)
Definition is_io (ev : Event) : bool :=
  is_HttpGet ev || is_FsOpen ev || is_Spawn ev || is_SetTimeout ev.

(** [n] times the event [ev], with one timer of [d] milliseconds between
    each two consecutive ones, and none after the last. *)
Fixpoint spaced (ev : Event) (n : nat) (d : Z) : list Event :=
  match n with
  | O => []
  | S O => [ev]
  | S (S _ as m) => ev :: SetTimeout d :: spaced ev m d
  end.

(** What is written with [console.error], what with [console.warn], and the
    calls that delete a directory. *)
Definition is_error_report (ev : Event) : bool :=
  match ev with
  | ConsoleError _ | ConsoleErrorObj _ _ => true
  | _ => false
  end.

Definition is_warning (ev : Event) : bool :=
  match ev with
  | ConsoleWarn _ => true
  | _ => false
  end.

Definition is_removal (ev : Event) : bool :=
  match ev with
  | FsCall OpRmSync _ | FsCall OpRmdirSync _ => true
  | _ => false
  end.

Definition is_FsCall (ev : Event) : bool :=
  match ev with
  | FsCall _ _ => true
  | _ => false
  end.

(** ** Further sample hosts and worlds *)

(** The server answers 503 once, then delivers 2 MiB. *)
Definition flaky_server_host : Host :=
  mkHost (λ _ _, None)
         (λ n, if (n <? 1)%nat then Response 503 0 BodyStalled
               else Response 200 0 (BodyFinish 2097152))
         (λ _, OpenOk 3 None) (λ _, [ProcExit (Some 0)]) true true (λ _, true).

(** The archive tool fails once, then succeeds. *)
Definition flaky_tool_host : Host :=
  mkHost (λ _ _, None) (λ _, Response 200 0 (BodyFinish 2097152)) (λ _, OpenOk 3 None)
         (λ n, if (n <? 1)%nat then [StderrData "ERROR: cannot open"; ProcExit (Some 2)]
               else [StdoutData "Everything is Ok"; ProcExit (Some 0)])
         true true (λ _, true).

(** The archive tool prints and then neither exits nor fails. *)
Definition stuck_tool_host : Host :=
  mkHost (λ _ _, None) (λ _, Response 200 0 (BodyFinish 2097152)) (λ _, OpenOk 3 None)
         (λ _, [StdoutData "7-Zip "]) true true (λ _, true).

(** The open of the readiness wait always fails with EBUSY. *)
Definition locked_host : Host :=
  mkHost (λ _ _, None) (λ _, Response 200 0 (BodyFinish 2097152)) (λ _, OpenErr EBUSY_error)
         (λ _, [ProcExit (Some 0)]) true true (λ _, true).




(** A Node version with neither [fs.rmSync] nor [fs.rmdirSync]. *)
Definition old_node_host : Host :=
  mkHost (λ _ _, None) (λ _, Response 200 0 (BodyFinish 2097152)) (λ _, OpenOk 3 None)
         (λ _, [ProcExit (Some 0)]) false false (λ _, true).

Definition sample_archive : string := "/pkg/esp-x32@1.0.0.7z".

(** The destination directory exists. *)
Definition prepared_world : World :=
  mkWorld (<["/opt/compilers" := Directory]> sample_fs) [].

(** A 1000-byte archive file is left from an earlier run. *)
Definition stale_world : World :=
  mkWorld (<[sample_archive := RegularFile 1000]> sample_fs) [].

(** The GET and the spawn of the sample configuration. *)
Definition sample_get : Event :=
  HttpGet true "https://dl.example/compilers/linux/intel/esp-x32@1.0.0.7z".

Definition sample_spawn : Event :=
  Spawn "/bin/7za" ["x"; sample_archive; "-y"; "-o/opt/compilers"].

(** The disk is full: the write stream cannot open its file. *)
Definition ENOSPC_error : JsError :=
  mkJsError "Error" (Some "ENOSPC") "ENOSPC: no space left on device".

Definition full_disk_host : Host :=
  mkHost (λ _ _, None) (λ _, StreamOpenError ENOSPC_error) (λ _, OpenOk 3 None)
         (λ _, [ProcExit (Some 0)]) true true (λ _, true).


(** The archive and the compiler directory are both there. *)
Definition unpacked_world : World :=
  mkWorld (<[sample_archive := RegularFile 2097152]>
             (<["/opt/compilers/esp-x32@1.0.0" := Directory]> sample_fs)) [].

(** The server accepts the request and never answers. *)
Definition silent_host : Host :=
  mkHost (λ _ _, None) (λ _, NoResponse) (λ _, OpenOk 3 None)
         (λ _, [ProcExit (Some 0)]) true true (λ _, true).

(** ** Proof automation *)

Ltac unfold_M :=
  unfold mbind, M_bind, bind, mret, M_ret, ret, console_log, console_warn, console_error,
    console_error_obj, delay, emit, throw, set_fs, process_exit; cbn [fs trace fst snd].

Ltac norm_world := cbn [fs trace fst snd]; rewrite <- ?app_assoc; cbn [app].

(** ** Strings: what a message contains *)

Lemma prefix_append (p s : string) : String.prefix p (p +:+ s) = true.
Proof.
  induction p as [|c p IH]; simpl.
  - by destruct s.
  - destruct (Ascii.ascii_dec c c); [apply IH | congruence].
Qed.

Lemma includes_prefix (n s : string) : String.prefix n s = true → includes n s = true.
Proof. intros H. destruct s; simpl; simpl in H; rewrite H; reflexivity. Qed.

Lemma includes_here (n rest : string) : includes n (n +:+ rest) = true.
Proof. apply includes_prefix, prefix_append. Qed.

Lemma includes_append_r (n a b : string) : includes n b = true → includes n (a +:+ b) = true.
Proof.
  intros H. induction a as [|c a IH]; [exact H|].
  change (String c a +:+ b) with (String c (a +:+ b)).
  cbn [includes]. rewrite IH. by destruct (String.prefix n _).
Qed.

Lemma includes_middle (n a b : string) : includes n (a +:+ n +:+ b) = true.
Proof. apply includes_append_r, includes_here. Qed.

Lemma append_empty_r (s : string) : s +:+ "" = s.
Proof.
  induction s as [|c s IH]; [reflexivity|].
  change (String c s +:+ "") with (String c (s +:+ "")). by rewrite IH.
Qed.

Lemma includes_end (n a : string) : includes n (a +:+ n) = true.
Proof.
  apply includes_append_r. rewrite <- (append_empty_r n) at 2. apply includes_here.
Qed.

(** ** Counting events *)

Lemma count_app p (a b : list Event) : count p (a ++ b) = (count p a + count p b)%nat.
Proof. unfold count. by rewrite filter_app, length_app. Qed.

Lemma count_schedule (calls : nat) (d : Z) : count is_OpInvoked (call_schedule calls d) = calls.
Proof.
  induction calls as [|[|m] IH]; try reflexivity.
  change (call_schedule (S (S m)) d) with ([OpInvoked; SetTimeout d] ++ call_schedule (S m) d).
  rewrite count_app, IH. reflexivity.
Qed.

(** ** The retry executor *)

Lemma iterations_left_guard (maxRetries attempt : Z) :
  (Install.iterations_left maxRetries attempt = 0%nat ↔ ¬ attempt ≤ maxRetries)
  ∧ (attempt ≤ maxRetries →
     Install.iterations_left maxRetries attempt = S (Install.iterations_left maxRetries (attempt + 1))).
Proof. unfold Install.iterations_left. lia. Qed.

Section Retry.
Variable fmt_seconds : Z → string.
Abbreviation withRetry := (Install.withRetry fmt_seconds).
Abbreviation withRetry_loop := (Install.withRetry_loop fmt_seconds).

Lemma loop_success {T} (outcomes : nat → JsError + T) maxRetries retryDelay remaining attempt lastError w v :
  outcomes (count is_OpInvoked (trace w)) = inr v →
  withRetry_loop (scripted outcomes) maxRetries retryDelay (S remaining) attempt lastError w
  = (Normal v, mkWorld (fs w) (trace w ++ [OpInvoked])).
Proof.
  intros H. cbn [Install.withRetry_loop]. unfold try_catch, scripted. rewrite H. reflexivity.
Qed.

Lemma loop_failure {T} (outcomes : nat → JsError + T) maxRetries retryDelay remaining attempt lastError w e :
  outcomes (count is_OpInvoked (trace w)) = inl e →
  withRetry_loop (scripted outcomes) maxRetries retryDelay (S remaining) attempt lastError w
  = withRetry_loop (scripted outcomes) maxRetries retryDelay remaining (attempt + 1) (Some e)
      (mkWorld (fs w) (trace w ++ failure_events fmt_seconds maxRetries retryDelay attempt e)).
Proof.
  intros H. cbn [Install.withRetry_loop]. unfold try_catch at 1, scripted at 1. rewrite H.
  unfold failure_events.
  destruct (attempt <? maxRetries); unfold_M; rewrite <- ?app_assoc; reflexivity.
Qed.

Lemma count_failure_events maxRetries retryDelay attempt e :
  count is_OpInvoked (failure_events fmt_seconds maxRetries retryDelay attempt e) = 1%nat.
Proof. unfold failure_events. by destruct (attempt <? maxRetries). Qed.

Lemma loop_succeeds {T} (outcomes : nat → JsError + T) maxRetries retryDelay (j : nat) :
  ∀ remaining attempt lastError w v,
    (∀ i, (i < j)%nat → ∃ e, outcomes (count is_OpInvoked (trace w) + i)%nat = inl e) →
    outcomes (count is_OpInvoked (trace w) + j)%nat = inr v →
    (j < remaining)%nat →
    attempt + Z.of_nat j ≤ maxRetries →
    let r := withRetry_loop (scripted outcomes) maxRetries retryDelay remaining attempt lastError w in
    r.1 = Normal v ∧ retried w r (S j) retryDelay.
Proof.
  induction j as [|j IH]; intros remaining attempt lastError w v Hfail Hok Hrem Hatt;
    (destruct remaining as [|remaining]; [lia|]).
  - rewrite Nat.add_0_r in Hok. rewrite (loop_success _ _ _ _ _ _ _ _ Hok).
    split; [reflexivity|]. by exists [OpInvoked].
  - destruct (Hfail 0%nat ltac:(lia)) as [e He]. rewrite Nat.add_0_r in He.
    rewrite (loop_failure _ _ _ _ _ _ _ _ He).
    set (w1 := mkWorld _ _).
    assert (Hc : count is_OpInvoked (trace w1) = S (count is_OpInvoked (trace w))).
    { subst w1. cbn [trace]. rewrite count_app, count_failure_events. lia. }
    destruct (IH remaining (attempt + 1) (Some e) w1 v) as [Hr (new & Htr & Hcnt & Hsch)].
    + intros i Hi. rewrite Hc. replace (S _ + i)%nat with (count is_OpInvoked (trace w) + S i)%nat by lia.
      apply Hfail. lia.
    + rewrite Hc. by replace (S _ + j)%nat with (count is_OpInvoked (trace w) + S j)%nat by lia.
    + lia.
    + lia.
    + split; [exact Hr|].
      exists (failure_events fmt_seconds maxRetries retryDelay attempt e ++ new). repeat split.
      * rewrite Htr. subst w1. cbn [trace]. by rewrite app_assoc.
      * rewrite count_app, count_failure_events, Hcnt. reflexivity.
      * rewrite filter_app, Hsch. unfold failure_events.
        replace (attempt <? maxRetries) with true by (symmetry; apply Z.ltb_lt; lia).
        reflexivity.
Qed.

Lemma loop_exhausts {T} (outcomes : nat → JsError + T) maxRetries retryDelay (remaining : nat) :
  ∀ attempt lastError w (errs : nat → JsError),
    (1 ≤ remaining)%nat →
    attempt + Z.of_nat remaining - 1 = maxRetries →
    (∀ i, (i < remaining)%nat → outcomes (count is_OpInvoked (trace w) + i)%nat = inl (errs i)) →
    let r := withRetry_loop (scripted outcomes) maxRetries retryDelay remaining attempt lastError w in
    r.1 = Throw (new_Error (exhausted_message maxRetries (errs (remaining - 1)%nat)))
    ∧ retried w r remaining retryDelay.
Proof.
  induction remaining as [|remaining IH]; intros attempt lastError w errs Hpos Hatt Hfail; [lia|].
  pose proof (Hfail 0%nat ltac:(lia)) as He. rewrite Nat.add_0_r in He.
  rewrite (loop_failure _ _ _ _ _ _ _ _ He).
  set (w1 := mkWorld _ _).
  assert (Hc : count is_OpInvoked (trace w1) = S (count is_OpInvoked (trace w))).
  { subst w1. cbn [trace]. rewrite count_app, count_failure_events. lia. }
  destruct remaining as [|remaining].
  - cbn [Install.withRetry_loop]. split; [reflexivity|].
    exists (failure_events fmt_seconds maxRetries retryDelay attempt (errs 0%nat)). repeat split.
    + apply count_failure_events.
    + unfold failure_events.
      replace (attempt <? maxRetries) with false by (symmetry; apply Z.ltb_ge; lia).
      reflexivity.
  - destruct (IH (attempt + 1) (Some (errs 0%nat)) w1 (λ i, errs (S i)))
      as [Hr (new & Htr & Hcnt & Hsch)].
    + lia.
    + lia.
    + intros i Hi. rewrite Hc.
      replace (S _ + i)%nat with (count is_OpInvoked (trace w) + S i)%nat by lia.
      apply Hfail. lia.
    + split.
      * replace (S (S remaining) - 1)%nat with (S (S remaining - 1)) by lia. exact Hr.
      * exists (failure_events fmt_seconds maxRetries retryDelay attempt (errs 0%nat) ++ new). repeat split.
        -- rewrite Htr. subst w1. cbn [trace]. by rewrite app_assoc.
        -- rewrite count_app, count_failure_events, Hcnt. reflexivity.
        -- rewrite filter_app, Hsch. unfold failure_events.
           replace (attempt <? maxRetries) with true by (symmetry; apply Z.ltb_lt; lia).
           reflexivity.
Qed.

(** Claim C2.  With [maxRetries >= 1], [withRetry] invokes a scripted
    operation exactly [min(k, maxRetries)] times, [k] being the first
    attempt that succeeds.  If attempt [k <= maxRetries] is the first to
    succeed, its value is returned after [k] invocations; if the first
    [maxRetries] attempts all fail, the operation has been invoked
    [maxRetries] times and [withRetry] throws an [Error] whose message
    contains [maxRetries] and the message of the last error.  In both
    cases the invocations and the timers of the run are exactly
    [call_schedule]: one timer of [retryDelay] between two consecutive
    invocations, none after the last. *)
Theorem withRetry_attempts {T} (outcomes : nat → JsError + T) (maxRetries retryDelay : Z) (w : World) :
  1 ≤ maxRetries →
  let c0 := count is_OpInvoked (trace w) in
  let r := withRetry (scripted outcomes) maxRetries retryDelay w in
  (∀ (k : nat) (v : T),
      (1 ≤ k)%nat → Z.of_nat k ≤ maxRetries →
      (∀ i, (i < k - 1)%nat → ∃ e, outcomes (c0 + i)%nat = inl e) →
      outcomes (c0 + (k - 1))%nat = inr v →
      r.1 = Normal v ∧ retried w r k retryDelay)
  ∧ (∀ errs : nat → JsError,
      (∀ i, (i < Z.to_nat maxRetries)%nat → outcomes (c0 + i)%nat = inl (errs i)) →
      ∃ msg, r.1 = Throw (new_Error msg)
             ∧ includes (pretty maxRetries) msg = true
             ∧ includes (err_message (errs (Z.to_nat maxRetries - 1)%nat)) msg = true
             ∧ retried w r (Z.to_nat maxRetries) retryDelay).
Proof.
  intros Hmax c0 r.
  assert (Hleft : Install.iterations_left maxRetries 1 = Z.to_nat maxRetries)
    by (unfold Install.iterations_left; lia).
  subst r. unfold Install.withRetry. rewrite Hleft. split.
  - intros k v Hk Hle Hfail Hok.
    destruct k as [|j]; [lia|]. replace (S j - 1)%nat with j in * by lia.
    apply loop_succeeds; [exact Hfail | exact Hok | lia | lia].
  - intros errs Hfail.
    destruct (loop_exhausts outcomes maxRetries retryDelay (Z.to_nat maxRetries) 1 None w errs)
      as [Hr Hret]; [lia | lia | exact Hfail |].
    exists (exhausted_message maxRetries (errs (Z.to_nat maxRetries - 1)%nat)).
    split; [exact Hr|]. split; [apply includes_middle|]. split; [|exact Hret].
    unfold exhausted_message. do 2 apply includes_append_r. apply includes_end.
Qed.

(** Claim C10.  With [maxRetries < 1] the loop body never runs: whatever
    the operation is, it is not invoked and the world is unchanged; no value
    is returned, and the final [throw] reads [.message] of the still
    unassigned [lastError], which raises the [TypeError]. *)
Theorem withRetry_no_attempts {T} (fn : M T) (maxRetries retryDelay : Z) (w : World) :
  maxRetries < 1 →
  withRetry fn maxRetries retryDelay w = (Throw TypeError_undefined_message, w).
Proof.
  intros H. unfold Install.withRetry.
  rewrite (proj2 (proj1 (iterations_left_guard maxRetries 1))) by lia. reflexivity.
Qed.
End Retry.


(** ** The file readiness gate *)

Lemma polls_left_guard (maxAttempts attempts : Z) :
  (Install.polls_left maxAttempts attempts = 0%nat ↔ ¬ attempts < maxAttempts)
  ∧ (attempts < maxAttempts →
     Install.polls_left maxAttempts attempts = S (Install.polls_left maxAttempts (attempts + 1))).
Proof. unfold Install.polls_left. lia. Qed.

Lemma code_is_eq e c : code_is e c = true ↔ err_code e = Some c.
Proof.
  unfold code_is. destruct (err_code e) as [c'|]; [|split; discriminate].
  rewrite String.eqb_eq. split; congruence.
Qed.

Lemma transient_retriable e : Install.transient e = true ↔ retriable_code e.
Proof.
  unfold Install.transient, retriable_code.
  rewrite !orb_true_iff, !code_is_eq. tauto.
Qed.

Section Ready.
Variable host : Host.
Abbreviation checkFile := (Install.checkFile host).
Abbreviation waitForFileReady := (Install.waitForFileReady host).

Lemma checkFile_retry filePath maxAttempts interval remaining attempts w e :
  open_oracle host (count is_FsOpen (trace w)) = OpenErr e →
  Install.transient e = true →
  checkFile filePath maxAttempts interval (S remaining) attempts w
  = checkFile filePath maxAttempts interval remaining (attempts + 1)
      (mkWorld (fs w) (trace w ++ poll_events filePath maxAttempts interval (attempts + 1))).
Proof.
  intros Ho Ht. cbn [Install.checkFile]. unfold Install.fs_open. unfold_M.
  rewrite Ho, Ht. unfold poll_events. norm_world. reflexivity.
Qed.

Lemma checkFile_exhausted filePath maxAttempts interval attempts w e :
  open_oracle host (count is_FsOpen (trace w)) = OpenErr e →
  Install.transient e = true →
  checkFile filePath maxAttempts interval 0 attempts w
  = (Throw (new_Error (unavailable_message filePath maxAttempts)),
     mkWorld (fs w) (trace w ++ [FsOpen filePath;
                                 PromiseReject (new_Error (unavailable_message filePath maxAttempts))])).
Proof.
  intros Ho Ht. cbn [Install.checkFile]. unfold Install.fs_open, Install.reject. unfold_M.
  rewrite Ho, Ht. norm_world. reflexivity.
Qed.

Lemma checkFile_fatal filePath maxAttempts interval remaining attempts w e :
  open_oracle host (count is_FsOpen (trace w)) = OpenErr e →
  Install.transient e = false →
  checkFile filePath maxAttempts interval remaining attempts w
  = (Throw e, mkWorld (fs w) (trace w ++ [FsOpen filePath; PromiseReject e])).
Proof.
  intros Ho Ht. destruct remaining; cbn [Install.checkFile];
    unfold Install.fs_open, Install.reject; unfold_M;
    rewrite Ho, Ht; norm_world; reflexivity.
Qed.

Lemma checkFile_ready filePath maxAttempts interval remaining attempts w fd closeErr :
  open_oracle host (count is_FsOpen (trace w)) = OpenOk fd closeErr →
  ∃ rest, checkFile filePath maxAttempts interval remaining attempts w
          = (Normal tt, mkWorld (fs w) (trace w ++ FsOpen filePath :: rest))
          ∧ count is_FsOpen rest = 0%nat ∧ count is_settle rest = 1%nat.
Proof.
  intros Ho. destruct closeErr as [ce|].
  - exists [FsClose fd; ConsoleWarn ("关闭文件描述符时出错: " +:+ err_message ce);
            ConsoleLog "文件已就绪，可以进行解压操作"; PromiseResolve].
    split; [|by split].
    destruct remaining; cbn [Install.checkFile];
      unfold Install.fs_open, Install.resolve; unfold_M;
      rewrite Ho; norm_world; reflexivity.
  - exists [FsClose fd; ConsoleLog "文件已就绪，可以进行解压操作"; PromiseResolve].
    split; [|by split].
    destruct remaining; cbn [Install.checkFile];
      unfold Install.fs_open, Install.resolve; unfold_M;
      rewrite Ho; norm_world; reflexivity.
Qed.

Lemma count_poll_events p filePath maxAttempts interval attempts :
  count p (poll_events filePath maxAttempts interval attempts)
  = ((if p (FsOpen filePath) then 1 else 0)
     + (if p (ConsoleLog ("文件暂时不可用，等待中... (" +:+ pretty attempts +:+ "/" +:+ pretty maxAttempts +:+ ")")) then 1 else 0)
     + (if p (SetTimeout interval) then 1 else 0))%nat.
Proof.
  unfold poll_events, count. rewrite !filter_cons, filter_nil.
  repeat case_decide; repeat match goal with H : _ = true |- _ => rewrite H | H : ¬ (_ = true) |- _ => apply not_true_is_false in H; rewrite H end; reflexivity.
Qed.

Lemma checkFile_skip filePath maxAttempts interval (j : nat) :
  ∀ remaining attempts w,
    (∀ i, (i < j)%nat →
          ∃ e, open_oracle host (count is_FsOpen (trace w) + i)%nat = OpenErr e
               ∧ Install.transient e = true) →
    ∃ new, checkFile filePath maxAttempts interval (j + remaining) attempts w
           = checkFile filePath maxAttempts interval remaining (attempts + Z.of_nat j)
               (mkWorld (fs w) (trace w ++ new))
           ∧ count is_FsOpen new = j ∧ count is_settle new = 0%nat.
Proof.
  induction j as [|j IH]; intros remaining attempts w Hbusy.
  - exists []. rewrite app_nil_r, Z.add_0_r. by destruct w.
  - destruct (Hbusy 0%nat ltac:(lia)) as (e & Ho & Ht). rewrite Nat.add_0_r in Ho.
    change (S j + remaining)%nat with (S (j + remaining)).
    rewrite (checkFile_retry _ _ _ _ _ _ _ Ho Ht).
    set (ev := poll_events filePath maxAttempts interval (attempts + 1)).
    destruct (IH remaining (attempts + 1) (mkWorld (fs w) (trace w ++ ev)))
      as (new & Heq & Hopen & Hsettle).
    + intros i Hi. cbn [trace]. rewrite count_app. subst ev.
      rewrite count_poll_events. cbn [is_FsOpen].
      replace (count is_FsOpen (trace w) + (1 + 0 + 0) + i)%nat
        with (count is_FsOpen (trace w) + S i)%nat by lia.
      apply Hbusy. lia.
    + exists (ev ++ new). cbn [fs trace] in Heq. rewrite Heq, app_assoc.
      replace (attempts + 1 + Z.of_nat j) with (attempts + Z.of_nat (S j)) by lia.
      split; [reflexivity|]. rewrite !count_app, Hopen, Hsettle. subst ev.
      rewrite !count_poll_events. cbn [is_FsOpen is_settle]. lia.
Qed.

Lemma checkFile_settles_once filePath maxAttempts interval (remaining : nat) :
  ∀ attempts w,
    ∃ new, trace (checkFile filePath maxAttempts interval remaining attempts w).2 = trace w ++ new
           ∧ count is_settle new = 1%nat.
Proof.
  induction remaining as [|remaining IH]; intros attempts w;
    destruct (open_oracle host (count is_FsOpen (trace w))) as [e|fd closeErr] eqn:Ho.
  - destruct (Install.transient e) eqn:Ht.
    + rewrite (checkFile_exhausted _ _ _ _ _ _ Ho Ht). by eexists.
    + rewrite (checkFile_fatal _ _ _ _ _ _ _ Ho Ht). by eexists.
  - destruct (checkFile_ready filePath maxAttempts interval 0 attempts w _ _ Ho)
      as (rest & -> & _ & H).
    by exists (FsOpen filePath :: rest).
  - destruct (Install.transient e) eqn:Ht.
    + rewrite (checkFile_retry _ _ _ _ _ _ _ Ho Ht).
      destruct (IH (attempts + 1) (mkWorld (fs w)
                  (trace w ++ poll_events filePath maxAttempts interval (attempts + 1))))
        as (new & Htr & Hs).
      exists (poll_events filePath maxAttempts interval (attempts + 1) ++ new).
      rewrite Htr. cbn [trace]. rewrite app_assoc. split; [reflexivity|].
      rewrite count_app, Hs, count_poll_events. reflexivity.
    + rewrite (checkFile_fatal _ _ _ _ _ _ _ Ho Ht). by eexists.
  - destruct (checkFile_ready filePath maxAttempts interval (S remaining) attempts w _ _ Ho)
      as (rest & -> & _ & H).
    by exists (FsOpen filePath :: rest).
Qed.

(** Claim C3.  With [maxAttempts >= 1], [waitForFileReady] calls exactly one
    of [resolve] and [reject], exactly once, whatever the opens answer.
    Opens that fail with EBUSY, ENOENT or EPERM are retried: if the [k]-th
    open ([k <= maxAttempts]) is the first that succeeds, the promise is
    fulfilled after [k] polls; if it is the first to fail with another code,
    the promise is rejected with that very error after [k] polls; and if
    the first [maxAttempts] opens all fail with a retriable code, it is
    rejected after [maxAttempts] polls with an [Error] whose message names
    the path and [maxAttempts]. *)
Theorem waitForFileReady_polls (filePath : string) (maxAttempts interval : Z) (w : World) :
  1 ≤ maxAttempts →
  let c0 := count is_FsOpen (trace w) in
  let r := waitForFileReady filePath maxAttempts interval w in
  let busy_for (n : nat) :=
    ∀ i, (i < n)%nat → ∃ e, open_oracle host (c0 + i)%nat = OpenErr e ∧ retriable_code e in
  (∃ new, trace r.2 = trace w ++ new ∧ count is_settle new = 1%nat)
  ∧ (∀ (k : nat) fd closeErr,
       (1 ≤ k)%nat → Z.of_nat k ≤ maxAttempts → busy_for (k - 1)%nat →
       open_oracle host (c0 + (k - 1))%nat = OpenOk fd closeErr →
       r.1 = Normal tt ∧ polled w r k)
  ∧ (∀ (k : nat) e,
       (1 ≤ k)%nat → Z.of_nat k ≤ maxAttempts → busy_for (k - 1)%nat →
       open_oracle host (c0 + (k - 1))%nat = OpenErr e → ¬ retriable_code e →
       r.1 = Throw e ∧ polled w r k)
  ∧ (busy_for (Z.to_nat maxAttempts) →
       ∃ msg, r.1 = Throw (new_Error msg)
              ∧ includes filePath msg = true
              ∧ includes (pretty maxAttempts) msg = true
              ∧ polled w r (Z.to_nat maxAttempts)).
Proof.
  intros Hmax c0 r busy_for.
  assert (Hskip : ∀ j remaining, busy_for j → Z.to_nat (maxAttempts - 1) = (j + remaining)%nat →
            ∃ new, r = Install.checkFile host filePath maxAttempts interval remaining (0 + Z.of_nat j)
                         (mkWorld (fs w) (trace w ++ new))
                   ∧ count is_FsOpen new = j ∧ count is_settle new = 0%nat).
  { intros j remaining Hbusy Hsplit. subst r. unfold Install.waitForFileReady.
    replace (Install.polls_left maxAttempts (0 + 1)) with (Z.to_nat (maxAttempts - 1))
      by (unfold Install.polls_left; lia).
    rewrite Hsplit.
    apply checkFile_skip. intros i Hi. destruct (Hbusy i Hi) as (e & Ho & Hc).
    exists e. split; [exact Ho | by apply transient_retriable]. }
  split; [apply checkFile_settles_once|]. split; [|split].
  - intros k fd closeErr Hk Hle Hbusy Ho.
    destruct (Hskip (k - 1)%nat (Z.to_nat (maxAttempts - 1) - (k - 1))%nat Hbusy ltac:(lia))
      as (new & Hr & Hopen & Hsettle).
    destruct (checkFile_ready filePath maxAttempts interval
                (Z.to_nat (maxAttempts - 1) - (k - 1))%nat (0 + Z.of_nat (k - 1))
                (mkWorld (fs w) (trace w ++ new)) fd closeErr) as (new' & Hrun & Hopen' & Hsettle').
    { cbn [trace]. rewrite count_app, Hopen. exact Ho. }
    rewrite Hrun in Hr. rewrite Hr. split; [reflexivity|].
    exists (new ++ FsOpen filePath :: new'). cbn [snd trace]. rewrite app_assoc.
    split; [reflexivity|].
    change (FsOpen filePath :: new') with ([FsOpen filePath] ++ new').
    rewrite !count_app, Hopen, Hsettle, Hopen', Hsettle'.
    change (count is_FsOpen [FsOpen filePath]) with 1%nat.
    change (count is_settle [FsOpen filePath]) with 0%nat. lia.
  - intros k e Hk Hle Hbusy Ho Hfatal.
    destruct (Hskip (k - 1)%nat (Z.to_nat (maxAttempts - 1) - (k - 1))%nat Hbusy ltac:(lia))
      as (new & Hr & Hopen & Hsettle).
    rewrite (checkFile_fatal filePath maxAttempts interval _ _ _ e) in Hr.
    + rewrite Hr. split; [reflexivity|].
      exists (new ++ [FsOpen filePath; PromiseReject e]). cbn [snd trace]. rewrite app_assoc.
      split; [reflexivity|]. rewrite !count_app, Hopen, Hsettle. split; [|reflexivity].
      change (count is_FsOpen [FsOpen filePath; PromiseReject e]) with 1%nat. lia.
    + cbn [trace]. rewrite count_app, Hopen. exact Ho.
    + apply not_true_is_false. by rewrite transient_retriable.
  - intros Hbusy.
    destruct (Hskip (Z.to_nat (maxAttempts - 1)) 0%nat) as (new & Hr & Hopen & Hsettle).
    { intros i Hi. apply Hbusy. lia. }
    { lia. }
    destruct (Hbusy (Z.to_nat (maxAttempts - 1)) ltac:(lia)) as (e & Ho & Hc).
    rewrite (checkFile_exhausted filePath maxAttempts interval _ _ e) in Hr.
    + exists (unavailable_message filePath maxAttempts). rewrite Hr.
      split; [reflexivity|]. split; [do 2 apply includes_append_r; apply includes_end|].
      split; [apply includes_middle|].
      eexists (new ++ [FsOpen filePath; PromiseReject _]). cbn [snd trace]. rewrite app_assoc.
      split; [reflexivity|]. rewrite !count_app, Hopen, Hsettle. split; [|reflexivity].
      match goal with |- (_ + ?c)%nat = _ => change c with 1%nat end. lia.
    + cbn [trace]. rewrite count_app, Hopen. exact Ho.
    + by apply transient_retriable.
Qed.
End Ready.


(** ** The downloader *)

Section Download.
Variable path_join : string → string → string.
Variable cfg : Config.
Variable host : Host.
Abbreviation getZipFile := (Install.getZipFile path_join cfg host).

Lemma getZipFile_request (w : World) :
  let zipFileName := Install.getZipFileName cfg in
  let downloadUrl := Install.zipDownloadBaseUrl cfg +:+ "/" +:+ zipFileName in
  let filePath := path_join (dirname cfg) zipFileName in
  let started := [ConsoleLog ("正在下载: " +:+ downloadUrl); CreateWriteStream filePath;
                  HttpGet (startsWith "https://" downloadUrl) downloadUrl] in
  let created := <[filePath := RegularFile 0]> (fs w) in
  let unlinked := λ m, if unlink_oracle host (count is_FsUnlink (trace w))
                       then fs_after_unlink m filePath else m in
  exists_in (fs w) filePath = false →
  getZipFile w =
    match http_oracle host (count is_HttpGet (trace w)) with
    | GetThrows err => (Throw err, mkWorld created (trace w ++ started))
    | StreamOpenError err =>
        (ProcessExit 1, mkWorld (fs w) (trace w ++ started ++ [UncaughtError err]))
    | ReqError err =>
        (Throw err, mkWorld (unlinked created) (trace w ++ started ++ [FsUnlink filePath]))
    | NoResponse => (Hang, mkWorld created (trace w ++ started))
    | Response statusCode totalSize body =>
        if negb (statusCode =? 200) then
          (Throw (new_Error ("下载失败: 状态码 " +:+ pretty statusCode)),
           mkWorld (unlinked created)
                   (trace w ++ started ++ [CloseWriteStream filePath; FsUnlink filePath]))
        else
          match body with
          | BodyFinish size =>
              (Normal zipFileName,
               mkWorld (<[filePath := RegularFile size]> created)
                       (trace w ++ started
                        ++ (if 0 <? totalSize then [ConsoleLog ""] else [])
                        ++ [CloseWriteStream filePath;
                            ConsoleLog ("成功下载 " +:+ zipFileName); SetTimeout 200]))
          | BodyFileError written err | BodyRequestError written err =>
              (Throw err, mkWorld (unlinked (<[filePath := RegularFile written]> created))
                                  (trace w ++ started ++ [FsUnlink filePath]))
          | BodyStalled => (Hang, mkWorld created (trace w ++ started))
          | BodyAborted written =>
              (Hang, mkWorld (<[filePath := RegularFile written]> created)
                             (trace w ++ started))
          end
    end.
Proof.
  intros zipFileName downloadUrl filePath started created unlinked Hfresh.
  unfold Install.getZipFile, existsSync, createWriteStream, stream_opened, uncaught,
    Install.http_get, unlink_ignore, Install.hang.
  fold zipFileName downloadUrl filePath. unfold_M. rewrite Hfresh. norm_world.
  rewrite count_app, Nat.add_0_r.
  assert (Hn : ∀ evs, count is_FsUnlink evs = 0%nat →
                      count is_FsUnlink (trace w ++ evs) = count is_FsUnlink (trace w)).
  { intros evs H. by rewrite count_app, H, Nat.add_0_r. }
  destruct (http_oracle host _) as [e|statusCode totalSize body| |e|e]; norm_world;
    rewrite ?Hn by reflexivity; try reflexivity.
  destruct (statusCode =? 200); cbn [negb]; norm_world; rewrite ?Hn by reflexivity;
    [|reflexivity].
  destruct body; norm_world; rewrite ?Hn by reflexivity; try reflexivity.
  destruct (0 <? totalSize); norm_world; reflexivity.
Qed.

Lemma unlink_created (m : gmap string FsNode) (p : string) (size : Z) :
  fs_after_unlink (<[p := RegularFile size]> m) p !! p = None.
Proof. unfold fs_after_unlink. rewrite lookup_insert_eq. cbn. apply lookup_delete_eq. Qed.

(* The archive path after a failed attempt: gone if the unlink has been
   carried out, a regular file otherwise. *)
Lemma unlinked_lookup (m : gmap string FsNode) (p : string) (size : Z) (done : bool) :
  (if done then fs_after_unlink (<[p := RegularFile size]> m) p
   else <[p := RegularFile size]> m) !! p = None
  ↔ done = true.
Proof.
  destruct done.
  - by rewrite unlink_created.
  - rewrite lookup_insert_eq. split; discriminate.
Qed.

(** Claim C4, amended.  When the destination file does not exist yet and the
    download fails in a way one of the registered handlers sees, [getZipFile]
    asks for the file to be unlinked and rejects: on a status other than
    200 with an [Error] whose message contains the status code, on an
    'error' of the request (before or after the response arrived) or of the
    write stream with that error.  In each case the write stream was
    created, one GET was issued, the unlink is the last thing the run did,
    and the path is absent from the file system afterwards exactly when the
    unlink has been carried out. *)
Theorem getZipFile_failure_cleans_up (w : World) :
  let filePath := path_join (dirname cfg) (Install.getZipFileName cfg) in
  let answer := http_oracle host (count is_HttpGet (trace w)) in
  let r := getZipFile w in
  exists_in (fs w) filePath = false →
  (∀ statusCode totalSize body,
      answer = Response statusCode totalSize body → statusCode ≠ 200 →
      ∃ msg, r.1 = Throw (new_Error msg)
             ∧ includes (pretty statusCode) msg = true
             ∧ partial_file_unlinked host w r filePath)
  ∧ (∀ e, answer = ReqError e → r.1 = Throw e ∧ partial_file_unlinked host w r filePath)
  ∧ (∀ totalSize written e,
      answer = Response 200 totalSize (BodyFileError written e)
      ∨ answer = Response 200 totalSize (BodyRequestError written e) →
      r.1 = Throw e ∧ partial_file_unlinked host w r filePath).
Proof.
  intros filePath answer r Hfresh. subst r answer.
  rewrite (getZipFile_request w Hfresh). fold filePath.
  split; [|split].
  - intros statusCode totalSize body -> Hne.
    apply Z.eqb_neq in Hne. rewrite Hne. cbn [negb].
    eexists. split; [reflexivity|]. split; [apply includes_end|].
    split; [apply unlinked_lookup|].
    eexists. split; [reflexivity|]. cbn [snd trace].
    split; [set_solver|]. repeat split; reflexivity.
  - intros e ->. split; [reflexivity|]. split; [apply unlinked_lookup|].
    eexists. split; [reflexivity|]. split; [set_solver|]. repeat split; reflexivity.
  - intros totalSize written e [-> | ->]; cbn [Z.eqb Pos.eqb negb];
      (split; [reflexivity|]);
      (split; [cbn [snd fs]; rewrite insert_insert_eq; apply unlinked_lookup|]);
      eexists; (split; [reflexivity|]); (split; [set_solver|]); repeat split; reflexivity.
Qed.
End Download.

(** ** The archive extractor *)

Section Unpack.
Variable cfg : Config.
Variable host : Host.
Abbreviation unpack := (Install.unpack cfg host).

Lemma child_events_data (out rest : list ProcEvent) :
  only_data out →
  ∀ output settled,
    Install.child_events (out ++ rest) output settled
    = Install.child_events rest (fold_left (λ o ev, o +:+ chunk_text ev) out output) settled.
Proof.
  induction 1 as [|ev out Hev _ IH]; intros output settled; [reflexivity|].
  destruct ev; try discriminate; cbn [app Install.child_events fold_left chunk_text]; apply IH.
Qed.

Lemma child_events_settled (events : list ProcEvent) :
  ∀ output c w, (Install.child_events events output (Some c) w).1 = c.
Proof.
  induction events as [|ev events IH]; intros output c w; [reflexivity|].
  destruct ev; cbn [Install.child_events Install.settle];
    [apply IH | apply IH | unfold_M; apply IH | apply IH].
Qed.

Lemma child_events_trace (events : list ProcEvent) :
  ∀ output settled w,
    ∃ new, trace (Install.child_events events output settled w).2 = trace w ++ new
           ∧ count is_Spawn new = 0%nat.
Proof.
  induction events as [|ev events IH]; intros output settled w.
  - exists []. by rewrite app_nil_r.
  - destruct ev as [c|c|e|code]; cbn [Install.child_events]; try apply IH.
    unfold_M. destruct (IH output (Install.settle settled (Throw e))
                          (mkWorld (fs w) (trace w ++ [ConsoleErrorObj "7-zip 错误:" e])))
      as (new & Htr & Hn).
    exists (ConsoleErrorObj "7-zip 错误:" e :: new). rewrite Htr. norm_world.
    split; [reflexivity|]. exact Hn.
Qed.

Lemma child_events_fulfilled (events : list ProcEvent) :
  ∀ output w,
    (Install.child_events events output None w).1 = Normal tt →
    ∃ out rest, only_data out ∧ events = out ++ ProcExit (Some 0) :: rest.
Proof.
  induction events as [|ev events IH]; intros output w Hr; [discriminate|].
  destruct ev as [c|c|e|code]; cbn [Install.child_events Install.settle] in Hr.
  - destruct (IH _ _ Hr) as (out & rest & Hout & ->).
    exists (StdoutData c :: out), rest. split; [by constructor | reflexivity].
  - destruct (IH _ _ Hr) as (out & rest & Hout & ->).
    exists (StderrData c :: out), rest. split; [by constructor | reflexivity].
  - revert Hr. unfold_M. rewrite child_events_settled. discriminate.
  - rewrite child_events_settled in Hr. case_bool_decide as Hc; [|discriminate].
    subst code. exists [], events. split; [constructor | reflexivity].
Qed.

Lemma unpack_spawns (archivePath destination : string) (w : World) :
  archivePath ≠ "" → destination ≠ "" →
  let args := ["x"; archivePath; "-y"; "-o" +:+ destination] in
  unpack archivePath destination w
  = Install.child_events (spawn_oracle host (count is_Spawn (trace w))) "" None
      (mkWorld (fs w)
         (trace w ++ [ConsoleLog ("执行命令: " +:+ Install._7zaPath cfg +:+ " " +:+ join " " args);
                      Spawn (Install._7zaPath cfg) args])).
Proof.
  intros Ha Hd args. unfold Install.unpack, truthy.
  apply String.eqb_neq in Ha, Hd. rewrite Ha, Hd. cbn [negb].
  unfold Install.spawn. unfold_M. norm_world. rewrite count_app, Nat.add_0_r. reflexivity.
Qed.

(** Claim C7.  With an empty archive path or an empty destination, [unpack]
    rejects and the world is unchanged (nothing was spawned).  Otherwise
    exactly one child is spawned, and: the promise is fulfilled exactly
    when the first event of the child other than output is an exit with
    code 0; when it is an exit with another code, the promise is rejected
    with an [Error] whose message contains the code and the output
    captured so far; when it is an 'error', the promise is rejected with
    that error. *)
Theorem unpack_outcome (archivePath destination : string) (w : World) :
  let events := spawn_oracle host (count is_Spawn (trace w)) in
  let r := unpack archivePath destination w in
  (archivePath = "" ∨ destination = "" → (∃ e, r.1 = Throw e) ∧ r.2 = w)
  ∧ (archivePath ≠ "" → destination ≠ "" →
     (∃ new, trace r.2 = trace w ++ new ∧ count is_Spawn new = 1%nat)
     ∧ (r.1 = Normal tt ↔
        ∃ out rest, only_data out ∧ events = out ++ ProcExit (Some 0) :: rest)
     ∧ (∀ out code rest,
          only_data out → events = out ++ ProcExit code :: rest → code ≠ Some 0 →
          ∃ msg, r.1 = Throw (new_Error msg)
                 ∧ includes (Install.show_code code) msg = true
                 ∧ includes (captured out) msg = true)
     ∧ (∀ out e rest,
          only_data out → events = out ++ ProcError e :: rest → r.1 = Throw e)).
Proof.
  intros events r. split.
  - intros Hempty. subst r. unfold Install.unpack, truthy.
    destruct (String.eqb archivePath "") eqn:Ha; cbn [negb].
    + split; [by eexists | reflexivity].
    + destruct Hempty as [->| ->]; [discriminate|]. cbn. split; [by eexists | reflexivity].
  - intros Ha Hd. subst r. rewrite (unpack_spawns _ _ w Ha Hd). fold events.
    set (w1 := mkWorld _ _). split; [|split; [|split]].
    + destruct (child_events_trace events "" None w1) as (new & Htr & Hn).
      eexists (_ ++ new). rewrite Htr. subst w1. cbn [trace]. rewrite <- app_assoc.
      split; [reflexivity|]. rewrite count_app, Hn. reflexivity.
    + split; [apply child_events_fulfilled|].
      intros (out & rest & Hout & ->). rewrite (child_events_data _ _ Hout).
      cbn [Install.child_events Install.settle]. rewrite child_events_settled.
      by rewrite bool_decide_eq_true_2.
    + intros out code rest Hout -> Hcode. rewrite (child_events_data _ _ Hout).
      cbn [Install.child_events Install.settle]. rewrite child_events_settled.
      rewrite bool_decide_eq_false_2 by exact Hcode.
      eexists. split; [reflexivity|]. split.
      * apply includes_middle.
      * do 2 apply includes_append_r. apply includes_end.
    + intros out e rest Hout ->. rewrite (child_events_data _ _ Hout).
      cbn [Install.child_events Install.settle]. unfold_M. apply child_events_settled.
Qed.
End Unpack.

(** ** What a computation adds to the trace *)

Section Adds.
Variable p : Event → bool.

Lemma adds_ret {T} (v : T) : adds p (mret v).
Proof. intros w. exists []. by rewrite app_nil_r. Qed.

Lemma adds_pure {T} (f : World → Completion T) : adds p (λ w, (f w, w)).
Proof. intros w. exists []. by rewrite app_nil_r. Qed.

Lemma adds_throw {T} (e : JsError) : adds p (throw (A:=T) e).
Proof. apply (adds_pure (λ _, Throw e)). Qed.

Lemma adds_process_exit {T} (n : Z) : adds p (process_exit (A:=T) n).
Proof. apply (adds_pure (λ _, ProcessExit n)). Qed.

Lemma adds_hang {T} : adds p (Install.hang (A:=T)).
Proof. apply (adds_pure (λ _, Hang)). Qed.

Lemma adds_existsSync (path : string) : adds p (existsSync path).
Proof. apply (adds_pure (λ w, Normal (exists_in (fs w) path))). Qed.

Lemma adds_emit (ev : Event) : p ev = true → adds p (emit ev).
Proof. intros H w. exists [ev]. cbn. by rewrite H. Qed.

Lemma adds_set_fs f : adds p (set_fs f).
Proof. intros w. exists []. by rewrite app_nil_r. Qed.

Lemma adds_bind {A B} (c : M A) (k : A → M B) :
  adds p c → (∀ a, adds p (k a)) → adds p (c ≫= k).
Proof.
  intros Hc Hk w. unfold mbind, M_bind, bind.
  destruct (Hc w) as (new & Htr & Hp). destruct (c w) as [[a|e|n|] w1]; cbn [snd] in Htr;
    try (by exists new).
  destruct (Hk a w1) as (new' & Htr' & Hp'). exists (new ++ new').
  rewrite Htr', Htr, app_assoc, forallb_app, Hp, Hp'. done.
Qed.

Lemma adds_try_catch {A} (c : M A) (h : JsError → M A) :
  adds p c → (∀ e, adds p (h e)) → adds p (try_catch c h).
Proof.
  intros Hc Hh w. unfold try_catch.
  destruct (Hc w) as (new & Htr & Hp). destruct (c w) as [[a|e|n|] w1]; cbn [snd] in Htr;
    try (by exists new).
  destruct (Hh e w1) as (new' & Htr' & Hp'). exists (new ++ new').
  rewrite Htr', Htr, app_assoc, forallb_app, Hp, Hp'. done.
Qed.
End Adds.

Lemma adds_count (p q : Event → bool) (new : list Event) :
  (∀ ev, p ev = true → q ev = false) → forallb p new = true → count q new = 0%nat.
Proof.
  intros Hpq. induction new as [|ev new IH]; [reflexivity|]. cbn [forallb].
  intros [Hev Hnew]%andb_true_iff. unfold count. rewrite filter_cons.
  rewrite (Hpq ev Hev). case_decide; [discriminate|]. by apply IH.
Qed.


Ltac adds_step :=
  first [ apply adds_ret | apply adds_throw | apply adds_hang | apply adds_process_exit
        | apply adds_existsSync | apply adds_set_fs
        | apply adds_emit; reflexivity
        | apply adds_bind; [|intros ?]
        | apply adds_try_catch; [|intros ?]
        | match goal with
          | |- adds _ (if ?b then _ else _) => destruct b
          | |- adds _ (match ?x with _ => _ end) => destruct x
          end ].

Ltac adds_auto :=
  unfold console_log, console_warn, console_error, console_error_obj, delay,
    createWriteStream, unlink_ignore;
  repeat adds_step.

(** ** The install orchestrator *)

Section Orchestrator.
Variable path_join : string → string → string.
Variable fmt_seconds : Z → string.
Variable fmt_MB : Z → string.
Variable cfg : Config.
Variable host : Host.

Abbreviation srcDir := (Install.srcDir cfg).
Abbreviation destDir := (Install.destDir cfg).
Abbreviation _7zaPath := (Install._7zaPath cfg).
Abbreviation targetPath := (Install.targetPath path_join cfg).
Abbreviation main := (Install.main path_join fmt_seconds fmt_MB cfg host).
Abbreviation downloadAndUnpack := (Install.downloadAndUnpack path_join fmt_seconds fmt_MB cfg host).

Lemma exists_in_lookup (m : gmap string FsNode) (path : string) :
  truthy path = true → exists_in m path = false → m !! path = None.
Proof.
  unfold exists_in. intros -> H. cbn in H. apply bool_decide_eq_false in H.
  destruct (m !! path); [|reflexivity]. destruct H. by eexists.
Qed.

Lemma exists_in_insert (m : gmap string FsNode) (path : string) (n : FsNode) :
  truthy path = true → exists_in (<[path := n]> m) path = true.
Proof. unfold exists_in. intros ->. rewrite lookup_insert_eq. reflexivity. Qed.

Lemma main_source_missing (w : World) :
  exists_in (fs w) srcDir = false →
  main w = (Normal tt, mkWorld (fs w) (trace w ++ [ConsoleError ("源目录不存在: " +:+ srcDir)])).
Proof.
  intros H. unfold Install.main, Install.extractArchives, Install.extractArchives_try, try_catch,
    existsSync. unfold_M. rewrite H. reflexivity.
Qed.

Lemma main_destination_unset (w : World) :
  exists_in (fs w) srcDir = true → truthy destDir = false →
  main w = (Normal tt, mkWorld (fs w) (trace w ++ [ConsoleError "未设置目标目录"])).
Proof.
  intros H1 H2. unfold Install.main, Install.extractArchives, Install.extractArchives_try,
    try_catch, existsSync. unfold_M. rewrite H1, H2. reflexivity.
Qed.

Lemma main_target_exists (w : World) :
  exists_in (fs w) srcDir = true → truthy destDir = true →
  exists_in (fs w) targetPath = true →
  main w = (Normal tt, mkWorld (fs w)
              (trace w ++ [ConsoleLog ("目标文件夹已存在: " +:+ targetPath);
                           ConsoleLog "跳过下载和解压操作。"])).
Proof.
  intros H1 H2 H3. unfold Install.main, Install.extractArchives, Install.extractArchives_try,
    try_catch, existsSync. unfold_M. rewrite H1, H2; cbn [negb]. rewrite H3. norm_world. reflexivity.
Qed.

Lemma main_tool_missing (w : World) :
  exists_in (fs w) srcDir = true → truthy destDir = true →
  exists_in (fs w) targetPath = false → exists_in (fs w) _7zaPath = false →
  main w = (Normal tt, mkWorld (fs w) (trace w ++ [ConsoleError ("7za.exe 不存在: " +:+ _7zaPath)])).
Proof.
  intros H1 H2 H3 H4. unfold Install.main, Install.extractArchives, Install.extractArchives_try,
    try_catch, existsSync. unfold_M. rewrite H1, H2; cbn [negb]. rewrite H3, H4. reflexivity.
Qed.

Lemma main_url_unset (w : World) :
  exists_in (fs w) srcDir = true → truthy destDir = true →
  exists_in (fs w) targetPath = false → exists_in (fs w) _7zaPath = true →
  (exists_in (fs w) destDir = false → fs_fault host OpMkdirSync destDir = None) →
  env_falsy (AILY_ZIP_URL cfg) = true →
  main w = (ProcessExit 1,
            mkWorld (fs (after_checks cfg w))
                    (trace (after_checks cfg w) ++ [precondition_error cfg DownloadBaseUrl])).
Proof.
  intros H1 H2 H3 H4 H5 H6. unfold Install.main, Install.extractArchives,
    Install.extractArchives_try, try_catch, existsSync, mkdirSync, fs_guard, after_checks.
  unfold_M. rewrite H1, H2; cbn [negb]. rewrite H3, H4; cbn [negb].
  destruct (exists_in (fs w) destDir) eqn:Hd; cbn [negb].
  - rewrite H6. reflexivity.
  - rewrite (H5 eq_refl). norm_world. rewrite (exists_in_lookup _ _ H2 Hd).
    cbn [fs trace]. rewrite H6. norm_world. reflexivity.
Qed.

Lemma main_download (w : World) :
  ready_to_download path_join cfg host w = true →
  main w = try_catch (try_catch downloadAndUnpack exit_on_error)
             (λ err, console_error_obj "执行失败:" err) (after_checks cfg w).
Proof.
  unfold ready_to_download. rewrite !andb_true_iff.
  intros [[[[[H1 H2] H3] H4] H5] H6].
  apply negb_true_iff in H3, H6. apply orb_true_iff in H5. rewrite bool_decide_eq_true in H5.
  unfold Install.main, Install.extractArchives, Install.extractArchives_try, existsSync, mkdirSync,
    fs_guard, after_checks.
  unfold try_catch at 1 2 3 4. unfold_M. rewrite H1, H2; cbn [negb]. rewrite H3, H4; cbn [negb].
  destruct (exists_in (fs w) destDir) eqn:Hd; cbn [negb].
  - rewrite H6, Hd. cbn [negb]. reflexivity.
  - destruct H5 as [|H5]; [discriminate|]. rewrite H5. norm_world.
    rewrite (exists_in_lookup _ _ H2 Hd). cbn [fs trace]. rewrite H6.
    cbn [fs trace]. rewrite (exists_in_insert _ _ _ H2). cbn [negb]. norm_world. reflexivity.
Qed.

(** Claim C5.  When the target directory exists, the install script issues no
    GET and spawns no child, leaves the file system as it is and ends with
    exit status 0; and, the source directory being there and the
    destination being set, all it does is log the two lines of the skip. *)
Theorem install_skips_existing_target (w : World) :
  exists_in (fs w) targetPath = true →
  let r := main w in
  exit_status r.1 = Some 0
  ∧ fs r.2 = fs w
  ∧ ∃ new, trace r.2 = trace w ++ new
           ∧ count is_HttpGet new = 0%nat
           ∧ count is_Spawn new = 0%nat
           ∧ (exists_in (fs w) srcDir = true → destDir ≠ "" →
              r.1 = Normal tt
              ∧ new = [ConsoleLog ("目标文件夹已存在: " +:+ targetPath);
                       ConsoleLog "跳过下载和解压操作。"]).
Proof.
  intros Ht r. subst r.
  destruct (exists_in (fs w) srcDir) eqn:Hs;
    [destruct (truthy destDir) eqn:Hd|].
  - rewrite (main_target_exists w Hs Hd Ht).
    do 2 (split; [reflexivity|]). eexists. do 3 (split; [reflexivity|]). by intros _ _.
  - rewrite (main_destination_unset w Hs Hd).
    do 2 (split; [reflexivity|]). eexists. do 3 (split; [reflexivity|]).
    intros _ Hne. apply String.eqb_neq in Hne. unfold truthy in Hd. by rewrite Hne in Hd.
  - rewrite (main_source_missing w Hs).
    do 2 (split; [reflexivity|]). eexists. do 3 (split; [reflexivity|]). discriminate.
Qed.

(** Claim C1, as amended.  When a precondition check fails, the last thing the
    install script does is log the error of that check; it issues no GET,
    spawns no child and sets no timer (nothing is retried).  The exit
    status is 0 for a missing source directory, an unset destination and a
    missing archive tool, which return from [extractArchives], and 1 for
    an unset download base URL, which throws into its [catch]. *)
Theorem failed_precondition_stops_install (w : World) (c : Precondition) :
  failed_precondition path_join cfg host w = Some c →
  let r := main w in
  exit_status r.1 = Some (match c with DownloadBaseUrl => 1 | _ => 0 end)
  ∧ ∃ new, trace r.2 = trace w ++ new
           ∧ last new = Some (precondition_error cfg c)
           ∧ count is_HttpGet new = 0%nat
           ∧ count is_Spawn new = 0%nat
           ∧ count is_SetTimeout new = 0%nat.
Proof.
  intros Hc r. subst r. unfold failed_precondition in Hc.
  destruct (exists_in (fs w) srcDir) eqn:Hs; cbn [negb] in Hc.
  2: { injection Hc as <-. rewrite (main_source_missing w Hs). split; [reflexivity|].
       eexists. repeat split. }
  destruct (truthy destDir) eqn:Hd; cbn [negb] in Hc.
  2: { injection Hc as <-. rewrite (main_destination_unset w Hs Hd). split; [reflexivity|].
       eexists. repeat split. }
  destruct (exists_in (fs w) targetPath) eqn:Ht; [discriminate|].
  destruct (exists_in (fs w) _7zaPath) eqn:Hz; cbn [negb] in Hc.
  2: { injection Hc as <-. rewrite (main_tool_missing w Hs Hd Ht Hz). split; [reflexivity|].
       eexists. repeat split. }
  destruct (negb (exists_in (fs w) destDir) && _) eqn:Hm; [discriminate|].
  destruct (env_falsy (AILY_ZIP_URL cfg)) eqn:Hu; [|discriminate].
  injection Hc as <-. rewrite (main_url_unset w Hs Hd Ht Hz); [|
    intros He; rewrite He in Hm; cbn in Hm; apply bool_decide_eq_false in Hm;
    destruct (fs_fault host OpMkdirSync destDir); [destruct Hm; by eexists | reflexivity] | exact Hu].
  split; [reflexivity|]. unfold after_checks.
  destruct (exists_in (fs w) destDir); cbn [snd trace]; rewrite <- ?app_assoc;
    eexists; repeat split.
Qed.
End Orchestrator.

(** ** The pipeline after the checks *)

Section Pipeline.
Variable path_join : string → string → string.
Variable fmt_seconds : Z → string.
Variable fmt_MB : Z → string.
Variable cfg : Config.
Variable host : Host.

Lemma adds_http_get p url :
  (∀ secure, p (HttpGet secure url) = true) → adds p (Install.http_get host url).
Proof. intros H w. eexists [_]. split; [reflexivity|]. cbn. by rewrite H. Qed.

Lemma adds_spawn p cmd args :
  p (Spawn cmd args) = true → adds p (Install.spawn host cmd args).
Proof. intros H w. eexists [_]. split; [reflexivity|]. cbn. by rewrite H. Qed.

Lemma adds_getZipFile : adds before_extraction (Install.getZipFile path_join cfg host).
Proof.
  unfold Install.getZipFile. adds_auto; try (apply adds_http_get; reflexivity).
Qed.

Lemma adds_withRetry_loop p {T} (fn : M T) maxRetries retryDelay :
  adds p fn → (∀ s, p (ConsoleLog s) = true) → p (SetTimeout retryDelay) = true →
  ∀ remaining attempt lastError,
    adds p (Install.withRetry_loop fmt_seconds fn maxRetries retryDelay remaining attempt lastError).
Proof.
  intros Hfn Hlog Hdelay. induction remaining as [|remaining IH]; intros attempt lastError;
    cbn [Install.withRetry_loop].
  - destruct lastError; apply adds_throw.
  - apply adds_try_catch; [exact Hfn|]. intros e.
    unfold console_log, delay.
    repeat first [ apply adds_bind; [|intros ?] | apply adds_emit; auto | apply adds_ret
                 | apply IH
                 | match goal with |- adds _ (if ?b then _ else _) => destruct b end ].
Qed.

Lemma adds_child_events p events :
  (∀ l e, p (ConsoleErrorObj l e) = true) →
  ∀ output settled, adds p (Install.child_events events output settled).
Proof.
  intros Hp. induction events as [|ev events IH]; intros output settled.
  - apply (adds_pure p (λ _, default Hang settled)).
  - destruct ev; cbn [Install.child_events]; try apply IH.
    unfold console_error_obj. apply adds_bind; [apply adds_emit, Hp | intros _; apply IH].
Qed.

Lemma adds_unpack archivePath destination :
  adds any_event (Install.unpack cfg host archivePath destination).
Proof.
  unfold Install.unpack. adds_auto; try (apply adds_spawn; reflexivity).
  apply adds_child_events. reflexivity.
Qed.

Abbreviation main := (Install.main path_join fmt_seconds fmt_MB cfg host).
Abbreviation waitAndUnpack := (Install.waitAndUnpack fmt_seconds cfg host).

Lemma checkDownloadedFile_measured (zipFilePath : string) (size : Z) (w1 w2 : World) :
  statSync host zipFilePath w1 = (Normal size, w2) →
  Install.checkDownloadedFile fmt_MB host zipFilePath w1
  = if size <? 1048576
    then (Throw (new_Error (too_small_message size)), w2)
    else (Normal tt, mkWorld (fs w2)
                       (trace w2 ++ [ConsoleLog ("文件大小: " +:+ fmt_MB size +:+ "MB")])).
Proof.
  intros Hstat. unfold Install.checkDownloadedFile, try_catch.
  unfold mbind at 1, M_bind at 1, bind at 1. rewrite Hstat.
  destruct (size <? 1048576); reflexivity.
Qed.

Lemma statSync_trace (path : string) (w1 w2 : World) (c : Completion Z) :
  statSync host path w1 = (c, w2) → trace w2 = trace w1 ++ [FsCall OpStatSync path].
Proof.
  unfold statSync. unfold_M. destruct (fs_fault host OpStatSync path).
  - by intros [= _ <-].
  - cbn [fs]. destruct (fs w1 !! path); by intros [= _ <-].
Qed.


Lemma forallb_any (l : list Event) : forallb any_event l = true.
Proof. by induction l. Qed.

Lemma adds_any {T} (c : M T) :
  (∀ w, ∃ new, trace (c w).2 = trace w ++ new) → adds any_event c.
Proof. intros H w. destruct (H w) as (new & Hn). exists new. split; [exact Hn | apply forallb_any]. Qed.

Lemma begins_bind evs {A B} (c : M A) (k : A → M B) :
  begins_with evs c → (∀ a, adds any_event (k a)) → begins_with evs (c ≫= k).
Proof.
  intros Hc Hk w. unfold mbind, M_bind, bind. destruct (Hc w) as (rest & Htr).
  destruct (c w) as [[a|e|n|] w1]; cbn [snd] in Htr; try (by exists rest).
  destruct (Hk a w1) as (new & Htr' & _). exists (rest ++ new).
  by rewrite Htr', Htr, <- !app_assoc.
Qed.

Lemma begins_try_catch evs {A} (c : M A) (h : JsError → M A) :
  begins_with evs c → (∀ e, adds any_event (h e)) → begins_with evs (try_catch c h).
Proof.
  intros Hc Hh w. unfold try_catch. destruct (Hc w) as (rest & Htr).
  destruct (c w) as [[a|e|n|] w1]; cbn [snd] in Htr; try (by exists rest).
  destruct (Hh e w1) as (new & Htr' & _). exists (rest ++ new).
  by rewrite Htr', Htr, <- !app_assoc.
Qed.

Lemma checkFile_begins filePath maxAttempts interval remaining attempts :
  begins_with [FsOpen filePath] (Install.checkFile host filePath maxAttempts interval remaining attempts).
Proof.
  intros w. destruct (open_oracle host (count is_FsOpen (trace w))) as [e|fd closeErr] eqn:Ho.
  - destruct (Install.transient e) eqn:Ht.
    + destruct remaining as [|remaining].
      * rewrite (checkFile_exhausted _ _ _ _ _ _ _ Ho Ht). by eexists.
      * rewrite (checkFile_retry _ _ _ _ _ _ _ _ Ho Ht).
        destruct (checkFile_settles_once host filePath maxAttempts interval remaining
                    (attempts + 1) (mkWorld (fs w)
                       (trace w ++ poll_events filePath maxAttempts interval (attempts + 1))))
          as (new & Htr & _).
        rewrite Htr. cbn [trace]. unfold poll_events. rewrite <- app_assoc. by eexists.
    + rewrite (checkFile_fatal _ _ _ _ _ _ _ _ Ho Ht). by eexists.
  - destruct (checkFile_ready host filePath maxAttempts interval remaining attempts w _ _ Ho)
      as (rest & -> & _). by exists rest.
Qed.

Lemma adds_exit_on_error e : adds any_event (exit_on_error e).
Proof. unfold exit_on_error. adds_auto. Qed.

Lemma adds_unpack_retried (zipFilePath fileName : string) :
  adds any_event
    (try_catch
       (Install.withRetry fmt_seconds (Install.unpack cfg host zipFilePath (Install.destDir cfg)) 3 2000;;
        console_log ("已解压 " +:+ fileName +:+ " 到 " +:+ Install.destDir cfg))
       (λ unpackErr, throw (new_Error ("解压失败: " +:+ err_message unpackErr)))).
Proof.
  apply adds_try_catch; [|intros e; apply adds_throw].
  apply adds_bind; [|intros _; adds_auto].
  apply adds_withRetry_loop; [apply adds_unpack | reflexivity | reflexivity].
Qed.

Lemma waitAndUnpack_begins (fileName zipFilePath : string) :
  begins_with [FsOpen zipFilePath] (waitAndUnpack fileName zipFilePath).
Proof.
  unfold Install.waitAndUnpack.
  apply begins_bind; [|intros _; apply adds_unpack_retried].
  apply begins_try_catch; [apply checkFile_begins | intros e; apply adds_throw].
Qed.

Lemma unpack_begins (archivePath destination : string) :
  archivePath ≠ "" → destination ≠ "" →
  let args := ["x"; archivePath; "-y"; "-o" +:+ destination] in
  begins_with [ConsoleLog ("执行命令: " +:+ Install._7zaPath cfg +:+ " " +:+ join " " args);
               Spawn (Install._7zaPath cfg) args]
    (Install.unpack cfg host archivePath destination).
Proof.
  intros Ha Hd args w. rewrite (unpack_spawns cfg host _ _ w Ha Hd). subst args.
  destruct (adds_child_events any_event (spawn_oracle host (count is_Spawn (trace w)))
              ltac:(reflexivity) "" None
              (mkWorld (fs w)
                 (trace w ++ [ConsoleLog ("执行命令: " +:+ Install._7zaPath cfg +:+ " "
                                          +:+ join " " ["x"; archivePath; "-y"; "-o" +:+ destination]);
                              Spawn (Install._7zaPath cfg)
                                    ["x"; archivePath; "-y"; "-o" +:+ destination]])))
    as (new & Htr & _).
  exists new. rewrite Htr. cbn [trace]. by rewrite <- app_assoc.
Qed.

Lemma try_catch_extends {A} (c : M A) (h : JsError → M A) (w : World) :
  (∀ e, adds any_event (h e)) →
  ∃ more, trace (try_catch c h w).2 = trace (c w).2 ++ more.
Proof.
  intros Hh. unfold try_catch. destruct (c w) as [[a|e|n|] w1]; cbn [snd];
    try (exists []; by rewrite app_nil_r).
  destruct (Hh e w1) as (new & Htr & _). by exists new.
Qed.

Lemma withRetry_loop_begins evs {T} (fn : M T) maxRetries retryDelay remaining attempt lastError :
  begins_with evs fn → adds any_event fn →
  begins_with evs
    (Install.withRetry_loop fmt_seconds fn maxRetries retryDelay (S remaining) attempt lastError).
Proof.
  intros Hb Ha. cbn [Install.withRetry_loop].
  apply begins_try_catch; [exact Hb|].
  intros e. unfold console_log, delay.
  repeat first [ apply adds_bind; [|intros ?] | apply adds_emit; reflexivity | apply adds_ret
               | match goal with |- adds _ (if ?b then _ else _) => destruct b end ].
  apply adds_withRetry_loop; [exact Ha | reflexivity | reflexivity].
Qed.

Lemma unpack_retried_begins (zipFilePath fileName : string) :
  zipFilePath ≠ "" → Install.destDir cfg ≠ "" →
  let args := ["x"; zipFilePath; "-y"; "-o" +:+ Install.destDir cfg] in
  begins_with [ConsoleLog ("执行命令: " +:+ Install._7zaPath cfg +:+ " " +:+ join " " args);
               Spawn (Install._7zaPath cfg) args]
    (try_catch
       (Install.withRetry fmt_seconds (Install.unpack cfg host zipFilePath (Install.destDir cfg)) 3 2000;;
        console_log ("已解压 " +:+ fileName +:+ " 到 " +:+ Install.destDir cfg))
       (λ unpackErr, throw (new_Error ("解压失败: " +:+ err_message unpackErr)))).
Proof.
  intros Hz Hd args.
  apply begins_try_catch; [|intros e; apply adds_throw].
  apply begins_bind; [|intros _; adds_auto].
  unfold Install.withRetry. change (Install.iterations_left 3 1) with 3%nat.
  apply withRetry_loop_begins; [by apply unpack_begins | apply adds_unpack].
Qed.

(** Claim C6.  Let the checks pass, the download succeed with [fileName], and
    [statSync] measure [size] bytes.  If [size < 1048576], the script logs
    an [Error] whose message contains [size] and exits with status 1,
    having opened no file for the readiness wait and spawned no child.  If
    [size >= 1048576], the rest of the run is [waitAndUnpack]: its first
    step is the first open of the readiness wait, and if that open
    succeeds the archive tool is spawned on the downloaded file. *)
Theorem size_check_gates_extraction (w w1 w2 : World) (fileName : string) (size : Z) :
  let zipFilePath := path_join (dirname cfg) fileName in
  let r := main w in
  ready_to_download path_join cfg host w = true →
  Install.withRetry fmt_seconds (Install.getZipFile path_join cfg host) 3 2000 (after_checks cfg w)
  = (Normal fileName, w1) →
  statSync host zipFilePath w1 = (Normal size, w2) →
  (size < 1048576 →
     ∃ msg, r = (ProcessExit 1,
                 mkWorld (fs w2) (trace w2 ++ [ConsoleErrorObj "无法读取目录:" (new_Error msg)]))
            ∧ includes (pretty size) msg = true
            ∧ ∃ new, trace r.2 = trace w ++ new
                     ∧ count is_FsOpen new = 0%nat ∧ count is_Spawn new = 0%nat)
  ∧ (1048576 ≤ size →
     let w3 := mkWorld (fs w2)
                 (trace w2 ++ [ConsoleLog ("文件大小: " +:+ fmt_MB size +:+ "MB")]) in
     r = try_catch (try_catch (waitAndUnpack fileName zipFilePath) exit_on_error)
           (λ err, console_error_obj "执行失败:" err) w3
     ∧ (∃ rest, trace r.2 = trace w3 ++ FsOpen zipFilePath :: rest)
     ∧ (∀ fd closeErr,
          open_oracle host (count is_FsOpen (trace w3)) = OpenOk fd closeErr →
          zipFilePath ≠ "" →
          Spawn (Install._7zaPath cfg)
                ["x"; zipFilePath; "-y"; "-o" +:+ Install.destDir cfg] ∈ trace r.2)).
Proof.
  intros zipFilePath r Hready Hdl Hstat. subst r.
  rewrite (main_download _ _ _ _ _ w Hready).
  assert (Hrun : Install.downloadAndUnpack path_join fmt_seconds fmt_MB cfg host (after_checks cfg w)
                 = (Install.checkDownloadedFile fmt_MB host zipFilePath;;
                    waitAndUnpack fileName zipFilePath) w1).
  { unfold Install.downloadAndUnpack. unfold mbind at 1, M_bind at 1, bind at 1.
    unfold try_catch at 1. rewrite Hdl. reflexivity. }
  pose proof (checkDownloadedFile_measured zipFilePath size w1 w2 Hstat) as Hcheck.
  split.
  - intros Hsmall. apply Z.ltb_lt in Hsmall. rewrite Hsmall in Hcheck.
    exists (too_small_message size).
    assert (Hmain : try_catch (try_catch (Install.downloadAndUnpack path_join fmt_seconds fmt_MB cfg host)
                       exit_on_error) (λ err, console_error_obj "执行失败:" err) (after_checks cfg w)
             = (ProcessExit 1, mkWorld (fs w2)
                  (trace w2 ++ [ConsoleErrorObj "无法读取目录:" (new_Error (too_small_message size))]))).
    { unfold try_catch at 1 2. rewrite Hrun. unfold mbind at 1, M_bind at 1, bind at 1.
      rewrite Hcheck. reflexivity. }
    rewrite Hmain. split; [reflexivity|]. split.
    + unfold too_small_message. apply includes_append_r, includes_middle.
    + cbn [snd trace]. rewrite (statSync_trace _ _ _ _ Hstat).
      destruct (adds_withRetry_loop before_extraction (Install.getZipFile path_join cfg host)
                  3 2000 adds_getZipFile ltac:(reflexivity) ltac:(reflexivity)
                  (Install.iterations_left 3 1) 1 None (after_checks cfg w))
        as (new & Htr & Hnew).
      change (Install.withRetry_loop fmt_seconds (Install.getZipFile path_join cfg host) 3 2000
                (Install.iterations_left 3 1) 1 None) with
        (Install.withRetry fmt_seconds (Install.getZipFile path_join cfg host) 3 2000) in Htr.
      rewrite Hdl in Htr. cbn [snd] in Htr. rewrite Htr.
      assert (Hq1 : count is_FsOpen new = 0%nat).
      { apply (adds_count before_extraction); [|exact Hnew]. by intros []. }
      assert (Hq2 : count is_Spawn new = 0%nat).
      { apply (adds_count before_extraction); [|exact Hnew]. by intros []. }
      unfold after_checks. destruct (exists_in (fs w) (Install.destDir cfg)); cbn [trace];
        rewrite <- ?app_assoc; eexists; (split; [reflexivity|]);
        rewrite ?count_app, ?Hq1, ?Hq2; split; reflexivity.
  - intros Hbig w3. apply Z.ltb_ge in Hbig. rewrite Hbig in Hcheck.
    assert (Hmain : try_catch (try_catch (Install.downloadAndUnpack path_join fmt_seconds fmt_MB cfg host)
                       exit_on_error) (λ err, console_error_obj "执行失败:" err) (after_checks cfg w)
             = try_catch (try_catch (waitAndUnpack fileName zipFilePath) exit_on_error)
                 (λ err, console_error_obj "执行失败:" err) w3).
    { unfold try_catch at 1 2 3 4. rewrite Hrun. unfold mbind at 1, M_bind at 1, bind at 1.
      rewrite Hcheck. reflexivity. }
    rewrite Hmain. split; [reflexivity|].
    assert (Hhandlers : ∀ evs, begins_with evs (waitAndUnpack fileName zipFilePath) →
              begins_with evs (try_catch (try_catch (waitAndUnpack fileName zipFilePath) exit_on_error)
                                 (λ err, console_error_obj "执行失败:" err))).
    { intros evs H. apply begins_try_catch; [|intros e; adds_auto].
      apply begins_try_catch; [exact H | apply adds_exit_on_error]. }
    split; [apply (Hhandlers [FsOpen zipFilePath]), waitAndUnpack_begins|].
    intros fd closeErr Ho Hzip.
    assert (Hdest : Install.destDir cfg ≠ "").
    { unfold ready_to_download in Hready. rewrite !andb_true_iff in Hready.
      destruct Hready as [[[[[_ Hd] _] _] _] _]. unfold truthy in Hd.
      apply negb_true_iff in Hd. by apply String.eqb_neq. }
    destruct (checkFile_ready host zipFilePath 20 500 (Install.polls_left 20 (0 + 1)) 0 w3
                fd closeErr Ho)
      as (opened & Hwait & _).
    set (w4 := mkWorld (fs w3) (trace w3 ++ FsOpen zipFilePath :: opened)) in Hwait.
    assert (Hseq : waitAndUnpack fileName zipFilePath w3
                   = try_catch
                       (Install.withRetry fmt_seconds
                          (Install.unpack cfg host zipFilePath (Install.destDir cfg)) 3 2000;;
                        console_log ("已解压 " +:+ fileName +:+ " 到 " +:+ Install.destDir cfg))
                       (λ unpackErr, throw (new_Error ("解压失败: " +:+ err_message unpackErr)))
                       w4).
    { unfold Install.waitAndUnpack. unfold mbind at 1, M_bind at 1, bind at 1.
      unfold try_catch at 1, Install.waitForFileReady. rewrite Hwait. reflexivity. }
    destruct (unpack_retried_begins zipFilePath fileName Hzip Hdest w4) as (rest & Hrest).
    destruct (try_catch_extends (waitAndUnpack fileName zipFilePath) exit_on_error w3
                adds_exit_on_error) as (more1 & Hmore1).
    destruct (try_catch_extends (try_catch (waitAndUnpack fileName zipFilePath) exit_on_error)
                (λ err, console_error_obj "执行失败:" err) w3
                ltac:(intros e; adds_auto)) as (more2 & Hmore2).
    rewrite Hmore2, Hmore1, Hseq, Hrest. set_solver.
Qed.
End Pipeline.

(** ** The uninstall script *)

Section Uninstalling.
Variable path_join : string → string → string.
Variable cfg : Config.
Variable host : Host.

Lemma code_is_ENOENT (syscall path : string) : code_is (ENOENT_error syscall path) "ENOENT" = true.
Proof. reflexivity. Qed.

Lemma code_is_EISDIR (syscall path : string) : code_is (EISDIR_error syscall path) "ENOENT" = false.
Proof. reflexivity. Qed.

Lemma removeFile_fulfils (filePath : string) (w : World) :
  ∃ m log, Uninstall.removeFile host filePath w
           = (Normal tt, mkWorld m (trace w ++ [FsCall OpUnlinkSync filePath; log]))
           ∧ (fs w !! filePath = None → fs_fault host OpUnlinkSync filePath = None →
              m = fs w ∧ log = ConsoleLog ("文件不存在，无需删除: " +:+ filePath)).
Proof.
  unfold Uninstall.removeFile, try_catch, unlinkSync, fs_guard. unfold_M.
  destruct (fs_fault host OpUnlinkSync filePath) as [e|].
  - destruct (code_is e "ENOENT"); norm_world; do 2 eexists; (split; [reflexivity|]); discriminate.
  - cbn [fs]. destruct (fs w !! filePath) as [n|].
    + destruct (node_is_dir n); rewrite ?code_is_EISDIR; norm_world; do 2 eexists;
        (split; [reflexivity|]); discriminate.
    + rewrite code_is_ENOENT. norm_world. do 2 eexists. split; [reflexivity|]. by intros _ _.
Qed.

Lemma removeDirectory_fulfils (dirPath : string) (w : World) :
  ∃ m new, Uninstall.removeDirectory host dirPath w = (Normal tt, mkWorld m (trace w ++ new))
           ∧ (has_rmSync host = true → ∃ log, new = [FsCall OpRmSync dirPath; log])
           ∧ (has_rmSync host = false → has_rmdirSync host = true →
              ∃ log, new = [FsCall OpRmdirSync dirPath; log]).
Proof.
  unfold Uninstall.removeDirectory, try_catch, rmSync_force, rmdirSync, fs_guard. unfold_M.
  destruct (has_rmSync host).
  - destruct (fs_fault host OpRmSync dirPath) as [e|].
    + destruct (code_is e "ENOENT"); norm_world; do 2 eexists; (split; [reflexivity|]);
        (split; [by eexists | discriminate]).
    + norm_world. do 2 eexists. split; [reflexivity|]. split; [by eexists | discriminate].
  - destruct (has_rmdirSync host).
    + destruct (fs_fault host OpRmdirSync dirPath) as [e|].
      * destruct (code_is e "ENOENT"); norm_world; do 2 eexists; (split; [reflexivity|]);
          (split; [discriminate | by eexists]).
      * cbn [fs]. destruct (fs w !! dirPath); rewrite ?code_is_ENOENT; norm_world;
          do 2 eexists; (split; [reflexivity|]); (split; [discriminate | by eexists]).
    + norm_world. do 2 eexists. split; [reflexivity|]. split; discriminate.
Qed.

(** Whatever the file system holds and however the deletions fail,
    [uninstall] is fulfilled, after an attempt on the archive file and,
    when the destination root is set and [fs.rmSync] exists, one on the
    compiler directory. *)
Lemma uninstall_fulfils (w : World) :
  ∃ w', Uninstall.main path_join cfg host w = (Normal tt, w')
        ∧ ∃ new, trace w' = trace w ++ new
                 ∧ FsCall OpUnlinkSync (Uninstall.zipFilePath path_join cfg) ∈ new
                 ∧ (Uninstall.destDir cfg ≠ "" → has_rmSync host = true →
                    FsCall OpRmSync (Uninstall.compilerPath path_join cfg) ∈ new).
Proof.
  unfold Uninstall.main, Uninstall.uninstall, try_catch.
  unfold mbind, M_bind, bind, console_log, emit. cbn [fs trace].
  match goal with |- context [Uninstall.removeFile host ?p ?w0] =>
    destruct (removeFile_fulfils p w0) as (m & log & -> & _) end.
  destruct (truthy (Uninstall.destDir cfg)) eqn:Hd; cbn [negb fs trace].
  - match goal with |- context [Uninstall.removeDirectory host ?p ?w0] =>
      destruct (removeDirectory_fulfils p w0) as (m' & new & Heq & Hrm & Hrmdir); rewrite Heq end.
    eexists. split; [reflexivity|]. cbn [trace]. rewrite <- !app_assoc.
    eexists. split; [reflexivity|]. split; [set_solver|].
    intros _ Hhas. pose proof (Hrm Hhas) as (log' & Hnew). rewrite Hnew. cbn [app].
    repeat first [apply list_elem_of_here | apply list_elem_of_further].
  - eexists. split; [reflexivity|]. cbn [trace]. rewrite <- !app_assoc.
    eexists. split; [reflexivity|]. split; [set_solver|].
    intros Hne. apply String.eqb_neq in Hne. unfold truthy in Hd. by rewrite Hne in Hd.
Qed.
End Uninstalling.

(** Claim C8, at the failing input: neither the archive nor the compiler
    directory exists, the destination root is set and Node has [fs.rmSync].
    The uninstall is fulfilled, but the absent directory is reported as
    successfully deleted, and the "does not exist" line of
    [removeDirectory] is not logged. *)
Theorem uninstall_absent_directory_log :
  let compilerPath := Uninstall.compilerPath sample_join sample_cfg in
  let r := Uninstall.main sample_join sample_cfg quiet_host sample_world in
  compilerPath = "/opt/compilers/esp-x32@1.0.0"
  ∧ fs sample_world !! compilerPath = None
  ∧ r.1 = Normal tt
  ∧ ConsoleLog ("已成功删除目录: " +:+ compilerPath) ∈ trace r.2
  ∧ ConsoleLog ("目录不存在，无需删除: " +:+ compilerPath) ∉ trace r.2.
Proof.
  cbn zeta. split; [reflexivity|]. split; [reflexivity|]. split; [reflexivity|].
  assert (H : trace (Uninstall.main sample_join sample_cfg quiet_host sample_world).2
              = ltac:(let t := eval vm_compute in
                        (trace (Uninstall.main sample_join sample_cfg quiet_host sample_world).2)
                      in exact t)).
  { vm_compute. reflexivity. }
  rewrite H. clear H.
  replace (Uninstall.compilerPath sample_join sample_cfg) with "/opt/compilers/esp-x32@1.0.0"
    by reflexivity.
  split.
  - repeat first [apply list_elem_of_here | apply list_elem_of_further].
  - intros Hin. repeat (apply elem_of_cons in Hin as [Hin|Hin]; [discriminate|]).
    by apply elem_of_nil in Hin.
Qed.

(** Claim C9, at the failing input: for version "1.0.0-a.7z.b" the install
    script removes the first ".7z" of the archive name, not its extension,
    and so computes a directory name that differs from the one the
    uninstall script computes. *)
Theorem targetDirName_first_occurrence :
  Install.getZipFileName dotted_cfg = "esp-x32@1.0.0-a.7z.b.7z"
  ∧ Install.targetDirName dotted_cfg = "esp-x32@1.0.0-a.b.7z"
  ∧ Uninstall.compilerDirName dotted_cfg = "esp-x32@1.0.0-a.7z.b"
  ∧ Install.targetDirName dotted_cfg ≠ Uninstall.compilerDirName dotted_cfg.
Proof. repeat split; try reflexivity. vm_compute. discriminate. Qed.

(** ** Directory names *)

Ltac case_ascii :=
  match goal with
  | |- context [Ascii.ascii_dec ?a ?b] => destruct (Ascii.ascii_dec a b); try subst
  end.

Lemma prefix_7z_straddle (c : Ascii.ascii) (s : string) :
  String.prefix ".7z" (String c s) = false →
  String.prefix ".7z" (String c s +:+ ".7z") = false.
Proof.
  change (String c s +:+ ".7z") with (String c (s +:+ ".7z")).
  destruct s as [|c2 [|c3 s]].
  - intros _. change ("" +:+ ".7z") with ".7z". cbn -[Ascii.ascii_dec].
    repeat case_ascii; reflexivity || discriminate.
  - intros _. change (String c2 "" +:+ ".7z") with (String c2 ".7z"). cbn -[Ascii.ascii_dec].
    repeat case_ascii; reflexivity || discriminate.
  - change (String c2 (String c3 s) +:+ ".7z") with (String c2 (String c3 (s +:+ ".7z"))).
    cbn -[Ascii.ascii_dec String.append]. repeat case_ascii; try reflexivity. by destruct s.
Qed.

Lemma replace_extension (s : string) :
  includes ".7z" s = false → replace ".7z" "" (s +:+ ".7z") = s.
Proof.
  induction s as [|c s IH]; [reflexivity|].
  intros Hinc. cbn [includes] in Hinc.
  destruct (String.prefix ".7z" (String c s)) eqn:Hp; [discriminate|].
  change (String c s +:+ ".7z") with (String c (s +:+ ".7z")).
  cbn [replace].
  change (String c (s +:+ ".7z")) with (String c s +:+ ".7z") at 1.
  rewrite (prefix_7z_straddle c s Hp). by rewrite IH.
Qed.

Lemma append_assoc (a b c : string) : (a +:+ b) +:+ c = a +:+ (b +:+ c).
Proof.
  induction a as [|x a IH]; [reflexivity|].
  change ((String x a +:+ b) +:+ c) with (String x ((a +:+ b) +:+ c)). by rewrite IH.
Qed.

(** X26.  Apart from names and versions that contain ".7z", install and
    uninstall agree on the directory name. *)
Lemma targetDirName_agrees (cfg : Config) :
  includes ".7z" (Uninstall.compilerDirName cfg) = false →
  Install.targetDirName cfg = Uninstall.compilerDirName cfg.
Proof.
  intros H. unfold Install.targetDirName, Install.getZipFileName.
  unfold Uninstall.compilerDirName, Uninstall.packageName, Uninstall.packageVersion,
    Uninstall.prefix in *.
  rewrite <- (replace_extension _ H). rewrite !append_assoc. reflexivity.
Qed.

(** ** Concrete runs *)

Lemma withRetry_attempts_witness :
  1 ≤ 3
  ∧ let r := Install.withRetry sample_seconds (scripted fails_twice) 3 1000 sample_world in
    r.1 = Normal 7 ∧ retried sample_world r 3 1000.
Proof.
  split; [lia|].
  apply (proj1 (withRetry_attempts sample_seconds fails_twice 3 1000 sample_world ltac:(lia))
           3%nat 7); [lia | lia | | reflexivity].
  intros [|[|i]] Hi; [by eexists | by eexists | lia].
Defined.

Lemma withRetry_no_attempts_witness :
  0 < 1
  ∧ Install.withRetry sample_seconds (scripted fails_twice) 0 1000 sample_world
    = (Throw TypeError_undefined_message, sample_world).
Proof.
  split; [lia|]. apply (withRetry_no_attempts sample_seconds). lia.
Defined.

Lemma waitForFileReady_polls_witness :
  1 ≤ 20
  ∧ let r := Install.waitForFileReady busy_host "/pkg/esp-x32@1.0.0.7z" 20 500 sample_world in
    r.1 = Normal tt ∧ polled sample_world r 3.
Proof.
  split; [lia|].
  destruct (waitForFileReady_polls busy_host "/pkg/esp-x32@1.0.0.7z" 20 500 sample_world
              ltac:(lia)) as (_ & Hready & _).
  apply (Hready 3%nat 3 None); [lia | lia | | reflexivity].
  intros [|[|i]] Hi; [| | lia]; exists EBUSY_error; (split; [reflexivity | by left]).
Defined.

Lemma getZipFile_failure_cleans_up_witness :
  exists_in (fs sample_world) "/pkg/esp-x32@1.0.0.7z" = false
  ∧ let r := Install.getZipFile sample_join sample_cfg missing_host sample_world in
    ∃ msg, r.1 = Throw (new_Error msg)
           ∧ includes "404" msg = true
           ∧ partial_file_unlinked missing_host sample_world r "/pkg/esp-x32@1.0.0.7z".
Proof.
  split; [reflexivity|].
  apply (proj1 (getZipFile_failure_cleans_up sample_join sample_cfg missing_host sample_world
                  ltac:(reflexivity)) 404 0 BodyStalled); [reflexivity | lia].
Defined.

(** Claim C4 as stated fails: the download starts writing to a fresh file
    and fails with status 404, [getZipFile] asks for the file to be
    unlinked and rejects with the error that names the status, but it does
    not wait for the unlink nor look at its outcome: when the unlink is not
    carried out, the file is still on disk. *)
Lemma unlink_outcome_ignored :
  let r := Install.getZipFile sample_join sample_cfg sticky_host sample_world in
  exists_in (fs sample_world) "/pkg/esp-x32@1.0.0.7z" = false
  ∧ http_oracle sticky_host (count is_HttpGet (trace sample_world)) = Response 404 0 BodyStalled
  ∧ r.1 = Throw (new_Error "下载失败: 状态码 404")
  ∧ FsUnlink "/pkg/esp-x32@1.0.0.7z" ∈ trace r.2
  ∧ fs r.2 !! "/pkg/esp-x32@1.0.0.7z" = Some (RegularFile 0)
  ∧ ¬ (fs r.2 !! "/pkg/esp-x32@1.0.0.7z" = None).
Proof.
  cbn zeta. split; [reflexivity|]. split; [reflexivity|]. split; [reflexivity|].
  split; [vm_compute; repeat first [apply list_elem_of_here | apply list_elem_of_further]|].
  assert (Hfile : fs (Install.getZipFile sample_join sample_cfg sticky_host sample_world).2
                  !! "/pkg/esp-x32@1.0.0.7z" = Some (RegularFile 0)) by (vm_compute; reflexivity).
  split; [exact Hfile|]. rewrite Hfile. discriminate.
Qed.

Lemma unpack_outcome_witness :
  let r := Install.unpack sample_cfg failing_tool_host "/pkg/esp-x32@1.0.0.7z" "/opt/compilers"
             sample_world in
  ∃ msg, r.1 = Throw (new_Error msg)
         ∧ includes "2" msg = true
         ∧ includes "7-Zip ERROR: bad archive" msg = true.
Proof.
  destruct (unpack_outcome sample_cfg failing_tool_host "/pkg/esp-x32@1.0.0.7z" "/opt/compilers"
              sample_world) as (_ & Hrun).
  destruct (Hrun ltac:(discriminate) ltac:(discriminate)) as (_ & _ & Hexit & _).
  apply (Hexit [StdoutData "7-Zip "; StderrData "ERROR: bad archive"] (Some 2) []);
    [repeat constructor | reflexivity | discriminate].
Defined.

Lemma install_skips_existing_target_witness :
  exists_in (fs installed_world) (Install.targetPath sample_join sample_cfg) = true
  ∧ let r := Install.main sample_join sample_seconds sample_MB sample_cfg quiet_host
               installed_world in
    exit_status r.1 = Some 0
    ∧ fs r.2 = fs installed_world
    ∧ ∃ new, trace r.2 = trace installed_world ++ new
             ∧ count is_HttpGet new = 0%nat
             ∧ count is_Spawn new = 0%nat
             ∧ (exists_in (fs installed_world) (Install.srcDir sample_cfg) = true →
                Install.destDir sample_cfg ≠ "" →
                r.1 = Normal tt
                ∧ new = [ConsoleLog ("目标文件夹已存在: " +:+ Install.targetPath sample_join sample_cfg);
                         ConsoleLog "跳过下载和解压操作。"]).
Proof.
  split; [reflexivity|].
  apply (install_skips_existing_target sample_join sample_seconds sample_MB sample_cfg quiet_host
           installed_world). reflexivity.
Defined.

Lemma failed_precondition_stops_install_witness :
  failed_precondition sample_join no_dest_cfg quiet_host sample_world = Some DestinationDirectory
  ∧ let r := Install.main sample_join sample_seconds sample_MB no_dest_cfg quiet_host
               sample_world in
    exit_status r.1 = Some 0
    ∧ ∃ new, trace r.2 = trace sample_world ++ new
             ∧ last new = Some (ConsoleError "未设置目标目录")
             ∧ count is_HttpGet new = 0%nat
             ∧ count is_Spawn new = 0%nat
             ∧ count is_SetTimeout new = 0%nat.
Proof.
  split; [reflexivity|].
  apply (failed_precondition_stops_install sample_join sample_seconds sample_MB no_dest_cfg
           quiet_host sample_world DestinationDirectory). reflexivity.
Defined.

(** Claim C1 as stated fails: with the destination unset, the check fails and
    the error is logged, but the process does not end with a non-zero exit
    status. *)
Lemma unset_destination_exits_zero :
  let r := Install.main sample_join sample_seconds sample_MB no_dest_cfg quiet_host sample_world in
  failed_precondition sample_join no_dest_cfg quiet_host sample_world = Some DestinationDirectory
  ∧ ConsoleError "未设置目标目录" ∈ trace r.2
  ∧ ¬ (∃ n, exit_status r.1 = Some n ∧ n ≠ 0).
Proof.
  cbn zeta. split; [reflexivity|]. split.
  - vm_compute. apply list_elem_of_here.
  - intros (n & Hn & Hne). vm_compute in Hn. congruence.
Qed.

Lemma size_check_gates_extraction_witness :
  ready_to_download sample_join sample_cfg truncating_host sample_world = true
  ∧ truncated_download = (Normal "esp-x32@1.0.0.7z", truncated_download.2)
  ∧ truncated_measured = (Normal 512000, truncated_measured.2)
  ∧ 512000 < 1048576
  ∧ let r := Install.main sample_join sample_seconds sample_MB sample_cfg truncating_host
               sample_world in
    ∃ msg, r = (ProcessExit 1,
                mkWorld (fs truncated_measured.2)
                  (trace truncated_measured.2
                   ++ [ConsoleErrorObj "无法读取目录:" (new_Error msg)]))
           ∧ includes "512000" msg = true
           ∧ ∃ new, trace r.2 = trace sample_world ++ new
                    ∧ count is_FsOpen new = 0%nat ∧ count is_Spawn new = 0%nat.
Proof.
  assert (Hready : ready_to_download sample_join sample_cfg truncating_host sample_world = true)
    by reflexivity.
  assert (Hdl : truncated_download = (Normal "esp-x32@1.0.0.7z", truncated_download.2))
    by (vm_compute; reflexivity).
  assert (Hstat : truncated_measured = (Normal 512000, truncated_measured.2))
    by (vm_compute; reflexivity).
  do 3 (split; [assumption|]). split; [lia|].
  apply (proj1 (size_check_gates_extraction sample_join sample_seconds sample_MB sample_cfg
                  truncating_host sample_world truncated_download.2 truncated_measured.2
                  "esp-x32@1.0.0.7z" 512000 Hready Hdl Hstat)).
  lia.
Defined.

(** ** The retry executor, for any operation *)

Lemma filter_none (p q : Event → bool) (l : list Event) :
  (∀ ev, p ev = true → q ev = false) → forallb p l = true →
  filter (λ ev, q ev = true) l = [].
Proof.
  intros Hpq. induction l as [|ev l IH]; [reflexivity|]. cbn [forallb].
  intros [Hev Hl]%andb_true_iff. rewrite filter_cons, (Hpq ev Hev).
  case_decide; [discriminate|]. by apply IH.
Qed.

Section RetryAny.
Variable fmt_seconds : Z → string.

Lemma withRetry_loop_bounded {T} (fn : M T) (maxRetries retryDelay : Z) :
  adds not_call_or_timer fn →
  ∀ remaining attempt lastError w,
    remaining = Install.iterations_left maxRetries attempt →
    ∃ calls, (calls ≤ remaining)%nat ∧ ((1 ≤ remaining)%nat → (1 ≤ calls)%nat)
             ∧ retried w (Install.withRetry_loop fmt_seconds (counted fn) maxRetries retryDelay
                            remaining attempt lastError w) calls retryDelay.
Proof.
  intros Hfn. induction remaining as [|remaining IH]; intros attempt lastError w Hinv.
  - exists 0%nat. split; [lia|]. split; [lia|]. exists []. cbn [Install.withRetry_loop].
    destruct lastError; by rewrite app_nil_r.
  - assert (Hle : attempt ≤ maxRetries) by (unfold Install.iterations_left in Hinv; lia).
    assert (Hrem : remaining = Install.iterations_left maxRetries (attempt + 1))
      by (unfold Install.iterations_left in *; lia).
    clear Hinv.
    cbn [Install.withRetry_loop]. unfold try_catch at 1, counted at 1.
    unfold mbind at 1, M_bind at 1, bind at 1, emit at 1.
    destruct (Hfn (mkWorld (fs w) (trace w ++ [OpInvoked]))) as (newf & Htr & Hquiet).
    assert (Hc : count is_OpInvoked newf = 0%nat)
      by (apply (adds_count not_call_or_timer); [by intros [] | exact Hquiet]).
    assert (Hf : filter (λ ev, is_call_or_timer ev = true) newf = [])
      by (apply (filter_none not_call_or_timer); [by intros [] | exact Hquiet]).
    destruct (fn _) as [[v|e|n|] w1]; cbn [snd trace] in Htr.
    1,3,4: exists 1%nat; split; [lia|]; split; [lia|];
      exists (OpInvoked :: newf); cbn [snd]; rewrite Htr, <- app_assoc;
      (split; [reflexivity|]);
      change (OpInvoked :: newf) with ([OpInvoked] ++ newf);
      rewrite count_app, filter_app, Hc, Hf; split; reflexivity.
    unfold console_log, delay. unfold mbind, M_bind, bind, emit, mret, M_ret, ret.
    destruct (attempt <? maxRetries) eqn:Hlt; cbn [fs trace].
    + apply Z.ltb_lt in Hlt.
      match goal with |- context [Install.withRetry_loop _ _ _ _ _ _ _ ?w2] =>
        destruct (IH (attempt + 1) (Some e) w2 Hrem) as (calls & Hcalls & Hpos & new & Hnew & Hcnt & Hsch)
      end.
      assert (Hr : (1 ≤ remaining)%nat) by (rewrite Hrem; unfold Install.iterations_left; lia).
      specialize (Hpos Hr). destruct calls as [|calls]; [lia|].
      exists (S (S calls)). split; [lia|]. split; [lia|].
      eexists. rewrite Hnew. cbn [trace]. rewrite Htr, <- !app_assoc.
      split; [reflexivity|]. rewrite !count_app, !filter_app, Hc, Hf, Hcnt, Hsch.
      split; reflexivity.
    + apply Z.ltb_ge in Hlt.
      assert (Hr : remaining = 0%nat) by (rewrite Hrem; unfold Install.iterations_left; lia).
      clear Hrem IH. subst remaining. cbn [Install.withRetry_loop].
      exists 1%nat. split; [lia|]. split; [lia|].
      eexists. cbn [snd trace]. rewrite Htr, <- !app_assoc.
      split; [reflexivity|]. rewrite !count_app, !filter_app, Hc, Hf. split; reflexivity.
Qed.

(** X1.  Whatever the operation does (and whether it ever settles),
    [withRetry] invokes it at most [maxRetries] times, and the invocations
    and timers of the run are [call_schedule]: each timer is of
    [retryDelay] milliseconds and is followed by another invocation. *)
Theorem withRetry_bounded {T} (fn : M T) (maxRetries retryDelay : Z) (w : World) :
  adds not_call_or_timer fn →
  ∃ calls, (calls ≤ Z.to_nat maxRetries)%nat
           ∧ retried w (Install.withRetry fmt_seconds (counted fn) maxRetries retryDelay w)
                     calls retryDelay.
Proof.
  intros Hfn.
  destruct (withRetry_loop_bounded fn maxRetries retryDelay Hfn
              (Install.iterations_left maxRetries 1) 1 None w eq_refl) as (calls & Hle & _ & Hret).
  exists calls. split; [unfold Install.iterations_left in Hle; lia | exact Hret].
Qed.

Lemma withRetry_loop_unfold {T} (fn : M T) maxRetries retryDelay remaining attempt lastError
    (w : World) :
  Install.withRetry_loop fmt_seconds fn maxRetries retryDelay (S remaining) attempt lastError w
  = match fn w with
    | (Throw e, w1) =>
        Install.withRetry_loop fmt_seconds fn maxRetries retryDelay remaining (attempt + 1)
          (Some e)
          (mkWorld (fs w1)
             (trace w1 ++ retry_events fmt_seconds maxRetries retryDelay attempt e))
    | r => r
    end.
Proof.
  cbn [Install.withRetry_loop]. unfold try_catch at 1.
  destruct (fn w) as [[v|e|n|] w1]; try reflexivity.
  unfold retry_events. destruct (attempt <? maxRetries); unfold_M; rewrite <- ?app_assoc;
    reflexivity.
Qed.

(* When the loop rejects, its last iteration is a failed invocation at the
   attempt number [maxRetries]. *)
Lemma withRetry_loop_wraps {T} (fn : M T) (maxRetries retryDelay : Z) :
  ∀ remaining attempt lastError w e,
    (1 ≤ remaining)%nat → attempt + Z.of_nat remaining - 1 = maxRetries →
    let r := Install.withRetry_loop fmt_seconds fn maxRetries retryDelay remaining attempt
               lastError w in
    r.1 = Throw e →
    ∃ w1 w2 e',
      fn w1 = (Throw e', w2)
      ∧ r.2 = mkWorld (fs w2)
                (trace w2 ++ [ConsoleLog ("操作失败 (尝试 " +:+ pretty maxRetries +:+ "/"
                                          +:+ pretty maxRetries +:+ "): "
                                          +:+ err_message e')])
      ∧ e = new_Error (exhausted_message maxRetries e').
Proof.
  induction remaining as [|remaining IH]; intros attempt lastError w e Hpos Hatt r; [lia|].
  subst r. rewrite withRetry_loop_unfold.
  destruct (fn w) as [[v|e0|n|] w2] eqn:Hfn; try discriminate.
  destruct remaining as [|remaining].
  - assert (attempt = maxRetries) as -> by lia.
    unfold retry_events. rewrite Z.ltb_irrefl.
    cbn [Install.withRetry_loop]. unfold throw. cbn [fst snd].
    intros [= <-]. exists w, w2, e0. by split.
  - apply IH; lia.
Qed.

(** X2.  With [maxRetries >= 1], whenever [withRetry] rejects, the last
    thing the run did was an invocation of the operation, the one numbered
    [maxRetries], that rejected, followed by the log line of that failure
    alone; and the error of [withRetry] is a new [Error] without a code
    whose message is the aggregate text followed by the message of the
    error of that last invocation. *)
Theorem withRetry_rejects_with_aggregate {T} (fn : M T) (maxRetries retryDelay : Z)
    (w : World) (e : JsError) :
  1 ≤ maxRetries →
  let r := Install.withRetry fmt_seconds fn maxRetries retryDelay w in
  r.1 = Throw e →
  err_code e = None
  ∧ ∃ w1 w2 e',
      fn w1 = (Throw e', w2)
      ∧ r.2 = mkWorld (fs w2)
                (trace w2 ++ [ConsoleLog ("操作失败 (尝试 " +:+ pretty maxRetries +:+ "/"
                                          +:+ pretty maxRetries +:+ "): "
                                          +:+ err_message e')])
      ∧ e = new_Error ("经过 " +:+ pretty maxRetries +:+ " 次尝试后操作仍然失败: "
                       +:+ err_message e').
Proof.
  intros Hmax r Hr. subst r. unfold Install.withRetry in *.
  apply withRetry_loop_wraps in Hr as (w1 & w2 & e' & Hfn & Hw & ->);
    [|unfold Install.iterations_left; lia..].
  split; [reflexivity|]. by exists w1, w2, e'.
Qed.
End RetryAny.

(** ** The file readiness gate, for any answers *)

Section ReadyAny.
Variable host : Host.

Lemma checkFile_ready_events filePath maxAttempts interval remaining attempts w fd closeErr :
  open_oracle host (count is_FsOpen (trace w)) = OpenOk fd closeErr →
  Install.checkFile host filePath maxAttempts interval remaining attempts w
  = (Normal tt,
     mkWorld (fs w)
       (trace w ++ [FsOpen filePath; FsClose fd]
        ++ match closeErr with
           | Some ce => [ConsoleWarn ("关闭文件描述符时出错: " +:+ err_message ce)]
           | None => []
           end
        ++ [ConsoleLog "文件已就绪，可以进行解压操作"; PromiseResolve])).
Proof.
  intros Ho.
  destruct remaining, closeErr; cbn [Install.checkFile];
    unfold Install.fs_open, Install.resolve; unfold_M; rewrite Ho; norm_world; reflexivity.
Qed.

Lemma checkFile_schedule (filePath : string) (maxAttempts interval : Z) (remaining : nat) :
  ∀ attempts w,
    let r := Install.checkFile host filePath maxAttempts interval remaining attempts w in
    fs r.2 = fs w
    ∧ ∃ polls new, (1 ≤ polls ≤ S remaining)%nat
                   ∧ trace r.2 = trace w ++ new
                   ∧ filter (λ ev, is_open_or_timer ev = true) new
                     = poll_schedule filePath polls interval.
Proof.
  induction remaining as [|remaining IH]; intros attempts w;
    destruct (open_oracle host (count is_FsOpen (trace w))) as [e|fd closeErr] eqn:Ho;
    cbn zeta.
  - destruct (Install.transient e) eqn:Ht.
    + rewrite (checkFile_exhausted _ _ _ _ _ _ _ Ho Ht). split; [reflexivity|].
      exists 1%nat. eexists. split; [lia|]. split; reflexivity.
    + rewrite (checkFile_fatal _ _ _ _ _ _ _ _ Ho Ht). split; [reflexivity|].
      exists 1%nat. eexists. split; [lia|]. split; reflexivity.
  - rewrite (checkFile_ready_events _ _ _ _ _ _ _ _ Ho). split; [reflexivity|].
    exists 1%nat. eexists. split; [lia|]. split; [reflexivity|]. by destruct closeErr.
  - destruct (Install.transient e) eqn:Ht.
    + rewrite (checkFile_retry _ _ _ _ _ _ _ _ Ho Ht).
      destruct (IH (attempts + 1) (mkWorld (fs w)
                  (trace w ++ poll_events filePath maxAttempts interval (attempts + 1))))
        as (Hfs & polls & new & Hpolls & Htr & Hsch).
      split; [exact Hfs|]. destruct polls as [|polls]; [lia|].
      exists (S (S polls)), (poll_events filePath maxAttempts interval (attempts + 1) ++ new).
      split; [lia|]. rewrite Htr. cbn [trace]. rewrite <- app_assoc. split; [reflexivity|].
      rewrite filter_app, Hsch. reflexivity.
    + rewrite (checkFile_fatal _ _ _ _ _ _ _ _ Ho Ht). split; [reflexivity|].
      exists 1%nat. eexists. split; [lia|]. split; reflexivity.
  - rewrite (checkFile_ready_events _ _ _ _ _ _ _ _ Ho). split; [reflexivity|].
    exists 1%nat. eexists. split; [lia|]. split; [reflexivity|]. by destruct closeErr.
Qed.

(** X3.  Whatever the opens answer and whatever [maxAttempts] is (zero and
    negative values included), [waitForFileReady] opens the file at least
    once and at most [max(1, maxAttempts)] times, waits [interval]
    milliseconds between two consecutive opens and never after the last,
    and leaves the file system as it is. *)
Theorem waitForFileReady_schedule (filePath : string) (maxAttempts interval : Z) (w : World) :
  let r := Install.waitForFileReady host filePath maxAttempts interval w in
  fs r.2 = fs w
  ∧ ∃ polls new, (1 ≤ polls ≤ Z.to_nat (Z.max 1 maxAttempts))%nat
                 ∧ trace r.2 = trace w ++ new
                 ∧ filter (λ ev, is_open_or_timer ev = true) new
                   = poll_schedule filePath polls interval.
Proof.
  destruct (checkFile_schedule filePath maxAttempts interval
              (Install.polls_left maxAttempts (0 + 1)) 0 w) as (Hfs & polls & new & Hp & Htr & Hs).
  split; [exact Hfs|]. exists polls, new. split; [|by split].
  unfold Install.polls_left in Hp. lia.
Qed.

(** X4.  With [maxAttempts <= 1] (zero and negative values included) the
    first open decides: if it fails with a retriable code, the promise is
    rejected at once, after that single open and without any timer, with
    the "still unavailable" error that cites [maxAttempts] as given. *)
Theorem waitForFileReady_single_poll (filePath : string) (maxAttempts interval : Z)
    (w : World) (e : JsError) :
  maxAttempts ≤ 1 →
  open_oracle host (count is_FsOpen (trace w)) = OpenErr e →
  retriable_code e →
  Install.waitForFileReady host filePath maxAttempts interval w
  = (Throw (new_Error ("文件在 " +:+ pretty maxAttempts +:+ " 次尝试后仍不可用: " +:+ filePath)),
     mkWorld (fs w)
       (trace w ++ [FsOpen filePath;
                    PromiseReject (new_Error ("文件在 " +:+ pretty maxAttempts
                                              +:+ " 次尝试后仍不可用: " +:+ filePath))])).
Proof.
  intros Hmax Ho Hcode. unfold Install.waitForFileReady.
  replace (Install.polls_left maxAttempts (0 + 1)) with 0%nat
    by (unfold Install.polls_left; lia).
  apply (checkFile_exhausted host filePath maxAttempts interval 0 w e);
    [exact Ho | by apply transient_retriable].
Qed.
End ReadyAny.

(** ** The downloader: the other outcomes *)

Lemma fs_after_unlink_other (m : gmap string FsNode) (p q : string) :
  q ≠ p → fs_after_unlink m p !! q = m !! q.
Proof.
  intros Hne. unfold fs_after_unlink. destruct (m !! p) as [n|]; [|reflexivity].
  destruct (node_is_dir n); [reflexivity|]. by apply lookup_delete_ne.
Qed.

Section RetryStep.
Variable fmt_seconds : Z → string.

Lemma withRetry_loop_throw {T} (fn : M T) maxRetries retryDelay remaining attempt lastError
    (w w1 : World) (e : JsError) :
  fn w = (Throw e, w1) →
  Install.withRetry_loop fmt_seconds fn maxRetries retryDelay (S remaining) attempt lastError w
  = Install.withRetry_loop fmt_seconds fn maxRetries retryDelay remaining (attempt + 1) (Some e)
      (mkWorld (fs w1) (trace w1 ++ retry_events fmt_seconds maxRetries retryDelay attempt e)).
Proof.
  intros H. cbn [Install.withRetry_loop]. unfold try_catch at 1. rewrite H.
  unfold retry_events. destruct (attempt <? maxRetries); unfold_M; rewrite <- ?app_assoc;
    reflexivity.
Qed.

Lemma withRetry_loop_return {T} (fn : M T) maxRetries retryDelay remaining attempt lastError
    (w w1 : World) (v : T) :
  fn w = (Normal v, w1) →
  Install.withRetry_loop fmt_seconds fn maxRetries retryDelay (S remaining) attempt lastError w
  = (Normal v, w1).
Proof. intros H. cbn [Install.withRetry_loop]. unfold try_catch at 1. by rewrite H. Qed.

Lemma withRetry_loop_hang {T} (fn : M T) maxRetries retryDelay remaining attempt lastError
    (w w1 : World) :
  fn w = (Hang, w1) →
  Install.withRetry_loop fmt_seconds fn maxRetries retryDelay (S remaining) attempt lastError w
  = (Hang, w1).
Proof. intros H. cbn [Install.withRetry_loop]. unfold try_catch at 1. by rewrite H. Qed.

Lemma count_retry_events p maxRetries retryDelay attempt e :
  (∀ s, p (ConsoleLog s) = false) →
  count p (retry_events fmt_seconds maxRetries retryDelay attempt e)
  = if (attempt <? maxRetries) && p (SetTimeout retryDelay) then 1%nat else 0%nat.
Proof.
  intros Hlog. unfold retry_events, count. destruct (attempt <? maxRetries); cbn [andb].
  - rewrite !filter_cons, filter_nil, !Hlog.
    destruct (p (SetTimeout retryDelay)); repeat case_decide; try discriminate; try done.
  - rewrite !filter_cons, filter_nil, !Hlog. case_decide; [discriminate | reflexivity].
Qed.

Lemma io_retry_events maxRetries retryDelay attempt e :
  filter (λ ev, is_io ev = true) (retry_events fmt_seconds maxRetries retryDelay attempt e)
  = if attempt <? maxRetries then [SetTimeout retryDelay] else [].
Proof. unfold retry_events. by destruct (attempt <? maxRetries). Qed.
End RetryStep.

Lemma io_console (new : list Event) :
  forallb is_console new = true → filter (λ ev, is_io ev = true) new = [].
Proof. apply (filter_none is_console is_io). by intros []. Qed.

Section DownloadMore.
Variable path_join : string → string → string.
Variable fmt_seconds : Z → string.
Variable cfg : Config.
Variable host : Host.

Abbreviation getZipFile := (Install.getZipFile path_join cfg host).
Abbreviation zipFileName := (Install.getZipFileName cfg).
Abbreviation filePath := (path_join (dirname cfg) (Install.getZipFileName cfg)).
Abbreviation downloadUrl := (Install.zipDownloadBaseUrl cfg +:+ "/" +:+ Install.getZipFileName cfg).

Lemma getZipFile_present (w : World) :
  exists_in (fs w) filePath = true →
  getZipFile w
  = (Normal zipFileName,
     mkWorld (fs w) (trace w ++ [ConsoleLog ("正在下载: " +:+ downloadUrl);
                                 ConsoleLog ("文件已存在: " +:+ zipFileName)])).
Proof.
  intros H. unfold Install.getZipFile, existsSync. unfold_M. rewrite H. norm_world. reflexivity.
Qed.

(** X5.  When the archive file is not there and the server answers 200 and
    the body is written to the end, [getZipFile] returns the archive name;
    the file then holds the bytes delivered, exactly one GET was issued, to
    the URL made of the base URL and the archive name, over https exactly
    when that URL starts with "https://", and the last thing the download
    does is its settle delay of 200 milliseconds. *)
Theorem getZipFile_success (w : World) (totalSize size : Z) :
  exists_in (fs w) filePath = false →
  http_oracle host (count is_HttpGet (trace w)) = Response 200 totalSize (BodyFinish size) →
  let r := getZipFile w in
  r.1 = Normal zipFileName
  ∧ fs r.2 !! filePath = Some (RegularFile size)
  ∧ ∃ new, trace r.2 = trace w ++ new
           ∧ filter (λ ev, is_HttpGet ev = true) new
             = [HttpGet (startsWith "https://" downloadUrl) downloadUrl]
           ∧ last new = Some (SetTimeout 200).
Proof.
  intros Hfresh Hans r. subst r. rewrite (getZipFile_request path_join cfg host w Hfresh), Hans.
  cbn [Z.eqb Pos.eqb negb fst snd fs trace]. split; [reflexivity|].
  split; [apply lookup_insert_eq|].
  eexists. split; [reflexivity|]. destruct (0 <? totalSize); split; reflexivity.
Qed.

(** X6.  Whatever the server answers, [getZipFile] leaves every path other
    than that of the archive file as it was. *)
Theorem getZipFile_frame (w : World) (q : string) :
  q ≠ filePath → fs (getZipFile w).2 !! q = fs w !! q.
Proof.
  intros Hne. destruct (exists_in (fs w) filePath) eqn:Hex.
  - by rewrite (getZipFile_present w Hex).
  - rewrite (getZipFile_request path_join cfg host w Hex).
    destruct (http_oracle host _) as [e|statusCode totalSize body| |e|e];
      [|destruct (negb (statusCode =? 200)); [|destruct body]| | |];
      cbn [snd fs]; try destruct (unlink_oracle host _);
      rewrite ?fs_after_unlink_other by exact Hne; rewrite ?lookup_insert_ne by done;
      reflexivity.
Qed.

(** X7.  A download that succeeded is not repeated: called again, with a
    non-empty file path, [getZipFile] returns the name without another
    GET and without touching the file. *)
Theorem getZipFile_idempotent (w : World) (totalSize size : Z) :
  filePath ≠ "" →
  exists_in (fs w) filePath = false →
  http_oracle host (count is_HttpGet (trace w)) = Response 200 totalSize (BodyFinish size) →
  let w1 := (getZipFile w).2 in
  let r := getZipFile w1 in
  r.1 = Normal zipFileName
  ∧ fs r.2 = fs w1
  ∧ count is_HttpGet (trace r.2) = count is_HttpGet (trace w1).
Proof.
  intros Hpath Hfresh Hans w1 r.
  assert (Hfile : fs w1 !! filePath = Some (RegularFile size)).
  { subst w1. rewrite (getZipFile_request path_join cfg host w Hfresh), Hans.
    apply lookup_insert_eq. }
  assert (Hex : exists_in (fs w1) filePath = true).
  { unfold exists_in, truthy. apply String.eqb_neq in Hpath. rewrite Hpath. cbn.
    apply bool_decide_eq_true. rewrite Hfile. by eexists. }
  subst r. rewrite (getZipFile_present w1 Hex). cbn [fst snd fs trace].
  split; [reflexivity|]. split; [reflexivity|]. by rewrite count_app, Nat.add_0_r.
Qed.

Lemma getZipFile_fails (w : World) :
  exists_in (fs w) filePath = false →
  failing_answer (http_oracle host (count is_HttpGet (trace w))) →
  unlink_oracle host (count is_FsUnlink (trace w)) = true →
  ∃ e m new, getZipFile w = (Throw e, mkWorld m (trace w ++ new))
             ∧ m !! filePath = None
             ∧ count is_HttpGet new = 1%nat
             ∧ count is_FsUnlink new = 1%nat
             ∧ filter (λ ev, is_io ev = true) new
               = [HttpGet (startsWith "https://" downloadUrl) downloadUrl].
Proof.
  intros Hfresh Hfail Hdone. rewrite (getZipFile_request path_join cfg host w Hfresh), Hdone.
  destruct (http_oracle host _) as [e|statusCode totalSize body| |e|e];
    cbn [failing_answer] in Hfail; try done.
  - do 3 eexists. split; [reflexivity|]. split; [apply unlink_created|]. by repeat split.
  - destruct (Z.eqb_spec statusCode 200) as [->|Hne]; cbn [negb].
    + destruct Hfail as [|Hbody]; [done|].
      destruct body; try done; do 3 eexists; (split; [reflexivity|]);
        (split; [rewrite insert_insert_eq; apply unlink_created|]); by repeat split.
    + do 3 eexists. split; [reflexivity|]. split; [apply unlink_created|]. by repeat split.
Qed.

Lemma exists_in_absent (m : gmap string FsNode) (p : string) :
  m !! p = None → exists_in m p = false.
Proof.
  intros H. unfold exists_in. rewrite H. apply andb_false_intro2.
  apply bool_decide_eq_false. by intros [? ?].
Qed.

(* The counters after a failed attempt and what [withRetry] logs for it. *)
Lemma counts_after_failure (maxRetries retryDelay attempt : Z) (e : JsError)
    (w : World) (new1 : list Event) :
  count is_HttpGet new1 = 1%nat → count is_FsUnlink new1 = 1%nat →
  let t := (trace w ++ new1) ++ retry_events fmt_seconds maxRetries retryDelay attempt e in
  count is_HttpGet t = S (count is_HttpGet (trace w))
  ∧ count is_FsUnlink t = S (count is_FsUnlink (trace w)).
Proof.
  intros Hget Hunl t. subst t.
  rewrite !count_app, Hget, Hunl, !count_retry_events by done.
  rewrite !andb_false_r. lia.
Qed.

Lemma download_loop_succeeds (maxRetries retryDelay totalSize size : Z) (j : nat) :
  ∀ remaining attempt lastError w,
    exists_in (fs w) filePath = false →
    (∀ i, (i < j)%nat → failing_answer (http_oracle host (count is_HttpGet (trace w) + i)%nat)) →
    (∀ i, (i < j)%nat → unlink_oracle host (count is_FsUnlink (trace w) + i)%nat = true) →
    http_oracle host (count is_HttpGet (trace w) + j)%nat
    = Response 200 totalSize (BodyFinish size) →
    (j < remaining)%nat → attempt + Z.of_nat j ≤ maxRetries →
    let r := Install.withRetry_loop fmt_seconds getZipFile maxRetries retryDelay
               remaining attempt lastError w in
    r.1 = Normal zipFileName
    ∧ fs r.2 !! filePath = Some (RegularFile size)
    ∧ ∃ new, trace r.2 = trace w ++ new
             ∧ filter (λ ev, is_io ev = true) new
               = spaced (HttpGet (startsWith "https://" downloadUrl) downloadUrl)
                        (S j) retryDelay
                 ++ [SetTimeout 200].
Proof.
  induction j as [|j IH]; intros remaining attempt lastError w Hfresh Hfail Hdone Hok Hrem Hatt;
    (destruct remaining as [|remaining]; [lia|]).
  - rewrite Nat.add_0_r in Hok.
    erewrite withRetry_loop_return
      by (rewrite (getZipFile_request path_join cfg host w Hfresh), Hok; reflexivity).
    cbn [fst snd fs trace]. split; [reflexivity|]. split; [apply lookup_insert_eq|].
    eexists. split; [reflexivity|]. destruct (0 <? totalSize); split; reflexivity.
  - pose proof (Hfail 0%nat ltac:(lia)) as Hfirst. rewrite Nat.add_0_r in Hfirst.
    pose proof (Hdone 0%nat ltac:(lia)) as Hdone0. rewrite Nat.add_0_r in Hdone0.
    destruct (getZipFile_fails w Hfresh Hfirst Hdone0)
      as (e & m & new1 & Hrun & Hgone & Hget & Hunl & Htim).
    rewrite (withRetry_loop_throw fmt_seconds _ _ _ _ _ _ _ _ _ Hrun). cbn [fs trace].
    set (w1 := mkWorld _ _).
    destruct (counts_after_failure maxRetries retryDelay attempt e w new1 Hget Hunl)
      as [Hc Hu].
    destruct (IH remaining (attempt + 1) (Some e) w1) as (Hr & Hfile & new & Htr & Hsch).
    + by apply exists_in_absent.
    + intros i Hi. subst w1. cbn [trace]. rewrite Hc.
      replace (S _ + i)%nat with (count is_HttpGet (trace w) + S i)%nat by lia. apply Hfail. lia.
    + intros i Hi. subst w1. cbn [trace]. rewrite Hu.
      replace (S _ + i)%nat with (count is_FsUnlink (trace w) + S i)%nat by lia.
      apply Hdone. lia.
    + subst w1. cbn [trace]. rewrite Hc.
      by replace (S _ + j)%nat with (count is_HttpGet (trace w) + S j)%nat by lia.
    + lia.
    + lia.
    + split; [exact Hr|]. split; [exact Hfile|].
      exists (new1 ++ retry_events fmt_seconds maxRetries retryDelay attempt e ++ new).
      rewrite Htr. subst w1. cbn [trace]. rewrite <- !app_assoc. split; [reflexivity|].
      rewrite !filter_app, Htim, Hsch, (io_retry_events fmt_seconds).
      replace (attempt <? maxRetries) with true by (symmetry; apply Z.ltb_lt; lia).
      reflexivity.
Qed.

Lemma download_loop_exhausts (maxRetries retryDelay : Z) (remaining : nat) :
  ∀ attempt lastError w,
    exists_in (fs w) filePath = false →
    (1 ≤ remaining)%nat → attempt + Z.of_nat remaining - 1 = maxRetries →
    (∀ i, (i < remaining)%nat →
          failing_answer (http_oracle host (count is_HttpGet (trace w) + i)%nat)) →
    (∀ i, (i < remaining)%nat →
          unlink_oracle host (count is_FsUnlink (trace w) + i)%nat = true) →
    let r := Install.withRetry_loop fmt_seconds getZipFile maxRetries retryDelay
               remaining attempt lastError w in
    (∃ e, r.1 = Throw (new_Error (exhausted_message maxRetries e)))
    ∧ fs r.2 !! filePath = None
    ∧ ∃ new, trace r.2 = trace w ++ new
             ∧ filter (λ ev, is_io ev = true) new
               = spaced (HttpGet (startsWith "https://" downloadUrl) downloadUrl)
                        remaining retryDelay.
Proof.
  induction remaining as [|remaining IH];
    intros attempt lastError w Hfresh Hpos Hatt Hfail Hdone; [lia|].
  pose proof (Hfail 0%nat ltac:(lia)) as Hfirst. rewrite Nat.add_0_r in Hfirst.
  pose proof (Hdone 0%nat ltac:(lia)) as Hdone0. rewrite Nat.add_0_r in Hdone0.
  destruct (getZipFile_fails w Hfresh Hfirst Hdone0)
    as (e & m & new1 & Hrun & Hgone & Hget & Hunl & Htim).
  rewrite (withRetry_loop_throw fmt_seconds _ _ _ _ _ _ _ _ _ Hrun). cbn [fs trace].
  set (w1 := mkWorld _ _).
  destruct (counts_after_failure maxRetries retryDelay attempt e w new1 Hget Hunl)
    as [Hc Hu].
  destruct remaining as [|remaining].
  - cbn [Install.withRetry_loop]. split; [by eexists|]. split; [exact Hgone|].
    subst w1. cbn [snd trace]. rewrite <- app_assoc.
    eexists. split; [reflexivity|]. rewrite !filter_app, Htim, (io_retry_events fmt_seconds).
    replace (attempt <? maxRetries) with false by (symmetry; apply Z.ltb_ge; lia).
    reflexivity.
  - destruct (IH (attempt + 1) (Some e) w1) as (Hr & Hfile & new & Htr & Hsch).
    + by apply exists_in_absent.
    + lia.
    + lia.
    + intros i Hi. subst w1. cbn [trace]. rewrite Hc.
      replace (S _ + i)%nat with (count is_HttpGet (trace w) + S i)%nat by lia. apply Hfail. lia.
    + intros i Hi. subst w1. cbn [trace]. rewrite Hu.
      replace (S _ + i)%nat with (count is_FsUnlink (trace w) + S i)%nat by lia.
      apply Hdone. lia.
    + split; [exact Hr|]. split; [exact Hfile|].
      exists (new1 ++ retry_events fmt_seconds maxRetries retryDelay attempt e ++ new).
      rewrite Htr. subst w1. cbn [trace]. rewrite <- !app_assoc. split; [reflexivity|].
      rewrite !filter_app, Htim, Hsch, (io_retry_events fmt_seconds).
      replace (attempt <? maxRetries) with true by (symmetry; apply Z.ltb_lt; lia).
      reflexivity.
Qed.

(** X8.  Retried downloads start afresh when the clean-up has taken
    effect.  Let the archive file not be there, the first [j] answers
    ([j < maxRetries]) make the download fail in a way a handler sees, each
    of the [j] unlinks asked for be carried out before the next attempt
    looks for the file, and the next answer deliver the body.  Then
    [withRetry getZipFile] returns the archive name after [j + 1] GETs of
    the same URL, with [retryDelay] between two consecutive ones and the
    settle delay at the end, and the file holds the bytes of the last
    answer. *)
Theorem download_retried (maxRetries retryDelay totalSize size : Z) (j : nat) (w : World) :
  exists_in (fs w) filePath = false →
  Z.of_nat j < maxRetries →
  (∀ i, (i < j)%nat → failing_answer (http_oracle host (count is_HttpGet (trace w) + i)%nat)) →
  (∀ i, (i < j)%nat → unlink_oracle host (count is_FsUnlink (trace w) + i)%nat = true) →
  http_oracle host (count is_HttpGet (trace w) + j)%nat
  = Response 200 totalSize (BodyFinish size) →
  let r := Install.withRetry fmt_seconds getZipFile maxRetries retryDelay w in
  r.1 = Normal zipFileName
  ∧ fs r.2 !! filePath = Some (RegularFile size)
  ∧ ∃ new, trace r.2 = trace w ++ new
           ∧ filter (λ ev, is_io ev = true) new
             = spaced (HttpGet (startsWith "https://" downloadUrl) downloadUrl)
                      (S j) retryDelay
               ++ [SetTimeout 200].
Proof.
  intros Hfresh Hj Hfail Hdone Hok. unfold Install.withRetry.
  apply (download_loop_succeeds maxRetries retryDelay totalSize size j); try assumption;
    unfold Install.iterations_left; lia.
Qed.

(** X9.  Let the archive file not be there, the first [maxRetries] answers
    all make the download fail in a way a handler sees, and each unlink
    asked for be carried out before the script looks for the file again.
    Then [withRetry getZipFile] rejects with the aggregate error after
    exactly [maxRetries] GETs, with [retryDelay] between two consecutive
    ones and none after the last, and no archive file is left on disk. *)
Theorem download_exhausted (maxRetries retryDelay : Z) (w : World) :
  exists_in (fs w) filePath = false →
  1 ≤ maxRetries →
  (∀ i, (i < Z.to_nat maxRetries)%nat →
        failing_answer (http_oracle host (count is_HttpGet (trace w) + i)%nat)) →
  (∀ i, (i < Z.to_nat maxRetries)%nat →
        unlink_oracle host (count is_FsUnlink (trace w) + i)%nat = true) →
  let r := Install.withRetry fmt_seconds getZipFile maxRetries retryDelay w in
  (∃ e, r.1 = Throw (new_Error (exhausted_message maxRetries e)))
  ∧ fs r.2 !! filePath = None
  ∧ ∃ new, trace r.2 = trace w ++ new
           ∧ filter (λ ev, is_io ev = true) new
             = spaced (HttpGet (startsWith "https://" downloadUrl) downloadUrl)
                      (Z.to_nat maxRetries) retryDelay.
Proof.
  intros Hfresh Hmax Hfail Hdone. unfold Install.withRetry.
  replace (Install.iterations_left maxRetries 1) with (Z.to_nat maxRetries)
    by (unfold Install.iterations_left; lia).
  apply download_loop_exhausts; try assumption; lia.
Qed.
End DownloadMore.

(** ** The archive extractor: the other outcomes *)

Section UnpackMore.
Variable fmt_seconds : Z → string.
Variable cfg : Config.
Variable host : Host.

Abbreviation unpack := (Install.unpack cfg host).
Abbreviation command_line archivePath destination :=
  [ConsoleLog ("执行命令: " +:+ Install._7zaPath cfg +:+ " "
               +:+ join " " ["x"; archivePath; "-y"; "-o" +:+ destination]);
   Spawn (Install._7zaPath cfg) ["x"; archivePath; "-y"; "-o" +:+ destination]].

(** X10.  The archive tool is run as [<tool> x <archive> -y -o<destination>];
    if the child prints output but neither exits nor reports an error, the
    promise of [unpack] never settles: nothing bounds the wait. *)
Theorem unpack_never_settles (archivePath destination : string) (w : World) :
  archivePath ≠ "" → destination ≠ "" →
  only_data (spawn_oracle host (count is_Spawn (trace w))) →
  unpack archivePath destination w
  = (Hang, mkWorld (fs w) (trace w ++ command_line archivePath destination)).
Proof.
  intros Ha Hd Hout. rewrite (unpack_spawns cfg host _ _ w Ha Hd). cbn zeta.
  rewrite <- (app_nil_r (spawn_oracle host _)). rewrite (child_events_data _ _ Hout).
  reflexivity.
Qed.

Lemma child_events_world (events : list ProcEvent) :
  ∀ output settled w,
    ∃ new, (Install.child_events events output settled w).2 = mkWorld (fs w) (trace w ++ new)
           ∧ forallb is_console new = true.
Proof.
  induction events as [|ev events IH]; intros output settled w.
  - exists []. rewrite app_nil_r. by destruct w.
  - destruct ev as [c|c|e|code]; cbn [Install.child_events];
      [apply IH | apply IH | | apply IH].
    unfold_M.
    destruct (IH output (Install.settle settled (Throw e))
                (mkWorld (fs w) (trace w ++ [ConsoleErrorObj "7-zip 错误:" e])))
      as (new & Hw & Hnew).
    exists (ConsoleErrorObj "7-zip 错误:" e :: new). rewrite Hw. norm_world. by split.
Qed.

Lemma unpack_exits (archivePath destination : string) (w : World)
    (out rest : list ProcEvent) (code : option Z) :
  archivePath ≠ "" → destination ≠ "" → only_data out →
  spawn_oracle host (count is_Spawn (trace w)) = out ++ ProcExit code :: rest →
  ∃ new, unpack archivePath destination w
         = (if bool_decide (code = Some 0) then Normal tt
            else Throw (new_Error ("7-zip 退出码 " +:+ Install.show_code code +:+ LF
                                   +:+ captured out)),
            mkWorld (fs w) (trace w ++ command_line archivePath destination ++ new))
         ∧ forallb is_console new = true.
Proof.
  intros Ha Hd Hout Hev. rewrite (unpack_spawns cfg host _ _ w Ha Hd). cbn zeta. rewrite Hev.
  rewrite (child_events_data _ _ Hout). cbn [Install.child_events Install.settle].
  match goal with |- context [Install.child_events rest ?o (Some ?c) ?w0] =>
    pose proof (child_events_settled rest o c w0) as Hval;
    destruct (child_events_world rest o (Some c) w0) as (new & Hw & Hnew);
    destruct (Install.child_events rest o (Some c) w0) as [c' w1]
  end.
  cbn [fst snd] in *. subst c' w1. exists new. split; [|exact Hnew].
  cbn [fs trace]. by rewrite <- app_assoc.
Qed.

Abbreviation tool_spawn archivePath destination :=
  (Spawn (Install._7zaPath cfg) ["x"; archivePath; "-y"; "-o" +:+ destination]).

Lemma unpack_loop_succeeds (archivePath destination : string) (maxRetries retryDelay : Z)
    (j : nat) :
  archivePath ≠ "" → destination ≠ "" →
  ∀ remaining attempt lastError w,
    (∀ i, (i < j)%nat →
          ∃ out code, failing_run (spawn_oracle host (count is_Spawn (trace w) + i)%nat) out code) →
    (∃ out rest, only_data out
                 ∧ spawn_oracle host (count is_Spawn (trace w) + j)%nat
                   = out ++ ProcExit (Some 0) :: rest) →
    (j < remaining)%nat → attempt + Z.of_nat j ≤ maxRetries →
    let r := Install.withRetry_loop fmt_seconds (unpack archivePath destination)
               maxRetries retryDelay remaining attempt lastError w in
    r.1 = Normal tt
    ∧ fs r.2 = fs w
    ∧ ∃ new, trace r.2 = trace w ++ new
             ∧ filter (λ ev, is_io ev = true) new
               = spaced (tool_spawn archivePath destination) (S j) retryDelay.
Proof.
  intros Ha Hd. induction j as [|j IH]; intros remaining attempt lastError w Hfail Hok Hrem Hatt;
    (destruct remaining as [|remaining]; [lia|]).
  - destruct Hok as (out & rest & Hout & Hev). rewrite Nat.add_0_r in Hev.
    destruct (unpack_exits _ _ w out rest (Some 0) Ha Hd Hout Hev) as (new & Hrun & Hnew).
    rewrite bool_decide_eq_true_2 in Hrun by reflexivity.
    rewrite (withRetry_loop_return fmt_seconds _ _ _ _ _ _ _ _ _ Hrun). cbn [fst snd fs trace].
    split; [reflexivity|]. split; [reflexivity|]. eexists. split; [reflexivity|].
    rewrite filter_app, (io_console new Hnew). reflexivity.
  - destruct (Hfail 0%nat ltac:(lia)) as (out & code & Hout & Hcode & rest & Hev).
    rewrite Nat.add_0_r in Hev.
    destruct (unpack_exits _ _ w out rest code Ha Hd Hout Hev) as (new1 & Hrun & Hnew1).
    rewrite bool_decide_eq_false_2 in Hrun by exact Hcode.
    rewrite (withRetry_loop_throw fmt_seconds _ _ _ _ _ _ _ _ _ Hrun). cbn [fs trace].
    set (w1 := mkWorld _ _).
    assert (Hc : count is_Spawn (trace w1) = S (count is_Spawn (trace w))).
    { subst w1. cbn [trace]. rewrite !count_app, count_retry_events by done.
      rewrite andb_false_r.
      rewrite (adds_count is_console is_Spawn new1) by (by intros [] || exact Hnew1).
      change (count is_Spawn (command_line archivePath destination)) with 1%nat. lia. }
    destruct (IH remaining (attempt + 1) (Some (new_Error ("7-zip 退出码 " +:+ Install.show_code code
                 +:+ LF +:+ captured out))) w1) as (Hr & Hfs & new & Htr & Hio).
    + intros i Hi. rewrite Hc.
      replace (S _ + i)%nat with (count is_Spawn (trace w) + S i)%nat by lia. apply Hfail. lia.
    + rewrite Hc. by replace (S _ + j)%nat with (count is_Spawn (trace w) + S j)%nat by lia.
    + lia.
    + lia.
    + split; [exact Hr|]. split; [by rewrite Hfs|].
      eexists. rewrite Htr. subst w1. cbn [trace]. rewrite <- !app_assoc.
      split; [reflexivity|].
      rewrite !filter_app, Hio, (io_console new1 Hnew1), (io_retry_events fmt_seconds).
      replace (attempt <? maxRetries) with true by (symmetry; apply Z.ltb_lt; lia).
      reflexivity.
Qed.

Lemma unpack_loop_exhausts (archivePath destination : string) (maxRetries retryDelay : Z)
    (remaining : nat) :
  archivePath ≠ "" → destination ≠ "" →
  ∀ attempt lastError w (outs : nat → list ProcEvent) (codes : nat → option Z),
    (1 ≤ remaining)%nat → attempt + Z.of_nat remaining - 1 = maxRetries →
    (∀ i, (i < remaining)%nat →
          failing_run (spawn_oracle host (count is_Spawn (trace w) + i)%nat) (outs i) (codes i)) →
    let r := Install.withRetry_loop fmt_seconds (unpack archivePath destination)
               maxRetries retryDelay remaining attempt lastError w in
    r.1 = Throw (new_Error (exhausted_message maxRetries
                   (new_Error ("7-zip 退出码 " +:+ Install.show_code (codes (remaining - 1)%nat)
                               +:+ LF +:+ captured (outs (remaining - 1)%nat)))))
    ∧ fs r.2 = fs w
    ∧ ∃ new, trace r.2 = trace w ++ new
             ∧ filter (λ ev, is_io ev = true) new
               = spaced (tool_spawn archivePath destination) remaining retryDelay.
Proof.
  intros Ha Hd. induction remaining as [|remaining IH];
    intros attempt lastError w outs codes Hpos Hatt Hfail; [lia|].
  destruct (Hfail 0%nat ltac:(lia)) as (Hout & Hcode & rest & Hev).
  rewrite Nat.add_0_r in Hev.
  destruct (unpack_exits _ _ w _ rest _ Ha Hd Hout Hev) as (new1 & Hrun & Hnew1).
  rewrite bool_decide_eq_false_2 in Hrun by exact Hcode.
  rewrite (withRetry_loop_throw fmt_seconds _ _ _ _ _ _ _ _ _ Hrun). cbn [fs trace].
  set (w1 := mkWorld _ _).
  assert (Hc : count is_Spawn (trace w1) = S (count is_Spawn (trace w))).
  { subst w1. cbn [trace]. rewrite !count_app, count_retry_events by done.
    rewrite andb_false_r.
    rewrite (adds_count is_console is_Spawn new1) by (by intros [] || exact Hnew1).
    change (count is_Spawn (command_line archivePath destination)) with 1%nat. lia. }
  destruct remaining as [|remaining].
  - cbn [Install.withRetry_loop]. split; [reflexivity|]. split; [reflexivity|].
    subst w1. cbn [snd trace]. rewrite <- !app_assoc. eexists. split; [reflexivity|].
    rewrite !filter_app, (io_console new1 Hnew1), (io_retry_events fmt_seconds).
    replace (attempt <? maxRetries) with false by (symmetry; apply Z.ltb_ge; lia).
    reflexivity.
  - destruct (IH (attempt + 1) (Some (new_Error ("7-zip 退出码 " +:+ Install.show_code (codes 0%nat)
                 +:+ LF +:+ captured (outs 0%nat)))) w1 (λ i, outs (S i)) (λ i, codes (S i)))
      as (Hr & Hfs & new & Htr & Hio).
    + lia.
    + lia.
    + intros i Hi. rewrite Hc.
      replace (S _ + i)%nat with (count is_Spawn (trace w) + S i)%nat by lia. apply Hfail. lia.
    + split.
      { replace (S (S remaining) - 1)%nat with (S (S remaining - 1)) by lia. exact Hr. }
      split; [by rewrite Hfs|].
      eexists. rewrite Htr. subst w1. cbn [trace]. rewrite <- !app_assoc.
      split; [reflexivity|].
      rewrite !filter_app, Hio, (io_console new1 Hnew1), (io_retry_events fmt_seconds).
      replace (attempt <? maxRetries) with true by (symmetry; apply Z.ltb_lt; lia).
      reflexivity.
Qed.

(** X11.  The extraction is retried as a whole.  With a non-empty archive
    path and destination, if the first [j] children ([j < maxRetries]) exit
    with a code other than 0 and the next one exits with code 0,
    [withRetry] of [unpack] is fulfilled after [j + 1] spawns of the same
    command line, with [retryDelay] between two consecutive spawns. *)
Theorem unpack_retried (archivePath destination : string) (maxRetries retryDelay : Z)
    (j : nat) (w : World) :
  archivePath ≠ "" → destination ≠ "" →
  Z.of_nat j < maxRetries →
  (∀ i, (i < j)%nat →
        ∃ out code, failing_run (spawn_oracle host (count is_Spawn (trace w) + i)%nat) out code) →
  (∃ out rest, only_data out
               ∧ spawn_oracle host (count is_Spawn (trace w) + j)%nat
                 = out ++ ProcExit (Some 0) :: rest) →
  let r := Install.withRetry fmt_seconds (unpack archivePath destination)
             maxRetries retryDelay w in
  r.1 = Normal tt
  ∧ ∃ new, trace r.2 = trace w ++ new
           ∧ filter (λ ev, is_io ev = true) new
             = spaced (tool_spawn archivePath destination) (S j) retryDelay.
Proof.
  intros Ha Hd Hj Hfail Hok r. subst r. unfold Install.withRetry.
  destruct (unpack_loop_succeeds archivePath destination maxRetries retryDelay j Ha Hd
              (Install.iterations_left maxRetries 1) 1 None w Hfail Hok) as (Hr & _ & Hnew).
  - unfold Install.iterations_left. lia.
  - lia.
  - by split.
Qed.

(** X12.  If the first [maxRetries] children all exit with a code other
    than 0, [withRetry] of [unpack] rejects after exactly [maxRetries]
    spawns with the aggregate error, whose message contains the number of
    attempts, the exit code and the captured output of the last child. *)
Theorem unpack_exhausted (archivePath destination : string) (maxRetries retryDelay : Z)
    (w : World) (outs : nat → list ProcEvent) (codes : nat → option Z) :
  archivePath ≠ "" → destination ≠ "" → 1 ≤ maxRetries →
  (∀ i, (i < Z.to_nat maxRetries)%nat →
        failing_run (spawn_oracle host (count is_Spawn (trace w) + i)%nat) (outs i) (codes i)) →
  let r := Install.withRetry fmt_seconds (unpack archivePath destination)
             maxRetries retryDelay w in
  ∃ msg, r.1 = Throw (new_Error msg)
         ∧ includes (pretty maxRetries) msg = true
         ∧ includes (Install.show_code (codes (Z.to_nat maxRetries - 1)%nat)) msg = true
         ∧ includes (captured (outs (Z.to_nat maxRetries - 1)%nat)) msg = true
         ∧ ∃ new, trace r.2 = trace w ++ new
                  ∧ filter (λ ev, is_io ev = true) new
                    = spaced (tool_spawn archivePath destination)
                             (Z.to_nat maxRetries) retryDelay.
Proof.
  intros Ha Hd Hmax Hfail r. subst r. unfold Install.withRetry.
  replace (Install.iterations_left maxRetries 1) with (Z.to_nat maxRetries)
    by (unfold Install.iterations_left; lia).
  destruct (unpack_loop_exhausts archivePath destination maxRetries retryDelay
              (Z.to_nat maxRetries) Ha Hd 1 None w outs codes) as (Hr & _ & Hnew);
    [lia | lia | exact Hfail |].
  eexists. split; [exact Hr|]. split; [apply includes_middle|].
  unfold exhausted_message. cbn [err_message].
  split; [do 3 apply includes_append_r; apply includes_middle|].
  split; [do 5 apply includes_append_r; apply includes_end | exact Hnew].
Qed.
End UnpackMore.

(** ** The install orchestrator: the other paths *)

Section OrchestratorMore.
Variable path_join : string → string → string.
Variable fmt_seconds : Z → string.
Variable fmt_MB : Z → string.
Variable cfg : Config.
Variable host : Host.

Abbreviation srcDir := (Install.srcDir cfg).
Abbreviation destDir := (Install.destDir cfg).
Abbreviation _7zaPath := (Install._7zaPath cfg).
Abbreviation targetPath := (Install.targetPath path_join cfg).
Abbreviation zipFileName := (Install.getZipFileName cfg).
Abbreviation zipFilePath := (path_join (dirname cfg) (Install.getZipFileName cfg)).
Abbreviation downloadUrl := (Install.zipDownloadBaseUrl cfg +:+ "/" +:+ Install.getZipFileName cfg).
Abbreviation main := (Install.main path_join fmt_seconds fmt_MB cfg host).
Abbreviation tool_spawn :=
  (Spawn (Install._7zaPath cfg) ["x"; zipFilePath; "-y"; "-o" +:+ Install.destDir cfg]).




Lemma after_checks_world (w : World) :
  ∃ prep, trace (after_checks cfg w) = trace w ++ prep
          ∧ forallb is_preparation prep = true
          ∧ (∀ q, q ≠ destDir → fs (after_checks cfg w) !! q = fs w !! q).
Proof.
  unfold after_checks. destruct (exists_in (fs w) destDir).
  - exists []. by rewrite app_nil_r.
  - eexists. split; [reflexivity|]. split; [reflexivity|].
    intros q Hq. by apply lookup_insert_ne.
Qed.

Lemma io_preparation (new : list Event) :
  forallb is_preparation new = true → filter (λ ev, is_io ev = true) new = [].
Proof. apply (filter_none is_preparation is_io). by intros [| | | | | | | |[]| | | | | | | |]. Qed.

Lemma count_preparation p (new : list Event) :
  (∀ ev, is_preparation ev = true → p ev = false) →
  forallb is_preparation new = true → count p new = 0%nat.
Proof. apply adds_count. Qed.

Lemma ready_destination (w : World) :
  ready_to_download path_join cfg host w = true →
  destDir ≠ "" ∧ is_Some (fs (after_checks cfg w) !! destDir).
Proof.
  unfold ready_to_download. rewrite !andb_true_iff.
  intros [[[[[_ Hd] _] _] Hdest] _]. split.
  - unfold truthy in Hd. apply negb_true_iff in Hd. by apply String.eqb_neq.
  - unfold after_checks. destruct (exists_in (fs w) destDir) eqn:He.
    + unfold exists_in in He. apply andb_true_iff in He as [_ He].
      by apply bool_decide_eq_true in He.
    + cbn [fs]. rewrite lookup_insert_eq. by eexists.
Qed.

Abbreviation extraction :=
  (try_catch
     (Install.withRetry fmt_seconds (Install.unpack cfg host zipFilePath destDir) 3 2000;;
      console_log ("已解压 " +:+ zipFileName +:+ " 到 " +:+ destDir))
     (λ unpackErr, throw (new_Error ("解压失败: " +:+ err_message unpackErr)))).

(* The pipeline up to the extraction, when the download, the size check and
   the readiness wait go through at once. *)
Lemma pipeline_reaches_extraction (w0 : World) (totalSize size fd : Z)
    (closeErr : option JsError) :
  exists_in (fs w0) zipFilePath = false →
  http_oracle host (count is_HttpGet (trace w0)) = Response 200 totalSize (BodyFinish size) →
  fs_fault host OpStatSync zipFilePath = None →
  1048576 ≤ size →
  open_oracle host (count is_FsOpen (trace w0)) = OpenOk fd closeErr →
  ∃ new,
    Install.downloadAndUnpack path_join fmt_seconds fmt_MB cfg host w0
    = extraction (mkWorld (<[zipFilePath := RegularFile size]>
                             (<[zipFilePath := RegularFile 0]> (fs w0)))
                          (trace w0 ++ new))
    ∧ filter (λ ev, is_io ev = true) new
      = [HttpGet (startsWith "https://" downloadUrl) downloadUrl; SetTimeout 200;
         FsOpen zipFilePath].
Proof.
  intros Hfresh Hans Hstat Hsize Hopen.
  pose proof (getZipFile_request path_join cfg host w0 Hfresh) as Hget.
  rewrite Hans in Hget. cbn [Z.eqb Pos.eqb negb] in Hget.
  unfold Install.downloadAndUnpack.
  unfold mbind at 1, M_bind at 1, bind at 1. unfold try_catch at 1.
  unfold Install.withRetry at 1. change (Install.iterations_left 3 1) with 3%nat.
  rewrite (withRetry_loop_return fmt_seconds _ _ _ _ _ _ _ _ _ Hget).
  set (w1 := mkWorld _ _).
  assert (Hfile1 : fs w1 !! zipFilePath = Some (RegularFile size))
    by (subst w1; apply lookup_insert_eq).
  assert (Hmeasure : statSync host zipFilePath w1
                     = (Normal size, mkWorld (fs w1) (trace w1 ++ [FsCall OpStatSync zipFilePath]))).
  { unfold statSync. unfold_M. rewrite Hstat. cbn [fs]. by rewrite Hfile1. }
  unfold mbind at 1, M_bind at 1, bind at 1.
  rewrite (checkDownloadedFile_measured fmt_MB host zipFilePath size w1 _ Hmeasure).
  replace (size <? 1048576) with false by (symmetry; apply Z.ltb_ge; lia).
  cbn [fs trace]. set (w3 := mkWorld _ _).
  assert (Hopen3 : open_oracle host (count is_FsOpen (trace w3)) = OpenOk fd closeErr).
  { subst w3 w1. cbn [trace]. rewrite !count_app.
    destruct (0 <? totalSize); cbn; rewrite !Nat.add_0_r; exact Hopen. }
  unfold Install.waitAndUnpack. unfold mbind at 1, M_bind at 1, bind at 1.
  unfold try_catch at 1, Install.waitForFileReady.
  rewrite (checkFile_ready_events host _ _ _ _ _ _ _ _ Hopen3).
  subst w3 w1. cbn [fs trace]. rewrite <- !app_assoc.
  eexists. split; [reflexivity|].
  destruct (0 <? totalSize), closeErr; reflexivity.
Qed.

(* The same, for the whole script. *)
Lemma main_reaches_extraction (w : World) (totalSize size fd : Z) (closeErr : option JsError) :
  ready_to_download path_join cfg host w = true →
  zipFilePath ≠ destDir →
  exists_in (fs w) zipFilePath = false →
  http_oracle host (count is_HttpGet (trace w)) = Response 200 totalSize (BodyFinish size) →
  fs_fault host OpStatSync zipFilePath = None →
  1048576 ≤ size →
  open_oracle host (count is_FsOpen (trace w)) = OpenOk fd closeErr →
  ∃ w4 new,
    main w = try_catch (try_catch extraction exit_on_error)
               (λ err, console_error_obj "执行失败:" err) w4
    ∧ fs w4 !! zipFilePath = Some (RegularFile size)
    ∧ is_Some (fs w4 !! destDir)
    ∧ (∀ q, q ≠ zipFilePath → q ≠ destDir → fs w4 !! q = fs w !! q)
    ∧ trace w4 = trace w ++ new
    ∧ filter (λ ev, is_io ev = true) new
      = [HttpGet (startsWith "https://" downloadUrl) downloadUrl; SetTimeout 200;
         FsOpen zipFilePath]
    ∧ count is_Spawn (trace w4) = count is_Spawn (trace w).
Proof.
  intros Hready Hdiff Hfresh Hans Hstat Hsize Hopen.
  rewrite (main_download _ _ _ _ _ w Hready).
  destruct (after_checks_world w) as (prep & Hprep & Hquiet & Hframe).
  destruct (ready_destination w Hready) as [Hdne Hdest].
  set (w0 := after_checks cfg w) in *.
  assert (Hfresh0 : exists_in (fs w0) zipFilePath = false).
  { unfold exists_in in *. by rewrite (Hframe _ Hdiff). }
  assert (Hcount : ∀ p, (∀ ev, is_preparation ev = true → p ev = false) →
                        count p (trace w0) = count p (trace w)).
  { intros p Hp. by rewrite Hprep, count_app, (count_preparation p prep), Nat.add_0_r. }
  assert (Hans0 : http_oracle host (count is_HttpGet (trace w0))
                  = Response 200 totalSize (BodyFinish size)).
  { rewrite Hcount; [exact Hans | by intros [| | | | | | | |[]| | | | | | | |]]. }
  assert (Hopen0 : open_oracle host (count is_FsOpen (trace w0)) = OpenOk fd closeErr).
  { rewrite Hcount; [exact Hopen | by intros [| | | | | | | |[]| | | | | | | |]]. }
  destruct (pipeline_reaches_extraction w0 totalSize size fd closeErr
              Hfresh0 Hans0 Hstat Hsize Hopen0) as (new & Hrun & Hio).
  eexists. exists (prep ++ new). split.
  { unfold try_catch at 1 2. rewrite Hrun. reflexivity. }
  cbn [fs trace]. split; [apply lookup_insert_eq|].
  split; [by rewrite !lookup_insert_ne by (intros Heq; by apply Hdiff)|].
  split; [intros q Hq1 Hq2; rewrite !lookup_insert_ne by done; by apply Hframe|].
  split; [by rewrite Hprep, <- app_assoc|].
  split; [by rewrite filter_app, (io_preparation prep Hquiet), Hio|].
  rewrite count_app, Hcount by (by intros [| | | | | | | |[]| | | | | | | |]).
  assert (Hnone : count is_Spawn new = 0%nat).
  { assert (Hsub : filter (λ ev, is_Spawn ev = true) (filter (λ ev, is_io ev = true) new)
                   = filter (λ ev, is_Spawn ev = true) new).
    { clear. induction new as [|ev new IH]; [reflexivity|].
      rewrite (filter_cons (λ ev, is_io ev = true)). case_decide as Hio.
      - rewrite !filter_cons. case_decide; by rewrite IH.
      - rewrite IH, filter_cons. case_decide as Hs; [|reflexivity].
        destruct ev; try discriminate. by destruct Hio. }
    unfold count. rewrite <- Hsub, Hio. reflexivity. }
  lia.
Qed.

(** X15.  End to end.  Let every check pass, the archive file not be there,
    the server deliver [size >= 1 MiB] bytes, [statSync] not fail, the first
    open of the readiness wait succeed, and the archive tool exit with code
    0 after [j < 3] runs that exit with another code.  Then the install
    script ends normally; what it did, in order, is one GET, the settle
    delay, one open, and [j + 1] spawns of the tool 2000 ms apart; its last
    line is the "extracted" log; the archive holds [size] bytes and the
    destination directory exists. *)
Theorem install_succeeds (w : World) (totalSize size fd : Z) (closeErr : option JsError)
    (j : nat) :
  ready_to_download path_join cfg host w = true →
  zipFilePath ≠ "" → zipFilePath ≠ destDir →
  exists_in (fs w) zipFilePath = false →
  http_oracle host (count is_HttpGet (trace w)) = Response 200 totalSize (BodyFinish size) →
  fs_fault host OpStatSync zipFilePath = None →
  1048576 ≤ size →
  open_oracle host (count is_FsOpen (trace w)) = OpenOk fd closeErr →
  (j < 3)%nat →
  (∀ i, (i < j)%nat →
        ∃ out code, failing_run (spawn_oracle host (count is_Spawn (trace w) + i)%nat) out code) →
  (∃ out rest, only_data out
               ∧ spawn_oracle host (count is_Spawn (trace w) + j)%nat
                 = out ++ ProcExit (Some 0) :: rest) →
  let r := main w in
  r.1 = Normal tt
  ∧ fs r.2 !! zipFilePath = Some (RegularFile size)
  ∧ is_Some (fs r.2 !! destDir)
  ∧ ∃ new, trace r.2 = trace w ++ new
           ∧ filter (λ ev, is_io ev = true) new
             = [HttpGet (startsWith "https://" downloadUrl) downloadUrl; SetTimeout 200;
                FsOpen zipFilePath]
               ++ spaced tool_spawn (S j) 2000
           ∧ last new = Some (ConsoleLog ("已解压 " +:+ zipFileName +:+ " 到 " +:+ destDir)).
Proof.
  intros Hready Hzip Hdiff Hfresh Hans Hstat Hsize Hopen Hj Hfail Hok r. subst r.
  destruct (main_reaches_extraction w totalSize size fd closeErr
              Hready Hdiff Hfresh Hans Hstat Hsize Hopen)
    as (w4 & new4 & Hmain & Hfile & Hdest & _ & Htr4 & Hio4 & Hc4).
  destruct (ready_destination w Hready) as [Hdne _].
  destruct (unpack_loop_succeeds fmt_seconds cfg host zipFilePath destDir 3 2000 j Hzip Hdne
              3%nat 1 None w4) as (Hr & Hfs & new & Htr & Hio);
    [by rewrite Hc4 | by rewrite Hc4 | lia | lia |].
  set (run := Install.withRetry_loop _ _ _ _ _ _ _ w4) in *.
  assert (Hval : main w
                 = (Normal tt,
                    mkWorld (fs run.2)
                      (trace run.2
                       ++ [ConsoleLog ("已解压 " +:+ zipFileName +:+ " 到 " +:+ destDir)]))).
  { rewrite Hmain. unfold try_catch. unfold mbind, M_bind, bind.
    unfold Install.withRetry. change (Install.iterations_left 3 1) with 3%nat. fold run.
    destruct run as [c w5]. cbn [fst] in Hr. subst c. reflexivity. }
  rewrite Hval. cbn [fst snd fs trace].
  rewrite Hfs. split; [reflexivity|]. split; [exact Hfile|]. split; [exact Hdest|].
  rewrite Htr, Htr4, <- !app_assoc. eexists. split; [reflexivity|].
  rewrite !filter_app, Hio4, Hio. split; [by rewrite app_nil_r|].
  by rewrite !app_assoc, last_snoc.
Qed.

(** X16.  Under the same conditions up to the extraction, if the archive
    tool exits with a code other than 0 three times in a row, the install
    script spawns it exactly three times, 2000 ms apart, then logs an error
    whose message contains the exit code and the captured output of the
    last run, and exits with status 1; the downloaded archive is left on
    disk. *)
Theorem install_extraction_fails (w : World) (totalSize size fd : Z)
    (closeErr : option JsError) (outs : nat → list ProcEvent) (codes : nat → option Z) :
  ready_to_download path_join cfg host w = true →
  zipFilePath ≠ "" → zipFilePath ≠ destDir →
  exists_in (fs w) zipFilePath = false →
  http_oracle host (count is_HttpGet (trace w)) = Response 200 totalSize (BodyFinish size) →
  fs_fault host OpStatSync zipFilePath = None →
  1048576 ≤ size →
  open_oracle host (count is_FsOpen (trace w)) = OpenOk fd closeErr →
  (∀ i, (i < 3)%nat →
        failing_run (spawn_oracle host (count is_Spawn (trace w) + i)%nat) (outs i) (codes i)) →
  let r := main w in
  r.1 = ProcessExit 1
  ∧ fs r.2 !! zipFilePath = Some (RegularFile size)
  ∧ ∃ new msg, trace r.2 = trace w ++ new
               ∧ filter (λ ev, is_io ev = true) new
                 = [HttpGet (startsWith "https://" downloadUrl) downloadUrl; SetTimeout 200;
                    FsOpen zipFilePath]
                   ++ spaced tool_spawn 3 2000
               ∧ last new = Some (ConsoleErrorObj "无法读取目录:" (new_Error msg))
               ∧ includes (Install.show_code (codes 2%nat)) msg = true
               ∧ includes (captured (outs 2%nat)) msg = true.
Proof.
  intros Hready Hzip Hdiff Hfresh Hans Hstat Hsize Hopen Hfail r. subst r.
  destruct (main_reaches_extraction w totalSize size fd closeErr
              Hready Hdiff Hfresh Hans Hstat Hsize Hopen)
    as (w4 & new4 & Hmain & Hfile & Hdest & _ & Htr4 & Hio4 & Hc4).
  destruct (ready_destination w Hready) as [Hdne _].
  destruct (unpack_loop_exhausts fmt_seconds cfg host zipFilePath destDir 3 2000 3%nat Hzip Hdne
              1 None w4 outs codes) as (Hr & Hfs & new & Htr & Hio);
    [lia | lia | by rewrite Hc4 |].
  set (run := Install.withRetry_loop _ _ _ _ _ _ _ w4) in *.
  change (3 - 1)%nat with 2%nat in Hr.
  set (inner := new_Error ("7-zip 退出码 " +:+ Install.show_code (codes 2%nat) +:+ LF
                           +:+ captured (outs 2%nat))) in *.
  assert (Hval : main w
                 = (ProcessExit 1,
                    mkWorld (fs run.2)
                      (trace run.2
                       ++ [ConsoleErrorObj "无法读取目录:"
                             (new_Error ("解压失败: " +:+ exhausted_message 3 inner))]))).
  { rewrite Hmain. unfold try_catch, exit_on_error. unfold mbind, M_bind, bind.
    unfold Install.withRetry. change (Install.iterations_left 3 1) with 3%nat. fold run.
    destruct run as [c w5]. cbn [fst] in Hr. subst c. reflexivity. }
  rewrite Hval. cbn [fst snd fs trace].
  rewrite Hfs. split; [reflexivity|]. split; [exact Hfile|].
  rewrite Htr, Htr4, <- !app_assoc. eexists. eexists. split; [reflexivity|].
  rewrite !filter_app, Hio4, Hio. split; [by rewrite app_nil_r|].
  split; [by rewrite !app_assoc, last_snoc|].
  subst inner. unfold exhausted_message. cbn [err_message].
  split; [do 4 apply includes_append_r; apply includes_middle|].
  do 6 apply includes_append_r. apply includes_end.
Qed.

(** X17.  Let every check pass and the archive file not be there.  If the
    first three answers all make the download fail in a way a handler sees,
    and each of the three unlinks asked for is carried out (the last one
    before the process exits), the install script issues exactly three
    GETs, 2000 ms apart, opens and spawns nothing, leaves no archive file,
    logs an error whose message carries the aggregate text of the retry
    executor, and exits with status 1. *)
Theorem install_download_fails (w : World) :
  ready_to_download path_join cfg host w = true →
  zipFilePath ≠ destDir →
  exists_in (fs w) zipFilePath = false →
  (∀ i, (i < 3)%nat →
        failing_answer (http_oracle host (count is_HttpGet (trace w) + i)%nat)) →
  (∀ i, (i < 3)%nat → unlink_oracle host (count is_FsUnlink (trace w) + i)%nat = true) →
  let r := main w in
  r.1 = ProcessExit 1
  ∧ fs r.2 !! zipFilePath = None
  ∧ ∃ new e, trace r.2 = trace w ++ new
             ∧ filter (λ ev, is_io ev = true) new
               = spaced (HttpGet (startsWith "https://" downloadUrl) downloadUrl) 3 2000
             ∧ last new
               = Some (ConsoleErrorObj "无法读取目录:"
                         (new_Error ("无法下载zip文件: " +:+ exhausted_message 3 e))).
Proof.
  intros Hready Hdiff Hfresh Hfail Hdone r. subst r.
  rewrite (main_download _ _ _ _ _ w Hready).
  destruct (after_checks_world w) as (prep & Hprep & Hquiet & Hframe).
  set (w0 := after_checks cfg w) in *.
  assert (Hfresh0 : exists_in (fs w0) zipFilePath = false).
  { unfold exists_in in *. by rewrite (Hframe _ Hdiff). }
  assert (Hcount : count is_HttpGet (trace w0) = count is_HttpGet (trace w)).
  { rewrite Hprep, count_app, (count_preparation is_HttpGet prep), Nat.add_0_r; try done.
    by intros [| | | | | | | |[]| | | | | | | |]. }
  assert (Hunlinks : count is_FsUnlink (trace w0) = count is_FsUnlink (trace w)).
  { rewrite Hprep, count_app, (count_preparation is_FsUnlink prep), Nat.add_0_r; try done.
    by intros [| | | | | | | |[]| | | | | | | |]. }
  destruct (download_loop_exhausts path_join fmt_seconds cfg host 3 2000 3%nat 1 None w0 Hfresh0)
    as ([e Hr] & Hgone & new & Htr & Hio);
    [lia | lia | by rewrite Hcount | by rewrite Hunlinks |].
  set (run := Install.withRetry_loop _ _ _ _ _ _ _ w0) in *.
  assert (Hval : try_catch
                   (try_catch (Install.downloadAndUnpack path_join fmt_seconds fmt_MB cfg host)
                      exit_on_error)
                   (λ err, console_error_obj "执行失败:" err) w0
                 = (ProcessExit 1,
                    mkWorld (fs run.2)
                      (trace run.2
                       ++ [ConsoleErrorObj "无法读取目录:"
                             (new_Error ("无法下载zip文件: " +:+ exhausted_message 3 e))]))).
  { unfold Install.downloadAndUnpack, try_catch, exit_on_error. unfold mbind, M_bind, bind.
    unfold Install.withRetry. change (Install.iterations_left 3 1) with 3%nat. fold run.
    destruct run as [c w1]. cbn [fst] in Hr. subst c. reflexivity. }
  rewrite Hval. cbn [fst snd fs trace]. split; [reflexivity|]. split; [exact Hgone|].
  rewrite Htr, Hprep, <- !app_assoc. eexists. exists e. split; [reflexivity|].
  rewrite !filter_app, (io_preparation prep Hquiet), Hio. split; [by rewrite app_nil_r|].
  by rewrite !app_assoc, last_snoc.
Qed.

(** X18.  An archive file that is already on disk but smaller than 1 MiB is
    never downloaded again: when every check passes, the install script
    takes the file for the download, fails the size check and exits with
    status 1 without a single GET, and the file stays as it is. *)
Theorem install_keeps_truncated_archive (w : World) (n : FsNode) :
  ready_to_download path_join cfg host w = true →
  zipFilePath ≠ "" → zipFilePath ≠ destDir →
  fs w !! zipFilePath = Some n →
  fs_fault host OpStatSync zipFilePath = None →
  node_size n < 1048576 →
  let r := main w in
  r.1 = ProcessExit 1
  ∧ fs r.2 !! zipFilePath = Some n
  ∧ ∃ new, trace r.2 = trace w ++ new
           ∧ filter (λ ev, is_io ev = true) new = []
           ∧ last new = Some (ConsoleErrorObj "无法读取目录:"
                                (new_Error (too_small_message (node_size n)))).
Proof.
  intros Hready Hzip Hdiff Hfile Hstat Hsmall r. subst r.
  rewrite (main_download _ _ _ _ _ w Hready).
  destruct (after_checks_world w) as (prep & Hprep & Hquiet & Hframe).
  set (w0 := after_checks cfg w) in *.
  assert (Hfile0 : fs w0 !! zipFilePath = Some n) by (by rewrite (Hframe _ Hdiff)).
  assert (Hex0 : exists_in (fs w0) zipFilePath = true).
  { unfold exists_in, truthy. apply String.eqb_neq in Hzip. by rewrite Hzip, Hfile0. }
  pose proof (getZipFile_present path_join cfg host w0 Hex0) as Hget.
  set (w1 := mkWorld _ _) in Hget.
  assert (Hmeasure : statSync host zipFilePath w1
                     = (Normal (node_size n),
                        mkWorld (fs w1) (trace w1 ++ [FsCall OpStatSync zipFilePath]))).
  { unfold statSync. unfold_M. rewrite Hstat. subst w1. cbn [fs]. by rewrite Hfile0. }
  assert (Hval : try_catch
                   (try_catch (Install.downloadAndUnpack path_join fmt_seconds fmt_MB cfg host)
                      exit_on_error)
                   (λ err, console_error_obj "执行失败:" err) w0
                 = (ProcessExit 1,
                    mkWorld (fs w1)
                      (trace w1 ++ [FsCall OpStatSync zipFilePath;
                                    ConsoleErrorObj "无法读取目录:"
                                      (new_Error (too_small_message (node_size n)))]))).
  { unfold Install.downloadAndUnpack. unfold try_catch at 1 2 3.
    unfold mbind at 1, M_bind at 1, bind at 1.
    unfold Install.withRetry. change (Install.iterations_left 3 1) with 3%nat.
    rewrite (withRetry_loop_return fmt_seconds _ _ _ _ _ _ _ _ _ Hget).
    unfold mbind at 1, M_bind at 1, bind at 1.
    rewrite (checkDownloadedFile_measured fmt_MB host zipFilePath _ w1 _ Hmeasure).
    replace (node_size n <? 1048576) with true by (symmetry; apply Z.ltb_lt; lia).
    unfold exit_on_error. unfold_M. by rewrite <- app_assoc. }
  rewrite Hval. subst w1. cbn [fst snd fs trace].
  split; [reflexivity|]. split; [exact Hfile0|].
  rewrite Hprep, <- !app_assoc. eexists. split; [reflexivity|].
  rewrite !filter_app, (io_preparation prep Hquiet). split; [reflexivity|].
  by rewrite !last_app.
Qed.

(* The readiness wait when the file stays locked: [j + 1] opens, all
   failing with a retried code. *)
Lemma checkFile_locked (filePath : string) (maxAttempts interval : Z) (j : nat) :
  ∀ attempts w,
    (∀ i, (i < S j)%nat →
          ∃ e, open_oracle host (count is_FsOpen (trace w) + i)%nat = OpenErr e
               ∧ Install.transient e = true) →
    ∃ new, Install.checkFile host filePath maxAttempts interval j attempts w
           = (Throw (new_Error (unavailable_message filePath maxAttempts)),
              mkWorld (fs w) (trace w ++ new))
           ∧ filter (λ ev, is_io ev = true) new = spaced (FsOpen filePath) (S j) interval.
Proof.
  induction j as [|j IH]; intros attempts w Hbusy.
  - destruct (Hbusy 0%nat ltac:(lia)) as (e & Ho & Ht). rewrite Nat.add_0_r in Ho.
    rewrite (checkFile_exhausted host filePath maxAttempts interval attempts w e Ho Ht).
    by eexists.
  - destruct (Hbusy 0%nat ltac:(lia)) as (e & Ho & Ht). rewrite Nat.add_0_r in Ho.
    rewrite (checkFile_retry host filePath maxAttempts interval j attempts w e Ho Ht).
    set (ev := poll_events filePath maxAttempts interval (attempts + 1)).
    destruct (IH (attempts + 1) (mkWorld (fs w) (trace w ++ ev))) as (new & Heq & Hio).
    + intros i Hi. cbn [trace]. rewrite count_app. subst ev.
      rewrite count_poll_events. cbn [is_FsOpen].
      replace (count is_FsOpen (trace w) + (1 + 0 + 0) + i)%nat
        with (count is_FsOpen (trace w) + S i)%nat by lia.
      apply Hbusy. lia.
    + exists (ev ++ new). cbn [fs trace] in Heq. rewrite Heq, app_assoc.
      split; [reflexivity|]. rewrite filter_app, Hio. reflexivity.
Qed.

(* The pipeline up to the readiness wait, when the download and the size
   check go through at once. *)
Lemma pipeline_reaches_wait (w0 : World) (totalSize size : Z) :
  exists_in (fs w0) zipFilePath = false →
  http_oracle host (count is_HttpGet (trace w0)) = Response 200 totalSize (BodyFinish size) →
  fs_fault host OpStatSync zipFilePath = None →
  1048576 ≤ size →
  ∃ new,
    Install.downloadAndUnpack path_join fmt_seconds fmt_MB cfg host w0
    = Install.waitAndUnpack fmt_seconds cfg host zipFileName zipFilePath
        (mkWorld (<[zipFilePath := RegularFile size]>
                    (<[zipFilePath := RegularFile 0]> (fs w0)))
                 (trace w0 ++ new))
    ∧ filter (λ ev, is_io ev = true) new
      = [HttpGet (startsWith "https://" downloadUrl) downloadUrl; SetTimeout 200]
    ∧ count is_FsOpen new = 0%nat.
Proof.
  intros Hfresh Hans Hstat Hsize.
  pose proof (getZipFile_request path_join cfg host w0 Hfresh) as Hget.
  rewrite Hans in Hget. cbn [Z.eqb Pos.eqb negb] in Hget.
  unfold Install.downloadAndUnpack.
  unfold mbind at 1, M_bind at 1, bind at 1. unfold try_catch at 1.
  unfold Install.withRetry at 1. change (Install.iterations_left 3 1) with 3%nat.
  rewrite (withRetry_loop_return fmt_seconds _ _ _ _ _ _ _ _ _ Hget).
  set (w1 := mkWorld _ _).
  assert (Hfile1 : fs w1 !! zipFilePath = Some (RegularFile size))
    by (subst w1; apply lookup_insert_eq).
  assert (Hmeasure : statSync host zipFilePath w1
                     = (Normal size, mkWorld (fs w1) (trace w1 ++ [FsCall OpStatSync zipFilePath]))).
  { unfold statSync. unfold_M. rewrite Hstat. cbn [fs]. by rewrite Hfile1. }
  unfold mbind at 1, M_bind at 1, bind at 1.
  rewrite (checkDownloadedFile_measured fmt_MB host zipFilePath size w1 _ Hmeasure).
  replace (size <? 1048576) with false by (symmetry; apply Z.ltb_ge; lia).
  subst w1. cbn [fs trace]. rewrite <- !app_assoc.
  eexists. split; [reflexivity|].
  destruct (0 <? totalSize); split; reflexivity.
Qed.

(** X27.  The readiness wait gates the extraction.  Let every check pass,
    the archive file not be there, the server deliver [size >= 1 MiB] bytes
    and [statSync] not fail.  If the first 20 opens of the archive all fail
    with a retried code, the install script opens the file exactly 20
    times, 500 ms apart, never spawns the archive tool, logs the "still
    unavailable" error and exits with status 1; the downloaded archive is
    left on disk. *)
Theorem install_wait_fails (w : World) (totalSize size : Z) :
  ready_to_download path_join cfg host w = true →
  zipFilePath ≠ destDir →
  exists_in (fs w) zipFilePath = false →
  http_oracle host (count is_HttpGet (trace w)) = Response 200 totalSize (BodyFinish size) →
  fs_fault host OpStatSync zipFilePath = None →
  1048576 ≤ size →
  (∀ i, (i < 20)%nat →
        ∃ e, open_oracle host (count is_FsOpen (trace w) + i)%nat = OpenErr e
             ∧ retriable_code e) →
  let r := main w in
  r.1 = ProcessExit 1
  ∧ fs r.2 !! zipFilePath = Some (RegularFile size)
  ∧ ∃ new, trace r.2 = trace w ++ new
           ∧ filter (λ ev, is_io ev = true) new
             = [HttpGet (startsWith "https://" downloadUrl) downloadUrl; SetTimeout 200]
               ++ spaced (FsOpen zipFilePath) 20 500
           ∧ last new
             = Some (ConsoleErrorObj "无法读取目录:"
                       (new_Error ("等待文件就绪失败: "
                                   +:+ unavailable_message zipFilePath 20))).
Proof.
  intros Hready Hdiff Hfresh Hans Hstat Hsize Hbusy r. subst r.
  rewrite (main_download _ _ _ _ _ w Hready).
  destruct (after_checks_world w) as (prep & Hprep & Hquiet & Hframe).
  set (w0 := after_checks cfg w) in *.
  assert (Hfresh0 : exists_in (fs w0) zipFilePath = false).
  { unfold exists_in in *. by rewrite (Hframe _ Hdiff). }
  assert (Hcount : ∀ p, (∀ ev, is_preparation ev = true → p ev = false) →
                        count p (trace w0) = count p (trace w)).
  { intros p Hp. by rewrite Hprep, count_app, (count_preparation p prep), Nat.add_0_r. }
  assert (Hans0 : http_oracle host (count is_HttpGet (trace w0))
                  = Response 200 totalSize (BodyFinish size)).
  { rewrite Hcount; [exact Hans | by intros [| | | | | | | |[]| | | | | | | |]]. }
  destruct (pipeline_reaches_wait w0 totalSize size Hfresh0 Hans0 Hstat Hsize)
    as (new & Hrun & Hio & Hopens).
  set (w3 := mkWorld _ _) in Hrun.
  destruct (checkFile_locked zipFilePath 20 500 19 0 w3) as (polls & Hwait & Hpolls).
  { intros i Hi. destruct (Hbusy i Hi) as (e & Ho & Hcode). exists e.
    split; [|by apply transient_retriable].
    subst w3. cbn [trace]. rewrite count_app, Hopens, Nat.add_0_r, Hcount; [exact Ho|].
    by intros [| | | | | | | |[]| | | | | | | |]. }
  assert (Hval : try_catch
                   (try_catch (Install.downloadAndUnpack path_join fmt_seconds fmt_MB cfg host)
                      exit_on_error)
                   (λ err, console_error_obj "执行失败:" err) w0
                 = (ProcessExit 1,
                    mkWorld (fs w3)
                      (trace w3 ++ polls
                       ++ [ConsoleErrorObj "无法读取目录:"
                             (new_Error ("等待文件就绪失败: "
                                         +:+ unavailable_message zipFilePath 20))]))).
  { unfold try_catch at 1 2. rewrite Hrun. unfold Install.waitAndUnpack.
    unfold mbind at 1, M_bind at 1, bind at 1. unfold try_catch at 1.
    unfold Install.waitForFileReady.
    change (Install.polls_left 20 (0 + 1)) with 19%nat. rewrite Hwait.
    unfold exit_on_error. unfold_M. by rewrite <- app_assoc. }
  rewrite Hval. subst w3. cbn [fst snd fs trace].
  split; [reflexivity|]. split; [apply lookup_insert_eq|].
  rewrite Hprep, <- !app_assoc. eexists. split; [reflexivity|].
  rewrite !filter_app, (io_preparation prep Hquiet), Hio, Hpolls.
  split; [by rewrite app_nil_r|]. by rewrite !last_app.
Qed.

(** X28.  Nothing bounds the download.  Let every check pass and the
    archive file not be there.  If the server never answers, or answers 200
    and the body neither finishes nor fails, the install script never
    settles: it issues its one GET, sets no timer and never retries, and
    the file it created for the download stays on disk. *)
Theorem install_download_stalls (w : World) :
  ready_to_download path_join cfg host w = true →
  zipFilePath ≠ destDir →
  exists_in (fs w) zipFilePath = false →
  stalling_answer (http_oracle host (count is_HttpGet (trace w))) →
  let r := main w in
  r.1 = Hang
  ∧ is_Some (fs r.2 !! zipFilePath)
  ∧ ∃ new, trace r.2 = trace w ++ new
           ∧ filter (λ ev, is_io ev = true) new
             = [HttpGet (startsWith "https://" downloadUrl) downloadUrl].
Proof.
  intros Hready Hdiff Hfresh Hstall r. subst r.
  rewrite (main_download _ _ _ _ _ w Hready).
  destruct (after_checks_world w) as (prep & Hprep & Hquiet & Hframe).
  set (w0 := after_checks cfg w) in *.
  assert (Hfresh0 : exists_in (fs w0) zipFilePath = false).
  { unfold exists_in in *. by rewrite (Hframe _ Hdiff). }
  assert (Hcount : count is_HttpGet (trace w0) = count is_HttpGet (trace w)).
  { rewrite Hprep, count_app, (count_preparation is_HttpGet prep), Nat.add_0_r; try done.
    by intros [| | | | | | | |[]| | | | | | | |]. }
  assert (Hget : ∃ m, Install.getZipFile path_join cfg host w0
                      = (Hang,
                         mkWorld m
                           (trace w0
                            ++ [ConsoleLog ("正在下载: " +:+ downloadUrl);
                                CreateWriteStream zipFilePath;
                                HttpGet (startsWith "https://" downloadUrl) downloadUrl]))
                      ∧ is_Some (m !! zipFilePath)).
  { rewrite (getZipFile_request path_join cfg host w0 Hfresh0), Hcount.
    destruct (http_oracle host (count is_HttpGet (trace w)))
      as [e|statusCode totalSize body| |e|e]; cbn in Hstall; try done.
    - destruct body; try done; subst statusCode; cbn [Z.eqb Pos.eqb negb];
        (eexists; split; [reflexivity|]); rewrite lookup_insert_eq; by eexists.
    - eexists. split; [reflexivity|]. rewrite lookup_insert_eq. by eexists. }
  destruct Hget as (m & Hget & Hfile).
  assert (Hval : try_catch
                   (try_catch (Install.downloadAndUnpack path_join fmt_seconds fmt_MB cfg host)
                      exit_on_error)
                   (λ err, console_error_obj "执行失败:" err) w0
                 = (Hang,
                    mkWorld m
                      (trace w0
                       ++ [ConsoleLog ("正在下载: " +:+ downloadUrl);
                           CreateWriteStream zipFilePath;
                           HttpGet (startsWith "https://" downloadUrl) downloadUrl]))).
  { unfold Install.downloadAndUnpack. unfold try_catch at 1 2 3.
    unfold mbind at 1, M_bind at 1, bind at 1.
    unfold Install.withRetry. change (Install.iterations_left 3 1) with 3%nat.
    by rewrite (withRetry_loop_hang fmt_seconds _ _ _ _ _ _ _ _ Hget). }
  rewrite Hval. cbn [fst snd fs trace].
  split; [reflexivity|]. split; [exact Hfile|].
  rewrite Hprep, <- !app_assoc. eexists. split; [reflexivity|].
  by rewrite !filter_app, (io_preparation prep Hquiet).
Qed.

Lemma after_checks_no_error (w : World) (prep : list Event) :
  trace (after_checks cfg w) = trace w ++ prep → count is_error_report prep = 0%nat.
Proof.
  unfold after_checks. destruct (exists_in (fs w) destDir); cbn [trace].
  - rewrite <- (app_nil_r (trace w)) at 1. by intros <-%app_inv_head.
  - by intros <-%app_inv_head.
Qed.

(** X29.  An 'error' of the write stream before the response is taken by
    no one.  Let every check pass and the archive file not be there.  If the
    write stream cannot open its file, the process dies of the unhandled
    'error' event with status 1: after its one GET the script neither
    retries nor writes an error line of its own, and the file is not
    created. *)
Theorem install_stream_open_error (w : World) (e : JsError) :
  ready_to_download path_join cfg host w = true →
  zipFilePath ≠ destDir →
  exists_in (fs w) zipFilePath = false →
  http_oracle host (count is_HttpGet (trace w)) = StreamOpenError e →
  let r := main w in
  r.1 = ProcessExit 1
  ∧ fs r.2 !! zipFilePath = fs w !! zipFilePath
  ∧ ∃ new, trace r.2 = trace w ++ new
           ∧ filter (λ ev, is_io ev = true) new
             = [HttpGet (startsWith "https://" downloadUrl) downloadUrl]
           ∧ count is_error_report new = 0%nat
           ∧ last new = Some (UncaughtError e).
Proof.
  intros Hready Hdiff Hfresh Hans r. subst r.
  rewrite (main_download _ _ _ _ _ w Hready).
  destruct (after_checks_world w) as (prep & Hprep & Hquiet & Hframe).
  set (w0 := after_checks cfg w) in *.
  assert (Hfresh0 : exists_in (fs w0) zipFilePath = false).
  { unfold exists_in in *. by rewrite (Hframe _ Hdiff). }
  assert (Hcount : count is_HttpGet (trace w0) = count is_HttpGet (trace w)).
  { rewrite Hprep, count_app, (count_preparation is_HttpGet prep), Nat.add_0_r; try done.
    by intros [| | | | | | | |[]| | | | | | | |]. }
  pose proof (getZipFile_request path_join cfg host w0 Hfresh0) as Hget.
  rewrite Hcount, Hans in Hget.
  assert (Hval : try_catch
                   (try_catch (Install.downloadAndUnpack path_join fmt_seconds fmt_MB cfg host)
                      exit_on_error)
                   (λ err, console_error_obj "执行失败:" err) w0
                 = (ProcessExit 1,
                    mkWorld (fs w0)
                      (trace w0
                       ++ [ConsoleLog ("正在下载: " +:+ downloadUrl);
                           CreateWriteStream zipFilePath;
                           HttpGet (startsWith "https://" downloadUrl) downloadUrl;
                           UncaughtError e]))).
  { unfold Install.downloadAndUnpack. unfold try_catch at 1 2 3.
    unfold mbind at 1, M_bind at 1, bind at 1.
    unfold Install.withRetry. change (Install.iterations_left 3 1) with 3%nat.
    by rewrite (withRetry_loop_unfold fmt_seconds), Hget. }
  rewrite Hval. cbn [fst snd fs trace].
  split; [reflexivity|]. split; [by apply Hframe|].
  rewrite Hprep, <- !app_assoc. eexists. split; [reflexivity|].
  rewrite !filter_app, (io_preparation prep Hquiet). split; [reflexivity|].
  split; [|by rewrite !last_app].
  by rewrite count_app, (after_checks_no_error w prep Hprep).
Qed.

(** X30.  What a failed attempt leaves behind is taken for the archive.
    Let every check pass and the archive file not be there.  If the first
    attempt rejects and leaves a file (because [httpClient.get] threw, or
    because the unlink asked for is not carried out while the script
    runs), of a size below 1 MiB, and [statSync] does not fail, then the
    second attempt finds the file and returns at once: the install script
    issues one GET only, waits the one retry delay, fails the size check on
    what was left and exits with status 1, the file staying on disk. *)
Theorem install_takes_leftover (w : World) (size : Z) :
  ready_to_download path_join cfg host w = true →
  zipFilePath ≠ "" → zipFilePath ≠ destDir →
  exists_in (fs w) zipFilePath = false →
  leftover_size (http_oracle host (count is_HttpGet (trace w)))
                (unlink_oracle host (count is_FsUnlink (trace w))) = Some size →
  fs_fault host OpStatSync zipFilePath = None →
  size < 1048576 →
  let r := main w in
  r.1 = ProcessExit 1
  ∧ fs r.2 !! zipFilePath = Some (RegularFile size)
  ∧ ∃ new, trace r.2 = trace w ++ new
           ∧ filter (λ ev, is_io ev = true) new
             = [HttpGet (startsWith "https://" downloadUrl) downloadUrl; SetTimeout 2000]
           ∧ last new = Some (ConsoleErrorObj "无法读取目录:"
                                (new_Error (too_small_message size))).
Proof.
  intros Hready Hzip Hdiff Hfresh Hleft Hstat Hsmall r. subst r.
  rewrite (main_download _ _ _ _ _ w Hready).
  destruct (after_checks_world w) as (prep & Hprep & Hquiet & Hframe).
  set (w0 := after_checks cfg w) in *.
  assert (Hfresh0 : exists_in (fs w0) zipFilePath = false).
  { unfold exists_in in *. by rewrite (Hframe _ Hdiff). }
  assert (Hcount : ∀ p, (∀ ev, is_preparation ev = true → p ev = false) →
                        count p (trace w0) = count p (trace w)).
  { intros p Hp. by rewrite Hprep, count_app, (count_preparation p prep), Nat.add_0_r. }
  assert (Hfirst : ∃ e m new1,
             Install.getZipFile path_join cfg host w0 = (Throw e, mkWorld m (trace w0 ++ new1))
             ∧ m !! zipFilePath = Some (RegularFile size)
             ∧ filter (λ ev, is_io ev = true) new1
               = [HttpGet (startsWith "https://" downloadUrl) downloadUrl]).
  { rewrite (getZipFile_request path_join cfg host w0 Hfresh0).
    rewrite !Hcount by (by intros [| | | | | | | |[]| | | | | | | |]).
    destruct (http_oracle host (count is_HttpGet (trace w)))
      as [e|statusCode totalSize body| |e|e]; cbn [leftover_size] in Hleft; try done.
    - destruct (unlink_oracle host _); [done|]. injection Hleft as <-.
      do 3 eexists. split; [reflexivity|]. split; [apply lookup_insert_eq | reflexivity].
    - destruct (negb (statusCode =? 200)).
      + destruct (unlink_oracle host _); [done|]. injection Hleft as <-.
        do 3 eexists. split; [reflexivity|]. split; [apply lookup_insert_eq | reflexivity].
      + destruct body; try done; (destruct (unlink_oracle host _); [done|]);
          injection Hleft as <-; do 3 eexists; (split; [reflexivity|]);
          (split; [apply lookup_insert_eq | reflexivity]).
    - injection Hleft as <-.
      do 3 eexists. split; [reflexivity|]. split; [apply lookup_insert_eq | reflexivity]. }
  destruct Hfirst as (e & m & new1 & Hget & Hfile & Hio1).
  set (w1 := mkWorld m ((trace w0 ++ new1) ++ retry_events fmt_seconds 3 2000 1 e)).
  assert (Hex1 : exists_in (fs w1) zipFilePath = true).
  { unfold exists_in, truthy. apply String.eqb_neq in Hzip. subst w1. cbn [fs].
    by rewrite Hzip, Hfile. }
  pose proof (getZipFile_present path_join cfg host w1 Hex1) as Hget1.
  set (w2 := mkWorld _ _) in Hget1.
  assert (Hmeasure : statSync host zipFilePath w2
                     = (Normal size,
                        mkWorld (fs w2) (trace w2 ++ [FsCall OpStatSync zipFilePath]))).
  { unfold statSync. unfold_M. rewrite Hstat. subst w2 w1. cbn [fs]. by rewrite Hfile. }
  assert (Hval : try_catch
                   (try_catch (Install.downloadAndUnpack path_join fmt_seconds fmt_MB cfg host)
                      exit_on_error)
                   (λ err, console_error_obj "执行失败:" err) w0
                 = (ProcessExit 1,
                    mkWorld (fs w2)
                      (trace w2 ++ [FsCall OpStatSync zipFilePath;
                                    ConsoleErrorObj "无法读取目录:"
                                      (new_Error (too_small_message size))]))).
  { unfold Install.downloadAndUnpack. unfold try_catch at 1 2 3.
    unfold mbind at 1, M_bind at 1, bind at 1.
    unfold Install.withRetry. change (Install.iterations_left 3 1) with 3%nat.
    rewrite (withRetry_loop_unfold fmt_seconds), Hget. cbn [fs trace]. fold w1.
    rewrite (withRetry_loop_unfold fmt_seconds), Hget1.
    unfold mbind at 1, M_bind at 1, bind at 1.
    rewrite (checkDownloadedFile_measured fmt_MB host zipFilePath _ w2 _ Hmeasure).
    replace (size <? 1048576) with true by (symmetry; apply Z.ltb_lt; lia).
    unfold exit_on_error. unfold_M. by rewrite <- app_assoc. }
  rewrite Hval. subst w2 w1. cbn [fst snd fs trace].
  split; [reflexivity|]. split; [exact Hfile|].
  rewrite Hprep, <- !app_assoc. eexists. split; [reflexivity|].
  rewrite !filter_app, (io_preparation prep Hquiet), Hio1, (io_retry_events fmt_seconds).
  split; [reflexivity|]. by rewrite !last_app.
Qed.
End OrchestratorMore.

(** ** The exit status of the install script *)

Section NeverExits.

Lemma never_exits_ret {T} (v : T) : never_exits (mret v).
Proof. by intros w n. Qed.

Lemma never_exits_throw {T} (e : JsError) : never_exits (throw (A:=T) e).
Proof. by intros w n. Qed.

Lemma never_exits_hang {T} : never_exits (Install.hang (A:=T)).
Proof. by intros w n. Qed.

Lemma never_exits_emit (ev : Event) : never_exits (emit ev).
Proof. by intros w n. Qed.

Lemma never_exits_set_fs f : never_exits (set_fs f).
Proof. by intros w n. Qed.

Lemma never_exits_existsSync (path : string) : never_exits (existsSync path).
Proof. by intros w n. Qed.

Lemma never_exits_bind {A B} (c : M A) (k : A → M B) :
  never_exits c → (∀ a, never_exits (k a)) → never_exits (c ≫= k).
Proof.
  intros Hc Hk w n. unfold mbind, M_bind, bind. specialize (Hc w).
  destruct (c w) as [[a|e|m|] w1]; cbn [fst] in *; try done; [apply Hk | by destruct (Hc m)].
Qed.

Lemma never_exits_try_catch {A} (c : M A) (h : JsError → M A) :
  never_exits c → (∀ e, never_exits (h e)) → never_exits (try_catch c h).
Proof.
  intros Hc Hh w n. unfold try_catch. specialize (Hc w).
  destruct (c w) as [[a|e|m|] w1]; cbn [fst] in *; try done. apply Hh.
Qed.
End NeverExits.

Ltac never_exits_leaf :=
  first [ apply never_exits_ret | apply never_exits_throw | apply never_exits_hang
        | apply never_exits_existsSync | apply never_exits_set_fs | apply never_exits_emit ].

Ltac never_exits_step :=
  first [ never_exits_leaf
        | apply never_exits_bind; [|intros ?]
        | apply never_exits_try_catch; [|intros ?]
        | match goal with
          | |- never_exits (if ?b then _ else _) => destruct b
          | |- never_exits (match ?x with _ => _ end) => destruct x
          end ].

Ltac never_exits_auto :=
  unfold console_log, console_warn, console_error, console_error_obj, delay,
    createWriteStream, unlink_ignore, Install.resolve, Install.reject, fs_guard;
  repeat never_exits_step.

Section ExitStatus.
Variable path_join : string → string → string.
Variable fmt_seconds : Z → string.
Variable fmt_MB : Z → string.
Variable cfg : Config.
Variable host : Host.

Lemma never_exits_withRetry_loop {T} (fn : M T) (maxRetries retryDelay : Z)
    (remaining : nat) (attempt : Z) (lastError : option JsError) :
  never_exits fn →
  never_exits (Install.withRetry_loop fmt_seconds fn maxRetries retryDelay remaining
                 attempt lastError).
Proof.
  intros Hfn. revert attempt lastError.
  induction remaining as [|remaining IH]; intros attempt lastError; cbn [Install.withRetry_loop].
  - never_exits_auto.
  - apply never_exits_try_catch; [exact Hfn|]. intros e. never_exits_auto. apply IH.
Qed.

Lemma never_exits_checkFile (filePath : string) (maxAttempts interval : Z)
    (remaining : nat) (attempts : Z) :
  never_exits (Install.checkFile host filePath maxAttempts interval remaining attempts).
Proof.
  revert attempts. induction remaining as [|remaining IH]; intros attempts;
    cbn [Install.checkFile].
  - apply never_exits_bind; [by intros w n|]. intros r. never_exits_auto.
  - apply never_exits_bind; [by intros w n|]. intros r. never_exits_auto. apply IH.
Qed.

Lemma never_exits_child_events (events : list ProcEvent) (output : string)
    (settled : option (Completion unit)) :
  (∀ n, settled ≠ Some (ProcessExit n)) →
  never_exits (Install.child_events events output settled).
Proof.
  revert output settled.
  induction events as [|[chunk|chunk|err|code] rest IH]; intros output settled Hs;
    cbn [Install.child_events].
  - intros w n. cbn [fst]. destruct settled as [c|]; cbn; [|done].
    intros ->. by apply (Hs n).
  - by apply IH.
  - by apply IH.
  - never_exits_auto. apply IH. intros n. destruct settled; cbn; [apply Hs | done].
  - apply IH. intros n. destruct settled; cbn; [apply Hs|]. by case_bool_decide.
Qed.

Lemma never_exits_unpack (archivePath destination : string) :
  never_exits (Install.unpack cfg host archivePath destination).
Proof.
  unfold Install.unpack. never_exits_auto. { by intros w n. }
  apply never_exits_child_events. done.
Qed.

Lemma never_exits_statSync (p : string) : never_exits (statSync host p).
Proof.
  unfold statSync. never_exits_auto. intros w n. by destruct (fs w !! p).
Qed.

Lemma never_exits_mkdirSync (p : string) : never_exits (mkdirSync host p).
Proof.
  unfold mkdirSync. never_exits_auto. intros w n. by destruct (fs w !! p).
Qed.

Lemma exits_uncaught_never {T} (c : M T) : never_exits c → exits_uncaught c.
Proof. intros H w n Heq. by destruct (H w n). Qed.

Lemma exits_uncaught_uncaught {T} (e : JsError) : exits_uncaught (uncaught (A:=T) e).
Proof.
  intros w n. unfold uncaught. unfold_M. intros [= <-]. split; [reflexivity|].
  exists e. apply last_snoc.
Qed.

Lemma exits_uncaught_bind {A B} (c : M A) (k : A → M B) :
  exits_uncaught c → (∀ a, exits_uncaught (k a)) → exits_uncaught (c ≫= k).
Proof.
  intros Hc Hk w n. unfold mbind, M_bind, bind. specialize (Hc w).
  destruct (c w) as [[a|e|m|] w1]; cbn [fst snd] in *; try done; [apply Hk|].
  intros [= <-]. by apply Hc.
Qed.

Lemma exits_uncaught_try_catch {A} (c : M A) (h : JsError → M A) :
  exits_uncaught c → (∀ e, exits_uncaught (h e)) → exits_uncaught (try_catch c h).
Proof.
  intros Hc Hh w n. unfold try_catch. specialize (Hc w).
  destruct (c w) as [[a|e|m|] w1]; cbn [fst snd] in *; try done; [apply Hh|].
  intros [= <-]. by apply Hc.
Qed.

Lemma exits_uncaught_getZipFile : exits_uncaught (Install.getZipFile path_join cfg host).
Proof.
  unfold Install.getZipFile. cbv zeta.
  unfold console_log, delay, createWriteStream, stream_opened.
  repeat first [ apply exits_uncaught_uncaught
               | apply exits_uncaught_never; never_exits_leaf
               | apply exits_uncaught_never; by intros w n
               | apply exits_uncaught_bind; [|intros ?]
               | match goal with
                 | |- exits_uncaught (if ?b then _ else _) => destruct b
                 | |- exits_uncaught (match ?x with _ => _ end) => destruct x
                 end ].
Qed.

Lemma exits_uncaught_withRetry_loop {T} (fn : M T) (maxRetries retryDelay : Z)
    (remaining : nat) (attempt : Z) (lastError : option JsError) :
  exits_uncaught fn →
  exits_uncaught (Install.withRetry_loop fmt_seconds fn maxRetries retryDelay remaining
                    attempt lastError).
Proof.
  intros Hfn. revert attempt lastError.
  induction remaining as [|remaining IH]; intros attempt lastError; cbn [Install.withRetry_loop].
  - apply exits_uncaught_never. never_exits_auto.
  - apply exits_uncaught_try_catch; [exact Hfn|]. intros e.
    apply exits_uncaught_bind; [apply exits_uncaught_never; never_exits_auto|]. intros _.
    apply exits_uncaught_bind; [apply exits_uncaught_never; never_exits_auto|]. intros _.
    apply IH.
Qed.

Lemma exits_uncaught_downloadAndUnpack :
  exits_uncaught (Install.downloadAndUnpack path_join fmt_seconds fmt_MB cfg host).
Proof.
  unfold Install.downloadAndUnpack.
  apply exits_uncaught_bind.
  - apply exits_uncaught_try_catch.
    + apply exits_uncaught_withRetry_loop, exits_uncaught_getZipFile.
    + intros e. apply exits_uncaught_never. never_exits_auto.
  - intros fileName. apply exits_uncaught_never.
    unfold Install.waitAndUnpack, Install.checkDownloadedFile, Install.withRetry,
      Install.waitForFileReady, console_log.
    repeat first [ apply never_exits_withRetry_loop | apply never_exits_unpack
                 | apply never_exits_statSync | apply never_exits_checkFile
                 | never_exits_step ].
Qed.

Lemma exits_uncaught_extractArchives_try :
  exits_uncaught (Install.extractArchives_try path_join fmt_seconds fmt_MB cfg host).
Proof.
  unfold Install.extractArchives_try, console_log, console_error.
  repeat first [ apply exits_uncaught_downloadAndUnpack
               | apply exits_uncaught_never; apply never_exits_mkdirSync
               | apply exits_uncaught_never; never_exits_leaf
               | apply exits_uncaught_bind; [|intros ?]
               | apply exits_uncaught_try_catch; [|intros ?]
               | match goal with
                 | |- exits_uncaught (if ?b then _ else _) => destruct b
                 | |- exits_uncaught (match ?x with _ => _ end) => destruct x
                 end ].
Qed.

(** X19.  The install script never ends in an unhandled rejection: whatever
    the file system and the answers of the outside, it runs to its end
    (status 0), never settles, or ends with status 1, either by
    [process.exit(1)] right after logging the error under the label of
    [extractArchives], or by an 'error' event of the write stream that no
    listener takes, without a line of its own; the [catch] attached to the
    call of [extractArchives] never runs. *)
Theorem install_exit_status (w : World) :
  let r := Install.main path_join fmt_seconds fmt_MB cfg host w in
  r = Install.extractArchives path_join fmt_seconds fmt_MB cfg host w
  ∧ (r.1 = Normal tt
     ∨ r.1 = Hang
     ∨ r.1 = ProcessExit 1
       ∧ ∃ e, last (trace r.2) = Some (ConsoleErrorObj "无法读取目录:" e)
              ∨ last (trace r.2) = Some (UncaughtError e)).
Proof.
  intros r. subst r.
  assert (Hmain : Install.main path_join fmt_seconds fmt_MB cfg host w
                  = Install.extractArchives path_join fmt_seconds fmt_MB cfg host w).
  { unfold Install.main, Install.extractArchives, try_catch.
    destruct (Install.extractArchives_try path_join fmt_seconds fmt_MB cfg host w)
      as [[[]|e|n|] w1]; reflexivity. }
  rewrite Hmain. split; [reflexivity|].
  pose proof (exits_uncaught_extractArchives_try w) as Hexit.
  unfold Install.extractArchives, try_catch.
  destruct (Install.extractArchives_try path_join fmt_seconds fmt_MB cfg host w)
    as [[[]|e|n|] w1]; cbn [fst snd] in Hexit.
  - by left.
  - unfold_M. right. right. split; [reflexivity|]. exists e. left. by rewrite last_snoc.
  - destruct (Hexit n eq_refl) as [-> [e He]]. right. right. split; [reflexivity|].
    exists e. by right.
  - right. by left.
Qed.
End ExitStatus.

(** ** The uninstall script, case by case *)

Ltac run_uninstall :=
  unfold Uninstall.main, Uninstall.uninstall, Uninstall.removeFile, Uninstall.removeDirectory,
    try_catch, unlinkSync, rmSync_force, rmdirSync, fs_guard;
  unfold_M.

Lemma code_is_new_Error (message code : string) : code_is (new_Error message) code = false.
Proof. reflexivity. Qed.

Section UninstallMore.
Variable path_join : string → string → string.
Variable cfg : Config.
Variable host : Host.

Abbreviation main := (Uninstall.main path_join cfg host).
Abbreviation zipFilePath := (Uninstall.zipFilePath path_join cfg).
Abbreviation compilerPath := (Uninstall.compilerPath path_join cfg).
Abbreviation destDir := (Uninstall.destDir cfg).

(** X20.  The uninstall script cannot fail.  Whatever the file system holds,
    whichever deletion calls this Node version has and however they are
    refused, it runs to its end (status 0), writes nothing with
    [console.error], makes one attempt on the archive file and at most one
    on the compiler directory, and ends with the "uninstall finished"
    banner. *)
Theorem uninstall_never_reports_failure (w : World) :
  let r := main w in
  r.1 = Normal tt
  ∧ ∃ new, trace r.2 = trace w ++ new
           ∧ count is_error_report new = 0%nat
           ∧ filter (λ ev, is_FsCall ev = true) new
             = FsCall OpUnlinkSync zipFilePath
               :: filter (λ ev, is_removal ev = true) new
           ∧ (count is_removal new ≤ 1)%nat
           ∧ last new
             = Some (ConsoleLog (LF +:+ "=========================================" +:+ LF
                                 +:+ "卸载完成: " +:+ Uninstall.packageName cfg +:+ LF
                                 +:+ "=========================================")).
Proof.
  intros r. subst r. run_uninstall.
  destruct (fs_fault host OpUnlinkSync zipFilePath) as [e|];
    [destruct (code_is e "ENOENT")
    |cbn [fs]; destruct (fs w !! zipFilePath) as [n|];
       [destruct (node_is_dir n); rewrite ?code_is_EISDIR | rewrite ?code_is_ENOENT]];
    cbn [fs trace fst snd];
    (destruct (truthy destDir); cbn [negb fs trace fst snd];
     [destruct (has_rmSync host);
        [destruct (fs_fault host OpRmSync compilerPath) as [e'|];
           [destruct (code_is e' "ENOENT")|]
        |destruct (has_rmdirSync host);
           [destruct (fs_fault host OpRmdirSync compilerPath) as [e'|];
              [destruct (code_is e' "ENOENT")
              |cbn [fs]; destruct (_ !! compilerPath); rewrite ?code_is_ENOENT]
           |rewrite code_is_new_Error]]
     |]);
    cbn [fs trace fst snd]; (split; [reflexivity|]); rewrite <- ?app_assoc; cbn [app];
    (eexists; split; [reflexivity|]); repeat split; try reflexivity; vm_compute; lia.
Qed.

(** X21.  What a clean uninstall leaves.  If the deletion calls are not
    refused, the archive path is not a directory and this Node version has
    [fs.rmSync], then after the uninstall script the archive file is gone,
    the compiler directory is gone when the destination root is set, and
    no warning was written. *)
Theorem uninstall_clean (w : World) :
  fs_fault host OpUnlinkSync zipFilePath = None →
  (∀ n, fs w !! zipFilePath = Some n → node_is_dir n = false) →
  has_rmSync host = true →
  fs_fault host OpRmSync compilerPath = None →
  let r := main w in
  fs r.2 !! zipFilePath = None
  ∧ (destDir ≠ "" → fs r.2 !! compilerPath = None)
  ∧ ∃ new, trace r.2 = trace w ++ new ∧ count is_warning new = 0%nat.
Proof.
  intros Hunlink Hfile Hrm Hfault r. subst r. run_uninstall. rewrite Hunlink. cbn [fs].
  destruct (fs w !! zipFilePath) as [n|] eqn:Hzip;
    [rewrite (Hfile n eq_refl) | rewrite code_is_ENOENT]; cbn [fs trace fst snd];
    (destruct (truthy destDir) eqn:Hd; cbn [negb fs trace fst snd];
     [rewrite Hrm, Hfault; cbn [fs trace fst snd] |]);
    rewrite <- ?app_assoc; cbn [app].
  - split; [apply lookup_delete_None; right; apply lookup_delete_eq|].
    split; [intros _; apply lookup_delete_eq|]. by eexists.
  - split; [apply lookup_delete_eq|]. split; [|by eexists].
    intros Hne. apply String.eqb_neq in Hne. unfold truthy in Hd. by rewrite Hne in Hd.
  - split; [apply lookup_delete_None; by right|].
    split; [intros _; apply lookup_delete_eq|]. by eexists.
  - split; [exact Hzip|]. split; [|by eexists].
    intros Hne. apply String.eqb_neq in Hne. unfold truthy in Hd. by rewrite Hne in Hd.
Qed.

(** X22.  Without a destination root, or on a Node version that has neither
    [fs.rmSync] nor [fs.rmdirSync], the uninstall script makes no call that
    deletes a directory, and no path other than that of the archive file
    changes. *)
Theorem uninstall_without_directory_removal (w : World) :
  destDir = "" ∨ (has_rmSync host = false ∧ has_rmdirSync host = false) →
  let r := main w in
  (∀ q, q ≠ zipFilePath → fs r.2 !! q = fs w !! q)
  ∧ ∃ new, trace r.2 = trace w ++ new ∧ count is_removal new = 0%nat.
Proof.
  intros Hcase r. subst r.
  assert (Hskip : truthy destDir = false
                  ∨ has_rmSync host = false ∧ has_rmdirSync host = false).
  { destruct Hcase as [->|H]; [by left | by right]. }
  clear Hcase. run_uninstall.
  destruct (fs_fault host OpUnlinkSync zipFilePath) as [e|];
    [destruct (code_is e "ENOENT")
    |cbn [fs]; destruct (fs w !! zipFilePath) as [n|];
       [destruct (node_is_dir n); rewrite ?code_is_EISDIR | rewrite ?code_is_ENOENT]];
    cbn [fs trace fst snd];
    (destruct Hskip as [-> | [-> ->]];
     [|destruct (truthy destDir); rewrite ?code_is_new_Error]);
    cbn [negb fs trace fst snd]; rewrite <- ?app_assoc; cbn [app];
    (split; [intros q Hq; rewrite ?lookup_delete_ne by done; reflexivity|]);
    by eexists.
Qed.

End UninstallMore.

(** ** The two scripts together *)

Lemma replace_unfold (pat rep s : string) :
  replace pat rep s
  = if String.prefix pat s then rep +:+ drop_str (String.length pat) s
    else match s with
         | EmptyString => EmptyString
         | String c s' => String c (replace pat rep s')
         end.
Proof. by destruct s. Qed.

Lemma drop_str_append (p s : string) : drop_str (String.length p) (p +:+ s) = s.
Proof. induction p as [|c p IH]; [reflexivity | exact IH]. Qed.

Lemma replace_leading (pat s : string) : replace pat "" (pat +:+ s) = s.
Proof. by rewrite replace_unfold, prefix_append, drop_str_append. Qed.

Section Together.
Variable path_join : string → string → string.
Variable cfg : Config.
Variable host : Host.

(** X24.  For a package named [@aily-project/compiler-<name>], both scripts
    drop the scope: the archive is [<name>@<version>.7z] in the directory
    of the script for the one and the other, and the uninstall script looks
    for the directory [<name>@<version>]. *)
Theorem scoped_package_names (name : string) :
  package_name cfg = "@aily-project/compiler-" +:+ name →
  Install.getZipFileName cfg = name +:+ "@" +:+ package_version cfg +:+ ".7z"
  ∧ Uninstall.zipFilePath path_join cfg
    = path_join (dirname cfg) (name +:+ "@" +:+ package_version cfg +:+ ".7z")
  ∧ Uninstall.compilerDirName cfg = name +:+ "@" +:+ package_version cfg.
Proof.
  intros Hname.
  unfold Install.getZipFileName, Uninstall.zipFilePath, Uninstall.zipFileName,
    Uninstall.compilerDirName, Uninstall.packageName, Uninstall.packageVersion,
    Uninstall.prefix, Uninstall.srcDir.
  cbv zeta. by rewrite Hname, replace_leading.
Qed.

(** X25.  What the install script downloads, the uninstall script removes.
    If the archive file was not there, the download succeeds and
    [unlinkSync] is not refused, then [removeFile] on the archive path of
    the uninstall script, after [getZipFile] of the install script, brings
    the file system back to what it was. *)
Theorem download_then_removeFile (w : World) (totalSize size : Z) :
  fs w !! Uninstall.zipFilePath path_join cfg = None →
  http_oracle host (count is_HttpGet (trace w)) = Response 200 totalSize (BodyFinish size) →
  fs_fault host OpUnlinkSync (Uninstall.zipFilePath path_join cfg) = None →
  let w1 := (Install.getZipFile path_join cfg host w).2 in
  let r := Uninstall.removeFile host (Uninstall.zipFilePath path_join cfg) w1 in
  fs w1 !! Uninstall.zipFilePath path_join cfg = Some (RegularFile size)
  ∧ r.1 = Normal tt
  ∧ fs r.2 = fs w.
Proof.
  intros Habsent Hans Hunlink w1 r. subst r w1.
  change (Uninstall.zipFilePath path_join cfg)
    with (path_join (dirname cfg) (Install.getZipFileName cfg)) in *.
  assert (Hfresh : exists_in (fs w) (path_join (dirname cfg) (Install.getZipFileName cfg))
                   = false).
  { unfold exists_in. rewrite Habsent. apply andb_false_r. }
  rewrite (getZipFile_request path_join cfg host w Hfresh), Hans.
  cbn [Z.eqb Pos.eqb negb fst snd fs trace].
  unfold Uninstall.removeFile, try_catch, unlinkSync, fs_guard. unfold_M.
  rewrite Hunlink. cbn [fs]. rewrite lookup_insert_eq. cbn [RegularFile node_is_dir fst snd fs].
  split; [reflexivity|]. split; [reflexivity|].
  by rewrite delete_insert_eq, delete_insert_id.
Qed.
End Together.

(** ** Concrete runs of the further properties *)

Lemma withRetry_bounded_witness :
  adds not_call_or_timer (throw (A:=Z) (new_Error "boom"))
  ∧ ∃ calls, (calls ≤ Z.to_nat 3)%nat
             ∧ retried sample_world
                 (Install.withRetry sample_seconds (counted (throw (A:=Z) (new_Error "boom")))
                    3 1000 sample_world)
                 calls 1000.
Proof.
  assert (H : adds not_call_or_timer (throw (A:=Z) (new_Error "boom"))) by apply adds_throw.
  split; [exact H|]. apply (withRetry_bounded sample_seconds _ 3 1000 sample_world H).
Defined.

Lemma withRetry_rejects_with_aggregate_witness :
  1 ≤ 2
  ∧ let r := Install.withRetry sample_seconds (throw (A:=Z) (new_Error "boom")) 2 1000
               sample_world in
    r.1 = Throw (new_Error "经过 2 次尝试后操作仍然失败: boom")
    ∧ err_code (new_Error "经过 2 次尝试后操作仍然失败: boom") = None
    ∧ ∃ w1 w2 e',
        throw (A:=Z) (new_Error "boom") w1 = (Throw e', w2)
        ∧ r.2 = mkWorld (fs w2)
                  (trace w2 ++ [ConsoleLog ("操作失败 (尝试 " +:+ pretty 2 +:+ "/"
                                            +:+ pretty 2 +:+ "): " +:+ err_message e')])
        ∧ new_Error "经过 2 次尝试后操作仍然失败: boom"
          = new_Error ("经过 " +:+ pretty 2 +:+ " 次尝试后操作仍然失败: " +:+ err_message e').
Proof.
  assert (Hrun : (Install.withRetry sample_seconds (throw (A:=Z) (new_Error "boom")) 2 1000
                    sample_world).1
                 = Throw (new_Error "经过 2 次尝试后操作仍然失败: boom")) by reflexivity.
  split; [lia|]. split; [exact Hrun|].
  apply (withRetry_rejects_with_aggregate sample_seconds _ 2 1000 sample_world _ ltac:(lia) Hrun).
Defined.

Lemma waitForFileReady_single_poll_witness :
  1 ≤ 1
  ∧ open_oracle locked_host (count is_FsOpen (trace sample_world)) = OpenErr EBUSY_error
  ∧ retriable_code EBUSY_error
  ∧ Install.waitForFileReady locked_host sample_archive 1 500 sample_world
    = (Throw (new_Error ("文件在 " +:+ pretty 1 +:+ " 次尝试后仍不可用: " +:+ sample_archive)),
       mkWorld (fs sample_world)
         (trace sample_world
          ++ [FsOpen sample_archive;
              PromiseReject (new_Error ("文件在 " +:+ pretty 1 +:+ " 次尝试后仍不可用: "
                                        +:+ sample_archive))])).
Proof.
  assert (Hcode : retriable_code EBUSY_error) by (by left).
  split; [lia|]. split; [reflexivity|]. split; [exact Hcode|].
  apply (waitForFileReady_single_poll locked_host sample_archive 1 500 sample_world EBUSY_error
           ltac:(lia) eq_refl Hcode).
Defined.

Lemma getZipFile_success_witness :
  exists_in (fs sample_world) sample_archive = false
  ∧ http_oracle quiet_host (count is_HttpGet (trace sample_world))
    = Response 200 0 (BodyFinish 2097152)
  ∧ let r := Install.getZipFile sample_join sample_cfg quiet_host sample_world in
    r.1 = Normal "esp-x32@1.0.0.7z"
    ∧ fs r.2 !! sample_archive = Some (RegularFile 2097152)
    ∧ ∃ new, trace r.2 = trace sample_world ++ new
             ∧ filter (λ ev, is_HttpGet ev = true) new = [sample_get]
             ∧ last new = Some (SetTimeout 200).
Proof.
  split; [reflexivity|]. split; [reflexivity|].
  apply (getZipFile_success sample_join sample_cfg quiet_host sample_world 0 2097152
           eq_refl eq_refl).
Defined.

Lemma getZipFile_frame_witness :
  "/bin/7za" ≠ sample_archive
  ∧ fs (Install.getZipFile sample_join sample_cfg missing_host sample_world).2 !! "/bin/7za"
    = fs sample_world !! "/bin/7za".
Proof.
  assert (Hne : "/bin/7za" ≠ sample_archive) by discriminate.
  split; [exact Hne|].
  apply (getZipFile_frame sample_join sample_cfg missing_host sample_world "/bin/7za" Hne).
Defined.

Lemma getZipFile_idempotent_witness :
  sample_archive ≠ ""
  ∧ exists_in (fs sample_world) sample_archive = false
  ∧ http_oracle quiet_host (count is_HttpGet (trace sample_world))
    = Response 200 0 (BodyFinish 2097152)
  ∧ let w1 := (Install.getZipFile sample_join sample_cfg quiet_host sample_world).2 in
    let r := Install.getZipFile sample_join sample_cfg quiet_host w1 in
    r.1 = Normal "esp-x32@1.0.0.7z"
    ∧ fs r.2 = fs w1
    ∧ count is_HttpGet (trace r.2) = count is_HttpGet (trace w1).
Proof.
  assert (Hne : sample_archive ≠ "") by discriminate.
  split; [exact Hne|]. split; [reflexivity|]. split; [reflexivity|].
  apply (getZipFile_idempotent sample_join sample_cfg quiet_host sample_world 0 2097152
           Hne eq_refl eq_refl).
Defined.

Lemma download_retried_witness :
  exists_in (fs sample_world) sample_archive = false
  ∧ Z.of_nat 1 < 3
  ∧ failing_answer (http_oracle flaky_server_host 0)
  ∧ unlink_oracle flaky_server_host 0 = true
  ∧ http_oracle flaky_server_host 1 = Response 200 0 (BodyFinish 2097152)
  ∧ let r := Install.withRetry sample_seconds
               (Install.getZipFile sample_join sample_cfg flaky_server_host) 3 2000
               sample_world in
    r.1 = Normal "esp-x32@1.0.0.7z"
    ∧ fs r.2 !! sample_archive = Some (RegularFile 2097152)
    ∧ ∃ new, trace r.2 = trace sample_world ++ new
             ∧ filter (λ ev, is_io ev = true) new
               = spaced sample_get 2 2000 ++ [SetTimeout 200].
Proof.
  assert (Hfail : failing_answer (http_oracle flaky_server_host 0)) by (left; discriminate).
  split; [reflexivity|]. split; [lia|]. split; [exact Hfail|]. do 2 (split; [reflexivity|]).
  apply (download_retried sample_join sample_seconds sample_cfg flaky_server_host 3 2000
           0 2097152 1 sample_world eq_refl ltac:(lia)); [|reflexivity|reflexivity].
  intros [|i] Hi; [exact Hfail | lia].
Defined.

Lemma download_exhausted_witness :
  exists_in (fs sample_world) sample_archive = false
  ∧ 1 ≤ 3
  ∧ (∀ i, failing_answer (http_oracle missing_host i))
  ∧ (∀ i, unlink_oracle missing_host i = true)
  ∧ let r := Install.withRetry sample_seconds
               (Install.getZipFile sample_join sample_cfg missing_host) 3 2000
               sample_world in
    (∃ e, r.1 = Throw (new_Error (exhausted_message 3 e)))
    ∧ fs r.2 !! sample_archive = None
    ∧ ∃ new, trace r.2 = trace sample_world ++ new
             ∧ filter (λ ev, is_io ev = true) new = spaced sample_get (Z.to_nat 3) 2000.
Proof.
  assert (Hfail : ∀ i, failing_answer (http_oracle missing_host i))
    by (intros i; left; discriminate).
  split; [reflexivity|]. split; [lia|]. split; [exact Hfail|]. split; [reflexivity|].
  apply (download_exhausted sample_join sample_seconds sample_cfg missing_host 3 2000
           sample_world eq_refl ltac:(lia)); [|reflexivity].
  intros i _. apply Hfail.
Defined.

Lemma unpack_never_settles_witness :
  sample_archive ≠ "" ∧ "/opt/compilers" ≠ ""
  ∧ only_data (spawn_oracle stuck_tool_host (count is_Spawn (trace sample_world)))
  ∧ Install.unpack sample_cfg stuck_tool_host sample_archive "/opt/compilers" sample_world
    = (Hang,
       mkWorld (fs sample_world)
         (trace sample_world
          ++ [ConsoleLog ("执行命令: /bin/7za x " +:+ sample_archive +:+ " -y -o/opt/compilers");
              sample_spawn])).
Proof.
  assert (Ha : sample_archive ≠ "") by discriminate.
  assert (Hd : "/opt/compilers" ≠ "") by discriminate.
  assert (Hout : only_data (spawn_oracle stuck_tool_host (count is_Spawn (trace sample_world))))
    by (repeat constructor).
  split; [exact Ha|]. split; [exact Hd|]. split; [exact Hout|].
  apply (unpack_never_settles sample_cfg stuck_tool_host sample_archive "/opt/compilers"
           sample_world Ha Hd Hout).
Defined.

Lemma unpack_retried_witness :
  sample_archive ≠ "" ∧ "/opt/compilers" ≠ ""
  ∧ Z.of_nat 1 < 3
  ∧ failing_run (spawn_oracle flaky_tool_host 0) [StderrData "ERROR: cannot open"] (Some 2)
  ∧ spawn_oracle flaky_tool_host 1 = [StdoutData "Everything is Ok"] ++ ProcExit (Some 0) :: []
  ∧ let r := Install.withRetry sample_seconds
               (Install.unpack sample_cfg flaky_tool_host sample_archive "/opt/compilers")
               3 2000 sample_world in
    r.1 = Normal tt
    ∧ ∃ new, trace r.2 = trace sample_world ++ new
             ∧ filter (λ ev, is_io ev = true) new = spaced sample_spawn 2 2000.
Proof.
  assert (Ha : sample_archive ≠ "") by discriminate.
  assert (Hd : "/opt/compilers" ≠ "") by discriminate.
  assert (Hfail : failing_run (spawn_oracle flaky_tool_host 0)
                    [StderrData "ERROR: cannot open"] (Some 2)).
  { split; [repeat constructor|]. split; [discriminate|]. by exists []. }
  split; [exact Ha|]. split; [exact Hd|]. split; [lia|]. split; [exact Hfail|].
  split; [reflexivity|].
  apply (unpack_retried sample_seconds sample_cfg flaky_tool_host sample_archive
           "/opt/compilers" 3 2000 1 sample_world Ha Hd ltac:(lia)).
  - intros [|i] Hi; [by do 2 eexists | lia].
  - exists [StdoutData "Everything is Ok"], []. split; [repeat constructor | reflexivity].
Defined.

Lemma unpack_exhausted_witness :
  sample_archive ≠ "" ∧ "/opt/compilers" ≠ ""
  ∧ 1 ≤ 3
  ∧ (∀ i, failing_run (spawn_oracle failing_tool_host i)
            [StdoutData "7-Zip "; StderrData "ERROR: bad archive"] (Some 2))
  ∧ let r := Install.withRetry sample_seconds
               (Install.unpack sample_cfg failing_tool_host sample_archive "/opt/compilers")
               3 2000 sample_world in
    ∃ msg, r.1 = Throw (new_Error msg)
           ∧ includes (pretty 3) msg = true
           ∧ includes (Install.show_code (Some 2)) msg = true
           ∧ includes (captured [StdoutData "7-Zip "; StderrData "ERROR: bad archive"]) msg = true
           ∧ ∃ new, trace r.2 = trace sample_world ++ new
                    ∧ filter (λ ev, is_io ev = true) new
                      = spaced sample_spawn (Z.to_nat 3) 2000.
Proof.
  assert (Ha : sample_archive ≠ "") by discriminate.
  assert (Hd : "/opt/compilers" ≠ "") by discriminate.
  assert (Hfail : ∀ i, failing_run (spawn_oracle failing_tool_host i)
                         [StdoutData "7-Zip "; StderrData "ERROR: bad archive"] (Some 2)).
  { intros i. split; [repeat constructor|]. split; [discriminate|]. by exists []. }
  split; [exact Ha|]. split; [exact Hd|]. split; [lia|]. split; [exact Hfail|].
  apply (unpack_exhausted sample_seconds sample_cfg failing_tool_host sample_archive
           "/opt/compilers" 3 2000 sample_world
           (λ _, [StdoutData "7-Zip "; StderrData "ERROR: bad archive"]) (λ _, Some 2)
           Ha Hd ltac:(lia)).
  intros i _. apply Hfail.
Defined.



Lemma install_succeeds_witness :
  ready_to_download sample_join sample_cfg flaky_tool_host sample_world = true
  ∧ sample_archive ≠ "" ∧ sample_archive ≠ "/opt/compilers"
  ∧ exists_in (fs sample_world) sample_archive = false
  ∧ http_oracle flaky_tool_host 0 = Response 200 0 (BodyFinish 2097152)
  ∧ fs_fault flaky_tool_host OpStatSync sample_archive = None
  ∧ 1048576 ≤ 2097152
  ∧ open_oracle flaky_tool_host 0 = OpenOk 3 None
  ∧ (1 < 3)%nat
  ∧ failing_run (spawn_oracle flaky_tool_host 0) [StderrData "ERROR: cannot open"] (Some 2)
  ∧ spawn_oracle flaky_tool_host 1 = [StdoutData "Everything is Ok"] ++ ProcExit (Some 0) :: []
  ∧ let r := Install.main sample_join sample_seconds sample_MB sample_cfg flaky_tool_host
               sample_world in
    r.1 = Normal tt
    ∧ fs r.2 !! sample_archive = Some (RegularFile 2097152)
    ∧ is_Some (fs r.2 !! "/opt/compilers")
    ∧ ∃ new, trace r.2 = trace sample_world ++ new
             ∧ filter (λ ev, is_io ev = true) new
               = [sample_get; SetTimeout 200; FsOpen sample_archive]
                 ++ spaced sample_spawn 2 2000
             ∧ last new = Some (ConsoleLog "已解压 esp-x32@1.0.0.7z 到 /opt/compilers").
Proof.
  assert (Hz : sample_archive ≠ "") by discriminate.
  assert (Hzd : sample_archive ≠ "/opt/compilers") by discriminate.
  assert (Hfail : failing_run (spawn_oracle flaky_tool_host 0)
                    [StderrData "ERROR: cannot open"] (Some 2)).
  { split; [repeat constructor|]. split; [discriminate|]. by exists []. }
  split; [reflexivity|]. split; [exact Hz|]. split; [exact Hzd|].
  do 3 (split; [reflexivity|]). split; [lia|]. split; [reflexivity|]. split; [lia|].
  split; [exact Hfail|]. split; [reflexivity|].
  apply (install_succeeds sample_join sample_seconds sample_MB sample_cfg flaky_tool_host
           sample_world 0 2097152 3 None 1 eq_refl Hz Hzd eq_refl eq_refl eq_refl
           ltac:(lia) eq_refl ltac:(lia)).
  - intros [|i] Hi; [by do 2 eexists | lia].
  - exists [StdoutData "Everything is Ok"], []. split; [repeat constructor | reflexivity].
Defined.

Lemma install_extraction_fails_witness :
  ready_to_download sample_join sample_cfg failing_tool_host sample_world = true
  ∧ sample_archive ≠ "" ∧ sample_archive ≠ "/opt/compilers"
  ∧ exists_in (fs sample_world) sample_archive = false
  ∧ http_oracle failing_tool_host 0 = Response 200 0 (BodyFinish 2097152)
  ∧ fs_fault failing_tool_host OpStatSync sample_archive = None
  ∧ 1048576 ≤ 2097152
  ∧ open_oracle failing_tool_host 0 = OpenOk 3 None
  ∧ (∀ i, failing_run (spawn_oracle failing_tool_host i)
            [StdoutData "7-Zip "; StderrData "ERROR: bad archive"] (Some 2))
  ∧ let r := Install.main sample_join sample_seconds sample_MB sample_cfg failing_tool_host
               sample_world in
    r.1 = ProcessExit 1
    ∧ fs r.2 !! sample_archive = Some (RegularFile 2097152)
    ∧ ∃ new msg, trace r.2 = trace sample_world ++ new
                 ∧ filter (λ ev, is_io ev = true) new
                   = [sample_get; SetTimeout 200; FsOpen sample_archive]
                     ++ spaced sample_spawn 3 2000
                 ∧ last new = Some (ConsoleErrorObj "无法读取目录:" (new_Error msg))
                 ∧ includes (Install.show_code (Some 2)) msg = true
                 ∧ includes (captured [StdoutData "7-Zip "; StderrData "ERROR: bad archive"])
                     msg = true.
Proof.
  assert (Hz : sample_archive ≠ "") by discriminate.
  assert (Hzd : sample_archive ≠ "/opt/compilers") by discriminate.
  assert (Hfail : ∀ i, failing_run (spawn_oracle failing_tool_host i)
                         [StdoutData "7-Zip "; StderrData "ERROR: bad archive"] (Some 2)).
  { intros i. split; [repeat constructor|]. split; [discriminate|]. by exists []. }
  split; [reflexivity|]. split; [exact Hz|]. split; [exact Hzd|].
  do 3 (split; [reflexivity|]). split; [lia|]. split; [reflexivity|]. split; [exact Hfail|].
  apply (install_extraction_fails sample_join sample_seconds sample_MB sample_cfg
           failing_tool_host sample_world 0 2097152 3 None
           (λ _, [StdoutData "7-Zip "; StderrData "ERROR: bad archive"]) (λ _, Some 2)
           eq_refl Hz Hzd eq_refl eq_refl eq_refl ltac:(lia) eq_refl).
  intros i _. apply Hfail.
Defined.

Lemma install_download_fails_witness :
  ready_to_download sample_join sample_cfg missing_host sample_world = true
  ∧ sample_archive ≠ "/opt/compilers"
  ∧ exists_in (fs sample_world) sample_archive = false
  ∧ (∀ i, failing_answer (http_oracle missing_host i))
  ∧ (∀ i, unlink_oracle missing_host i = true)
  ∧ let r := Install.main sample_join sample_seconds sample_MB sample_cfg missing_host
               sample_world in
    r.1 = ProcessExit 1
    ∧ fs r.2 !! sample_archive = None
    ∧ ∃ new e, trace r.2 = trace sample_world ++ new
               ∧ filter (λ ev, is_io ev = true) new = spaced sample_get 3 2000
               ∧ last new
                 = Some (ConsoleErrorObj "无法读取目录:"
                           (new_Error ("无法下载zip文件: " +:+ exhausted_message 3 e))).
Proof.
  assert (Hzd : sample_archive ≠ "/opt/compilers") by discriminate.
  assert (Hfail : ∀ i, failing_answer (http_oracle missing_host i))
    by (intros i; left; discriminate).
  split; [reflexivity|]. split; [exact Hzd|]. split; [reflexivity|]. split; [exact Hfail|].
  split; [reflexivity|].
  apply (install_download_fails sample_join sample_seconds sample_MB sample_cfg missing_host
           sample_world eq_refl Hzd eq_refl); [|reflexivity].
  intros i _. apply Hfail.
Defined.

Lemma install_keeps_truncated_archive_witness :
  ready_to_download sample_join sample_cfg quiet_host stale_world = true
  ∧ sample_archive ≠ "" ∧ sample_archive ≠ "/opt/compilers"
  ∧ fs stale_world !! sample_archive = Some (RegularFile 1000)
  ∧ fs_fault quiet_host OpStatSync sample_archive = None
  ∧ node_size (RegularFile 1000) < 1048576
  ∧ let r := Install.main sample_join sample_seconds sample_MB sample_cfg quiet_host
               stale_world in
    r.1 = ProcessExit 1
    ∧ fs r.2 !! sample_archive = Some (RegularFile 1000)
    ∧ ∃ new, trace r.2 = trace stale_world ++ new
             ∧ filter (λ ev, is_io ev = true) new = []
             ∧ last new = Some (ConsoleErrorObj "无法读取目录:"
                                  (new_Error (too_small_message 1000))).
Proof.
  assert (Hz : sample_archive ≠ "") by discriminate.
  assert (Hzd : sample_archive ≠ "/opt/compilers") by discriminate.
  assert (Hsmall : node_size (RegularFile 1000) < 1048576) by (cbn; lia).
  split; [reflexivity|]. split; [exact Hz|]. split; [exact Hzd|].
  do 2 (split; [reflexivity|]). split; [exact Hsmall|].
  apply (install_keeps_truncated_archive sample_join sample_seconds sample_MB sample_cfg
           quiet_host stale_world (RegularFile 1000) eq_refl Hz Hzd eq_refl eq_refl Hsmall).
Defined.

Lemma install_wait_fails_witness :
  ready_to_download sample_join sample_cfg locked_host sample_world = true
  ∧ sample_archive ≠ "/opt/compilers"
  ∧ exists_in (fs sample_world) sample_archive = false
  ∧ http_oracle locked_host 0 = Response 200 0 (BodyFinish 2097152)
  ∧ fs_fault locked_host OpStatSync sample_archive = None
  ∧ 1048576 ≤ 2097152
  ∧ (∀ i, open_oracle locked_host i = OpenErr EBUSY_error)
  ∧ retriable_code EBUSY_error
  ∧ let r := Install.main sample_join sample_seconds sample_MB sample_cfg locked_host
               sample_world in
    r.1 = ProcessExit 1
    ∧ fs r.2 !! sample_archive = Some (RegularFile 2097152)
    ∧ ∃ new, trace r.2 = trace sample_world ++ new
             ∧ filter (λ ev, is_io ev = true) new
               = [sample_get; SetTimeout 200] ++ spaced (FsOpen sample_archive) 20 500
             ∧ last new
               = Some (ConsoleErrorObj "无法读取目录:"
                         (new_Error ("等待文件就绪失败: "
                                     +:+ unavailable_message sample_archive 20))).
Proof.
  assert (Hzd : sample_archive ≠ "/opt/compilers") by discriminate.
  assert (Hcode : retriable_code EBUSY_error) by (by left).
  split; [reflexivity|]. split; [exact Hzd|]. do 3 (split; [reflexivity|]).
  split; [lia|]. split; [reflexivity|]. split; [exact Hcode|].
  apply (install_wait_fails sample_join sample_seconds sample_MB sample_cfg locked_host
           sample_world 0 2097152 eq_refl Hzd eq_refl eq_refl eq_refl ltac:(lia)).
  intros i _. by exists EBUSY_error.
Defined.

Lemma install_download_stalls_witness :
  ready_to_download sample_join sample_cfg silent_host sample_world = true
  ∧ sample_archive ≠ "/opt/compilers"
  ∧ exists_in (fs sample_world) sample_archive = false
  ∧ stalling_answer (http_oracle silent_host (count is_HttpGet (trace sample_world)))
  ∧ let r := Install.main sample_join sample_seconds sample_MB sample_cfg silent_host
               sample_world in
    r.1 = Hang
    ∧ is_Some (fs r.2 !! sample_archive)
    ∧ ∃ new, trace r.2 = trace sample_world ++ new
             ∧ filter (λ ev, is_io ev = true) new = [sample_get].
Proof.
  assert (Hzd : sample_archive ≠ "/opt/compilers") by discriminate.
  split; [reflexivity|]. split; [exact Hzd|]. split; [reflexivity|]. split; [exact I|].
  apply (install_download_stalls sample_join sample_seconds sample_MB sample_cfg silent_host
           sample_world eq_refl Hzd eq_refl I).
Defined.

Lemma install_stream_open_error_witness :
  ready_to_download sample_join sample_cfg full_disk_host sample_world = true
  ∧ sample_archive ≠ "/opt/compilers"
  ∧ exists_in (fs sample_world) sample_archive = false
  ∧ http_oracle full_disk_host (count is_HttpGet (trace sample_world))
    = StreamOpenError ENOSPC_error
  ∧ let r := Install.main sample_join sample_seconds sample_MB sample_cfg full_disk_host
               sample_world in
    r.1 = ProcessExit 1
    ∧ fs r.2 !! sample_archive = fs sample_world !! sample_archive
    ∧ ∃ new, trace r.2 = trace sample_world ++ new
             ∧ filter (λ ev, is_io ev = true) new = [sample_get]
             ∧ count is_error_report new = 0%nat
             ∧ last new = Some (UncaughtError ENOSPC_error).
Proof.
  assert (Hzd : sample_archive ≠ "/opt/compilers") by discriminate.
  split; [reflexivity|]. split; [exact Hzd|]. do 2 (split; [reflexivity|]).
  apply (install_stream_open_error sample_join sample_seconds sample_MB sample_cfg
           full_disk_host sample_world ENOSPC_error eq_refl Hzd eq_refl eq_refl).
Defined.

Lemma install_takes_leftover_witness :
  ready_to_download sample_join sample_cfg sticky_host sample_world = true
  ∧ sample_archive ≠ "" ∧ sample_archive ≠ "/opt/compilers"
  ∧ exists_in (fs sample_world) sample_archive = false
  ∧ leftover_size (http_oracle sticky_host (count is_HttpGet (trace sample_world)))
                  (unlink_oracle sticky_host (count is_FsUnlink (trace sample_world)))
    = Some 0
  ∧ fs_fault sticky_host OpStatSync sample_archive = None
  ∧ 0 < 1048576
  ∧ let r := Install.main sample_join sample_seconds sample_MB sample_cfg sticky_host
               sample_world in
    r.1 = ProcessExit 1
    ∧ fs r.2 !! sample_archive = Some (RegularFile 0)
    ∧ ∃ new, trace r.2 = trace sample_world ++ new
             ∧ filter (λ ev, is_io ev = true) new = [sample_get; SetTimeout 2000]
             ∧ last new = Some (ConsoleErrorObj "无法读取目录:"
                                  (new_Error (too_small_message 0))).
Proof.
  assert (Hz : sample_archive ≠ "") by discriminate.
  assert (Hzd : sample_archive ≠ "/opt/compilers") by discriminate.
  split; [reflexivity|]. split; [exact Hz|]. split; [exact Hzd|].
  do 3 (split; [reflexivity|]). split; [lia|].
  apply (install_takes_leftover sample_join sample_seconds sample_MB sample_cfg sticky_host
           sample_world 0 eq_refl Hz Hzd eq_refl eq_refl eq_refl ltac:(lia)).
Defined.

Lemma uninstall_clean_witness :
  fs_fault quiet_host OpUnlinkSync sample_archive = None
  ∧ (∀ n, fs unpacked_world !! sample_archive = Some n → node_is_dir n = false)
  ∧ has_rmSync quiet_host = true
  ∧ fs_fault quiet_host OpRmSync "/opt/compilers/esp-x32@1.0.0" = None
  ∧ let r := Uninstall.main sample_join sample_cfg quiet_host unpacked_world in
    fs r.2 !! sample_archive = None
    ∧ ("/opt/compilers" ≠ "" → fs r.2 !! "/opt/compilers/esp-x32@1.0.0" = None)
    ∧ ∃ new, trace r.2 = trace unpacked_world ++ new ∧ count is_warning new = 0%nat.
Proof.
  assert (Hfile : ∀ n, fs unpacked_world !! sample_archive = Some n → node_is_dir n = false).
  { intros n Hn. vm_compute in Hn. by injection Hn as <-. }
  split; [reflexivity|]. split; [exact Hfile|]. do 2 (split; [reflexivity|]).
  apply (uninstall_clean sample_join sample_cfg quiet_host unpacked_world
           eq_refl Hfile eq_refl eq_refl).
Defined.

Lemma uninstall_without_directory_removal_witness :
  (Uninstall.destDir sample_cfg = ""
   ∨ has_rmSync old_node_host = false ∧ has_rmdirSync old_node_host = false)
  ∧ let r := Uninstall.main sample_join sample_cfg old_node_host unpacked_world in
    (∀ q, q ≠ sample_archive → fs r.2 !! q = fs unpacked_world !! q)
    ∧ ∃ new, trace r.2 = trace unpacked_world ++ new ∧ count is_removal new = 0%nat.
Proof.
  assert (H : Uninstall.destDir sample_cfg = ""
              ∨ has_rmSync old_node_host = false ∧ has_rmdirSync old_node_host = false)
    by (by right).
  split; [exact H|].
  apply (uninstall_without_directory_removal sample_join sample_cfg old_node_host
           unpacked_world H).
Defined.


Lemma scoped_package_names_witness :
  package_name sample_cfg = "@aily-project/compiler-" +:+ "esp-x32"
  ∧ Install.getZipFileName sample_cfg = "esp-x32" +:+ "@" +:+ package_version sample_cfg +:+ ".7z"
  ∧ Uninstall.zipFilePath sample_join sample_cfg
    = sample_join (dirname sample_cfg)
        ("esp-x32" +:+ "@" +:+ package_version sample_cfg +:+ ".7z")
  ∧ Uninstall.compilerDirName sample_cfg = "esp-x32" +:+ "@" +:+ package_version sample_cfg.
Proof.
  split; [reflexivity|].
  apply (scoped_package_names sample_join sample_cfg "esp-x32" eq_refl).
Defined.

Lemma download_then_removeFile_witness :
  fs sample_world !! Uninstall.zipFilePath sample_join sample_cfg = None
  ∧ http_oracle quiet_host (count is_HttpGet (trace sample_world))
    = Response 200 0 (BodyFinish 2097152)
  ∧ fs_fault quiet_host OpUnlinkSync (Uninstall.zipFilePath sample_join sample_cfg) = None
  ∧ let w1 := (Install.getZipFile sample_join sample_cfg quiet_host sample_world).2 in
    let r := Uninstall.removeFile quiet_host (Uninstall.zipFilePath sample_join sample_cfg) w1 in
    fs w1 !! Uninstall.zipFilePath sample_join sample_cfg = Some (RegularFile 2097152)
    ∧ r.1 = Normal tt
    ∧ fs r.2 = fs sample_world.
Proof.
  assert (Habsent : fs sample_world !! Uninstall.zipFilePath sample_join sample_cfg = None)
    by (vm_compute; reflexivity).
  split; [exact Habsent|]. do 2 (split; [reflexivity|]).
  apply (download_then_removeFile sample_join sample_cfg quiet_host sample_world 0 2097152
           Habsent eq_refl eq_refl).
Defined.

Lemma targetDirName_agrees_witness :
  includes ".7z" (Uninstall.compilerDirName sample_cfg) = false
  ∧ Install.targetDirName sample_cfg = Uninstall.compilerDirName sample_cfg.
Proof.
  split; [reflexivity|]. apply (targetDirName_agrees sample_cfg). reflexivity.
Defined.
